(** * Airline data warehouse: the staging load and the dimension/fact merge

    A shallow embedding of [etl_pipeline.py].  The pipeline talks to one SQL
    store through one connection; the store is modelled as a finite map from
    table names to tables, the connection as the pair of the committed and
    the in-transaction contents, and every [print] as an event appended to
    a log.  Python exceptions are the [Raise] outcome of a small state and
    error monad; a [try]/[except] block is [try_merge].

    The table declarations (types, keys, constraints) are not part of the
    program: whatever the store checks when a row is written is the
    [accepts] field of an [engine], and every theorem holds for every
    engine.  A number of SQL type FLOAT, or a [float64] of pandas, is the
    rational it denotes; what an operation on such numbers rounds its
    result to is the [rounding] of the engine and of the library.

    The extract and transform calls that come before the first load are
    embedded in the same way, on frames; there the text methods and the
    conversions of pandas are the fields of a [pandas] record. *)

From Stdlib Require Import ZArith QArith Qabs String List Bool Lia DecimalString.
From stdpp Require Import gmap strings.
Import ListNotations.
Local Open Scope Z_scope.

(** ** Scalars, rows and tables *)

(** A scalar as pandas and the store exchange it; [VNull] is NULL/NaN/None. *)
Inductive value :=
  | VNull
  | VInt (n : Z)
  | VStr (s : string)
  | VNum (q : Q).

(** A record that names its columns, like [row.to_dict()] or the column and
    value lists of one INSERT. *)
Definition row := list (string * value).

(** [r[c]]; a column the row does not name reads as NULL. *)
Fixpoint get (r : row) (c : string) : value :=
  match r with
  | [] => VNull
  | (k, v) :: r' => if String.eqb k c then v else get r' c
  end.

(** [c in cols] *)
Definition inb (c : string) (cols : list string) : bool :=
  existsb (String.eqb c) cols.

(** [SET c = v] on a stored row. *)
Fixpoint set_col (r : row) (c : string) (v : value) : row :=
  match r with
  | [] => [(c, v)]
  | (k, x) :: r' => if String.eqb k c then (k, v) :: r' else (k, x) :: set_col r' c v
  end.

Definition is_null (v : value) : bool :=
  match v with VNull => true | _ => false end.

Definition is_number (v : value) : bool :=
  match v with VInt _ | VNum _ => true | _ => false end.

(** Two keys denote the same business key (NULL counted as a key value). *)
Definition key_eqb (a b : value) : bool :=
  match a, b with
  | VNull, VNull => true
  | VInt m, VInt n => Z.eqb m n
  | VStr s, VStr t => String.eqb s t
  | VNum p, VNum q => Qeq_bool p q
  | VInt m, VNum q => Qeq_bool (inject_Z m) q
  | VNum q, VInt m => Qeq_bool q (inject_Z m)
  | _, _ => false
  end.

(** The SQL predicate [a = b]: never true when a side is NULL. *)
Definition sql_eq (a b : value) : bool :=
  negb (is_null a) && negb (is_null b) && key_eqb a b.

(** No two elements of the key list denote the same key. *)
Fixpoint distinct_keys (ks : list value) : bool :=
  match ks with
  | [] => true
  | k :: ks' => negb (existsb (key_eqb k) ks') && distinct_keys ks'
  end.

Definition keys_of (k : string) (rs : list row) : list value :=
  map (fun r => get r k) rs.

(** A table of the store: its catalog columns in ordinal order and its rows. *)
Record table := { tcols : list string; trows : list row }.

(** The store: every table of schema [dbo], by name. *)
Abbreviation db := (gmap string table).

(** A pandas frame: the column labels (unique) and one value list per row. *)
Record DataFrame := { columns : list string; data : list (list value) }.

(** [df.iterrows()]: each row with its labels. *)
Definition iterrows (df : DataFrame) : list row :=
  map (combine (columns df)) (data df).

(** [df[valid_columns]] for [valid_columns] a sub-list of [df.columns]. *)
Definition select_columns (keep : string -> bool) (df : DataFrame) : DataFrame :=
  {| columns := List.filter keep (columns df);
     data := map (fun vs => map snd (List.filter (fun p => keep (fst p))
                                        (combine (columns df) vs)))
                 (data df) |}.

(** [df.empty] *)
Definition df_empty (df : DataFrame) : bool :=
  match columns df, data df with
  | [], _ | _, [] => true
  | _, _ => false
  end.

(** ** Exceptions, log and connection *)

Inductive exn :=
  | InvalidObject (t : string)          (* the statement names an unknown table *)
  | InvalidColumn (c : string)          (* the statement names an unknown column *)
  | SyntaxError                         (* an INSERT with an empty column list *)
  | IndexError                          (* [cols[0]] on an empty list *)
  | Rejected (t : string) (r : row)     (* the store refuses to write the row *)
  | ConversionError (v : value)         (* CAST of a text that is no number *)
  | MultipleMatch (t : string).         (* MERGE updates one row twice *)

(** One [print] of the program. *)
Inductive event :=
  | Loading (t : string)
  | WarnNoColumns (t : string)
  | WarnSkipped (missing : list string) (t : string)
  | ErrInsert (e : exn)
  | RowData (r : row)
  | Loaded (n : nat) (t : string)
  | MergeStart
  | StagingHeader                       (* the title of the column listing *)
  | TableInfo (t : string) (cols : list string)
  | BlankLine                           (* [print()] *)
  | Merged (t : string)
  | MergeError (t : string) (e : exn)
  | MergeComplete
  | SkipApi
  | Completed.

Inductive outcome (A : Type) :=
  | Ok (a : A)
  | Raise (e : exn).
Arguments Ok {A} a.
Arguments Raise {A} e.

Definition obind {A B} (x : outcome A) (k : A -> outcome B) : outcome B :=
  match x with
  | Ok a => k a
  | Raise e => Raise e
  end.

Notation "'let!' x ':=' e 'in' k" := (obind e (fun x => k))
  (at level 10, x name, e at level 100, k at level 200).
Notation "'check!' e 'in' k" := (obind e (fun _ => k))
  (at level 10, e at level 100, k at level 200).

(** Binary64 arithmetic (FLOAT in the store, [float64] in pandas): an
    operation returns the binary64 number nearest to its exact result.  The
    rounding is left open but for three facts of binary64: it is monotone,
    it keeps every whole number up to 2^53, and it keeps the quotient of
    such a number by a power of two up to 2^1022.  Overflow to infinity is
    not modelled. *)
Record rounding := {
  fl : Q -> Q;
  fl_monotone : forall x y, (x <= y)%Q -> (fl x <= fl y)%Q;
  fl_int : forall n : Z, Z.abs n <= 2 ^ 53 -> (fl (inject_Z n) == inject_Z n)%Q;
  fl_dyadic : forall (m : Z) (k : positive),
    Z.abs m <= 2 ^ 53 -> (k <= 1022)%positive -> (fl (m # 2 ^ k) == m # 2 ^ k)%Q
}.

(** What the store checks and converts, left open by the program. *)
Record engine := {
  accepts : string -> list row -> row -> bool;
      (* may this row be written to that table, next to those rows? *)
  float : rounding;    (* of the results of FLOAT arithmetic *)
  float_of_text : string -> option Q;
  text_of_float : Q -> string
}.

(** The connection (autocommit off) and the console. *)
Record world := {
  committed : db;      (* what survives the process *)
  session : db;        (* what the open transaction sees *)
  out : list event
}.

Definition M (A : Type) : Type := world -> outcome A * world.

Definition ret {A} (a : A) : M A := fun w => (Ok a, w).

Definition bind {A B} (m : M A) (k : A -> M B) : M B :=
  fun w =>
    match m w with
    | (Ok a, w') => k a w'
    | (Raise e, w') => (Raise e, w')
    end.

Definition raise {A} (e : exn) : M A := fun w => (Raise e, w).

Notation "x <- m ;; k" := (bind m (fun x => k))
  (at level 100, m at next level, right associativity).
Notation "m ;; k" := (bind m (fun _ => k))
  (at level 100, right associativity).

Definition print (ev : event) : M unit :=
  fun w => (Ok tt, {| committed := committed w; session := session w;
                      out := out w ++ [ev] |}).

(** [conn.commit()] *)
Definition commit : M unit :=
  fun w => (Ok tt, {| committed := session w; session := session w; out := out w |}).

(** [pyodbc.connect(CONN_STR)] on a store holding [d]. *)
Definition connect (d : db) : world :=
  {| committed := d; session := d; out := [] |}.

(** [cursor.execute(sql)]: the statement runs in the open transaction; a
    failed statement changes nothing. *)
Definition execute (stmt : db -> outcome db) : M unit :=
  fun w =>
    match stmt (session w) with
    | Ok d' => (Ok tt, {| committed := committed w; session := d'; out := out w |})
    | Raise e => (Raise e, w)
    end.

(** ** Statements of the staging load *)

Definition need_table (d : db) (t : string) : outcome table :=
  match d !! t with
  | Some tb => Ok tb
  | None => Raise (InvalidObject t)
  end.

Fixpoint need_cols (have want : list string) : outcome unit :=
  match want with
  | [] => Ok tt
  | c :: want' => if inb c have then need_cols have want' else Raise (InvalidColumn c)
  end.

(** [DELETE FROM dbo.t] *)
Definition sql_delete (t : string) (d : db) : outcome db :=
  let! tb := need_table d t in
  Ok (<[t := {| tcols := tcols tb; trows := [] |}]> d).

Section Store.
Variable E : engine.

(** [INSERT INTO dbo.t ([c1], ...) VALUES (?, ...)] with the values of [r]. *)
Definition sql_insert (t : string) (r : row) (d : db) : outcome db :=
  match r with
  | [] => Raise SyntaxError
  | _ :: _ =>
      let! tb := need_table d t in
      check! need_cols (tcols tb) (map fst r) in
      if accepts E t (trows tb) r
      then Ok (<[t := {| tcols := tcols tb; trows := trows tb ++ [r] |}]> d)
      else Raise (Rejected t r)
  end.

(** ** The staging writer *)

(** The catalog query of [get_table_columns]. *)
Definition get_table_columns (table_name : string) : M (list string) :=
  fun w =>
    (Ok match session w !! table_name with
        | Some tb => tcols tb
        | None => []
        end, w).

(** The loop over [df.iterrows()]: an insert that fails is reported with the
    row and raised again. *)
Fixpoint insert_rows (table_name : string) (rs : list row) : M unit :=
  match rs with
  | [] => ret tt
  | r :: rs' =>
      fun w =>
        match execute (sql_insert table_name r) w with
        | (Ok _, w') => insert_rows table_name rs' w'
        | (Raise e, w') => (print (ErrInsert e) ;; print (RowData r) ;; raise e) w'
        end
  end.

Definition load_to_staging (df : DataFrame) (table_name : string) : M unit :=
  print (Loading table_name) ;;
  db_columns <- get_table_columns table_name ;;
  df <- match db_columns with
        | [] => print (WarnNoColumns table_name) ;; ret df
        | _ :: _ =>
            let valid_columns := List.filter (fun col => inb col db_columns) (columns df) in
            (if Nat.eqb (length valid_columns) (length (columns df)) then ret tt
             else
               let missing := List.filter (fun col => negb (inb col db_columns)) (columns df) in
               print (WarnSkipped missing table_name)) ;;
            ret (select_columns (fun col => inb col db_columns) df)
        end ;;
  execute (sql_delete table_name) ;;
  commit ;;
  insert_rows table_name (iterrows df) ;;
  commit ;;
  print (Loaded (length (data df)) table_name).

End Store.

(** ** Column resolution *)

(** The loop of [transform_oltp2_aircrafts] over its candidate names: the
    first candidate that is a column of the frame, [None] when the loop ends
    without a [break]. *)
Fixpoint first_present (candidates cols : list string) : option string :=
  match candidates with
  | [] => None
  | possible_id :: rest =>
      if inb possible_id cols then Some possible_id else first_present rest cols
  end.

Definition transform_oltp2_aircrafts_id_col (cols : list string) : option string :=
  first_present ["AircraftID"; "PlaneID"; "ID"] cols.

(** ['a' if 'a' in cols else 'b'] *)
Definition col_or (a b : string) (cols : list string) : string :=
  if inb a cols then a else b.

(** ['a' if 'a' in cols else cols[0]] *)
Definition col_or_first (a : string) (cols : list string) : outcome string :=
  if inb a cols then Ok a
  else match cols with
       | c :: _ => Ok c
       | [] => Raise IndexError
       end.

(** ** The survey average *)

(** The fourteen survey columns of [Stg_CustomerSatisfaction], in the order
    of the sum in the satisfaction merge. *)
Definition survey_columns : list string :=
  ["InflightWifiService"; "DepartureArrivalConvenient"; "EaseOfOnlineBooking";
   "GateLocation"; "FoodAndDrink"; "OnlineBoarding"; "SeatComfort";
   "InflightEntertainment"; "OnboardService"; "LegRoomService"; "BaggageHandling";
   "CheckinService"; "InflightService"; "Cleanliness"].

(** [rating_cols] of [transform_csv]: the same fourteen fields under their
    labels in the survey file. *)
Definition rating_cols : list string :=
  ["Inflight wifi service"; "Departure/Arrival time convenient"; "Ease of Online booking";
   "Gate location"; "Food and drink"; "Online boarding"; "Seat comfort";
   "Inflight entertainment"; "On-board service"; "Leg room service"; "Baggage handling";
   "Checkin service"; "Inflight service"; "Cleanliness"].

(** The exact sum of a list of numbers. *)
Definition sum_Q (qs : list Q) : Q := fold_left Qplus qs 0%Q.

Fixpoint map_outcome {A B} (f : A -> outcome B) (l : list A) : outcome (list B) :=
  match l with
  | [] => Ok []
  | a :: l' => let! b := f a in let! bs := map_outcome f l' in Ok (b :: bs)
  end.

(** ** The merger *)

Definition stg_cols (d : db) (t : string) : list string :=
  match d !! t with
  | Some tb => tcols tb
  | None => []
  end.

Section Merger.
Variable E : engine.

(** [CAST(v AS FLOAT)]; a [VNum] is a FLOAT already. *)
Definition cast_float (v : value) : outcome value :=
  match v with
  | VNull => Ok VNull
  | VInt n => Ok (VNum (fl (float E) (inject_Z n)))
  | VNum q => Ok (VNum q)
  | VStr s =>
      match float_of_text E s with
      | Some q => Ok (VNum q)
      | None => Raise (ConversionError v)
      end
  end.

(** [CAST(v AS NVARCHAR(50))] *)
Definition cast_nvarchar50 (v : value) : value :=
  match v with
  | VNull => VNull
  | VInt n => VStr (DecimalString.NilZero.string_of_int (Z.to_int n))
  | VStr s => VStr (substring 0 50 s)
  | VNum q => VStr (substring 0 50 (text_of_float E q))
  end.

(** SQL [a + b] on FLOAT operands: NULL when a side is NULL. *)
Definition sql_add (a b : value) : value :=
  match a, b with
  | VNum p, VNum q => VNum (fl (float E) (p + q))
  | _, _ => VNull
  end.

(** SQL [a / q] for a FLOAT [a] and a non-zero literal [q]. *)
Definition sql_div (a : value) (q : Q) : value :=
  match a with
  | VNum p => VNum (fl (float E) (p / q))
  | _ => VNull
  end.

(** [x1 + x2 + ... + xn], from the left. *)
Definition sum_floats (vs : list value) : value :=
  match vs with
  | [] => VNull
  | v :: vs' => fold_left sql_add vs' v
  end.

(** The derived column of the satisfaction merge:
    [(CAST(c1 AS FLOAT) + ... + CAST(c14 AS FLOAT)) / 14.0]. *)
Definition AverageRating (r : row) : outcome value :=
  let! xs := map_outcome cast_float (map (get r) survey_columns) in
  Ok (sql_div (sum_floats xs) 14).

(** [ON tgt.kt = src.ks] *)
Definition matched (kt ks : string) (t s : row) : bool :=
  sql_eq (get t kt) (get s ks).

(** [WHEN MATCHED THEN UPDATE]: every target row joined to one source row is
    rewritten; a target row joined to several source rows fails the
    statement. *)
Fixpoint update_matched (tname kt ks : string) (upd : row -> row -> row)
    (src pre tgt : list row) : outcome (list row) :=
  match tgt with
  | [] => Ok pre
  | t :: tgt' =>
      match List.filter (matched kt ks t) src with
      | [] => update_matched tname kt ks upd src (pre ++ [t]) tgt'
      | [s] =>
          let t' := upd t s in
          if accepts E tname (pre ++ tgt') t'
          then update_matched tname kt ks upd src (pre ++ [t']) tgt'
          else Raise (Rejected tname t')
      | _ :: _ :: _ => Raise (MultipleMatch tname)
      end
  end.

(** [WHEN NOT MATCHED THEN INSERT]: every source row joined to no row the
    target held when the statement began is inserted. *)
Fixpoint insert_unmatched (tname kt ks : string) (ins : row -> row)
    (tgt0 acc src : list row) : outcome (list row) :=
  match src with
  | [] => Ok acc
  | s :: src' =>
      if existsb (fun t => matched kt ks t s) tgt0
      then insert_unmatched tname kt ks ins tgt0 acc src'
      else
        let r := ins s in
        if accepts E tname acc r
        then insert_unmatched tname kt ks ins tgt0 (acc ++ [r]) src'
        else Raise (Rejected tname r)
  end.

(** One [MERGE dbo.tname AS tgt USING src ON tgt.kt = src.ks ...]: the new
    contents of the target.  [tneed] and [sneed] are the columns the
    statement names on either side. *)
Definition sql_merge (tname : string) (tneed : list string) (kt ks : string)
    (src : db -> outcome table) (sneed : list string)
    (upd : option (row -> row -> row)) (ins : row -> row) (d : db) : outcome table :=
  let! tgt := need_table d tname in
  let! s := src d in
  check! need_cols (tcols tgt) tneed in
  check! need_cols (tcols s) sneed in
  let! t1 := match upd with
             | None => Ok (trows tgt)
             | Some u => update_matched tname kt ks u (trows s) [] (trows tgt)
             end in
  let! t2 := insert_unmatched tname kt ks ins (trows tgt) t1 (trows s) in
  Ok {| tcols := tcols tgt; trows := t2 |}.

(** [USING dbo.t AS src] *)
Definition staging (t : string) (d : db) : outcome table := need_table d t.

Definition merge_DimCustomer (d : db) : outcome table :=
  sql_merge "DimCustomer" ["CustomerID"; "Name"] "CustomerID" "CustomerID"
    (staging "Stg_Customers") ["CustomerID"; "Name"]
    (Some (fun t s => set_col t "Name" (get s "Name")))
    (fun s => [("CustomerID", get s "CustomerID"); ("Name", get s "Name")]) d.

Definition merge_DimAircraft (stg_aircrafts_cols : list string) (d : db) : outcome table :=
  let aircraft_id_col := col_or "PlaneID" "AircraftID" stg_aircrafts_cols in
  sql_merge "DimAircraft" ["AircraftID"; "Model"; "Capacity"; "ManufactureYear"]
    "AircraftID" aircraft_id_col
    (staging "Stg_Aircrafts") [aircraft_id_col; "Model"; "Capacity"; "ManufactureYear"]
    None
    (fun s => [("AircraftID", get s aircraft_id_col); ("Model", get s "Model");
               ("Capacity", get s "Capacity"); ("ManufactureYear", get s "ManufactureYear")]) d.

Definition merge_DimRoute (stg_routes_cols : list string) (d : db) : outcome table :=
  let! route_id_col := col_or_first "RouteID" stg_routes_cols in
  let origin_col := col_or "Source" "Origin" stg_routes_cols in
  sql_merge "DimRoute" ["RouteID"; "Origin"; "Destination"; "Distance"]
    "RouteID" route_id_col
    (staging "Stg_Routes") [route_id_col; origin_col; "Destination"; "Distance"]
    None
    (fun s => [("RouteID", get s route_id_col); ("Origin", get s origin_col);
               ("Destination", get s "Destination"); ("Distance", get s "Distance")]) d.

Definition merge_DimFlight (stg_flights_cols : list string) (d : db) : outcome table :=
  let! flight_id_col := col_or_first "FlightID" stg_flights_cols in
  sql_merge "DimFlight" ["FlightID"; "FlightNumber"; "DepartureTime"; "ArrivalTime"]
    "FlightID" flight_id_col
    (staging "Stg_Flights") [flight_id_col; "DepartureTime"; "ArrivalTime"]
    None
    (fun s => [("FlightID", get s flight_id_col);
               ("FlightNumber", cast_nvarchar50 (get s flight_id_col));
               ("DepartureTime", get s "DepartureTime");
               ("ArrivalTime", get s "ArrivalTime")]) d.

Definition merge_DimPayment (stg_payments_cols : list string) (d : db) : outcome table :=
  let! payment_id_col := col_or_first "PaymentID" stg_payments_cols in
  let method_col := col_or "Method" "PaymentMethod" stg_payments_cols in
  let date_col := col_or "Date" "PaymentDate" stg_payments_cols in
  sql_merge "DimPayment" ["PaymentID"; "PaymentMethod"; "Amount"; "PaymentDate"]
    "PaymentID" payment_id_col
    (staging "Stg_Payments") [payment_id_col; method_col; "Amount"; date_col]
    None
    (fun s => [("PaymentID", get s payment_id_col); ("PaymentMethod", get s method_col);
               ("Amount", get s "Amount"); ("PaymentDate", get s date_col)]) d.

Definition satisfaction_columns : list string :=
  ["CustomerID"; "TypeOfTravel"; "Class"; "FlightDistance"; "Satisfaction"; "AverageRating"].

(** The derived table [USING (SELECT ... FROM dbo.Stg_CustomerSatisfaction)]. *)
Definition satisfaction_source (d : db) : outcome table :=
  let! stg := need_table d "Stg_CustomerSatisfaction" in
  check! need_cols (tcols stg)
    (["CustomerID"; "TypeOfTravel"; "Class"; "FlightDistance"; "Satisfaction"]
       ++ survey_columns) in
  let! rows :=
    map_outcome
      (fun r =>
         let! avg := AverageRating r in
         Ok [("CustomerID", get r "CustomerID"); ("TypeOfTravel", get r "TypeOfTravel");
             ("Class", get r "Class"); ("FlightDistance", get r "FlightDistance");
             ("Satisfaction", get r "Satisfaction"); ("AverageRating", avg)])
      (trows stg) in
  Ok {| tcols := satisfaction_columns; trows := rows |}.

Definition merge_DimSatisfaction (stg_satisfaction_cols : list string) (d : db) : outcome table :=
  let! satisfaction_id_col := col_or_first "CustomerID" stg_satisfaction_cols in
  sql_merge "DimSatisfaction" satisfaction_columns "CustomerID" "CustomerID"
    satisfaction_source satisfaction_columns
    None
    (fun s => [("CustomerID", get s "CustomerID"); ("TypeOfTravel", get s "TypeOfTravel");
               ("Class", get s "Class"); ("FlightDistance", get s "FlightDistance");
               ("Satisfaction", get s "Satisfaction");
               ("AverageRating", get s "AverageRating")]) d.

Definition booking_columns : list string :=
  ["BookingID"; "CustomerID"; "FlightID"; "RouteID"; "AircraftID"; "PaymentID";
   "SatisfactionKey"; "BookingDate"].

(** One row of the SELECT list of the booking source, from a booking row [b]
    and the flight row [f] joined to it ([[]], all NULL, when none is). *)
Definition booking_select (booking_id_col customer_id_col flight_id_col date_col : string)
    (b f : row) : row :=
  [("BookingID", get b booking_id_col);
   ("CustomerID", get b customer_id_col);
   ("FlightID", get b flight_id_col);
   ("RouteID", get f "RouteID");
   ("AircraftID", get f "PlaneID");
   ("PaymentID", get b booking_id_col);
   ("SatisfactionKey", get b customer_id_col);
   ("BookingDate", get b date_col)].

(** [b LEFT JOIN f ON b.flight_id_col = f.FlightID]: the flight rows joined
    to [b], or one all-NULL row. *)
Definition left_join (flight_id_col : string) (flights : list row) (b : row) : list row :=
  match List.filter (fun f => sql_eq (get b flight_id_col) (get f "FlightID")) flights with
  | [] => [[]]
  | f :: fs => f :: fs
  end.

(** The derived table [USING (SELECT ... FROM dbo.Stg_Bookings b LEFT JOIN
    dbo.Stg_Flights f ...)]. *)
Definition booking_source (booking_id_col customer_id_col flight_id_col date_col : string)
    (d : db) : outcome table :=
  let! b := need_table d "Stg_Bookings" in
  let! f := need_table d "Stg_Flights" in
  check! need_cols (tcols b) [booking_id_col; customer_id_col; flight_id_col; date_col] in
  check! need_cols (tcols f) ["RouteID"; "PlaneID"; "FlightID"] in
  Ok {| tcols := booking_columns;
        trows := flat_map
                   (fun br => map (booking_select booking_id_col customer_id_col
                                     flight_id_col date_col br)
                                  (left_join flight_id_col (trows f) br))
                   (trows b) |}.

Definition merge_FactBooking (stg_bookings_cols : list string) (d : db) : outcome table :=
  let! booking_id_col := col_or_first "BookingID" stg_bookings_cols in
  let customer_id_col := col_or "CustomerID" "CustomerID" stg_bookings_cols in
  let flight_id_col := col_or "FlightID" "FlightID" stg_bookings_cols in
  let date_col := col_or "Date" "BookingDate" stg_bookings_cols in
  sql_merge "FactBooking" booking_columns "BookingID" "BookingID"
    (booking_source booking_id_col customer_id_col flight_id_col date_col) booking_columns
    None
    (fun s => map (fun c => (c, get s c)) booking_columns) d.

(** The statement as [cursor.execute] runs it: the target is replaced by its
    new contents, or the statement fails and nothing changes. *)
Definition merge_into (tname : string) (new : db -> outcome table) (d : db) : outcome db :=
  let! tb := new d in Ok (<[tname := tb]> d).

(** [try: ... print("merged") except Exception as e: print(error)] *)
Definition try_merge (name : string) (body : M unit) : M unit :=
  fun w =>
    match body w with
    | (Ok _, w') => print (Merged name) w'
    | (Raise e, w') => print (MergeError name e) w'
    end.

Definition print_table_info (table_name : string) : M (list string) :=
  cols <- get_table_columns table_name ;;
  print (TableInfo table_name cols) ;;
  ret cols.

Definition merge_to_dim_fact : M unit :=
  print MergeStart ;;
  print StagingHeader ;;
  stg_customers_cols <- print_table_info "Stg_Customers" ;;
  stg_aircrafts_cols <- print_table_info "Stg_Aircrafts" ;;
  stg_routes_cols <- print_table_info "Stg_Routes" ;;
  stg_flights_cols <- print_table_info "Stg_Flights" ;;
  stg_payments_cols <- print_table_info "Stg_Payments" ;;
  stg_satisfaction_cols <- print_table_info "Stg_CustomerSatisfaction" ;;
  stg_bookings_cols <- print_table_info "Stg_Bookings" ;;
  print BlankLine ;;
  try_merge "DimCustomer" (execute (merge_into "DimCustomer" merge_DimCustomer)) ;;
  try_merge "DimAircraft"
    (execute (merge_into "DimAircraft" (merge_DimAircraft stg_aircrafts_cols))) ;;
  try_merge "DimRoute" (execute (merge_into "DimRoute" (merge_DimRoute stg_routes_cols))) ;;
  try_merge "DimFlight" (execute (merge_into "DimFlight" (merge_DimFlight stg_flights_cols))) ;;
  try_merge "DimPayment"
    (execute (merge_into "DimPayment" (merge_DimPayment stg_payments_cols))) ;;
  try_merge "DimSatisfaction"
    (execute (merge_into "DimSatisfaction" (merge_DimSatisfaction stg_satisfaction_cols))) ;;
  try_merge "FactBooking"
    (execute (merge_into "FactBooking" (merge_FactBooking stg_bookings_cols))) ;;
  commit ;;
  print MergeComplete.

(** ** The pipeline *)

(** The eight frames [main] holds after its extract and transform calls. *)
Record batches := {
  df_cust : DataFrame;
  df_book : DataFrame;
  df_pay : DataFrame;
  df_air : DataFrame;
  df_flights : DataFrame;
  df_routes : DataFrame;
  df_api : DataFrame;
  df_csv : DataFrame
}.

(** The staging loads of [main], in its order. *)
Definition stage_all (B : batches) : M unit :=
  load_to_staging E (df_cust B) "Stg_Customers" ;;
  load_to_staging E (df_book B) "Stg_Bookings" ;;
  load_to_staging E (df_pay B) "Stg_Payments" ;;
  load_to_staging E (df_air B) "Stg_Aircrafts" ;;
  load_to_staging E (df_flights B) "Stg_Flights" ;;
  load_to_staging E (df_routes B) "Stg_Routes" ;;
  load_to_staging E (df_csv B) "Stg_CustomerSatisfaction" ;;
  (if negb (df_empty (df_api B)) then load_to_staging E (df_api B) "Stg_API_Flights"
   else print SkipApi).

(** [conn.close()]: the open transaction is rolled back. *)
Definition close : M unit :=
  fun w => (Ok tt, {| committed := committed w; session := committed w; out := out w |}).

(** [main] from the transformed frames on. *)
Definition main (B : batches) : M unit :=
  stage_all B ;;
  merge_to_dim_fact ;;
  close ;;
  print Completed.

(** One run of the pipeline against a store holding [d]. *)
Definition run (B : batches) (d : db) : outcome unit * world :=
  main B (connect d).

(** What the store holds once the process of that run has ended. *)
Definition after_run (B : batches) (d : db) : db :=
  committed (snd (run B d)).

End Merger.

(** ** The staging load, statement by statement

    What [load_to_staging] sends to the store, as functions of the frame and
    of the destination table alone. *)

(** The frame whose rows are inserted, given the catalog columns. *)
Definition staged_frame (db_columns : list string) (df : DataFrame) : DataFrame :=
  match db_columns with
  | [] => df
  | _ :: _ => select_columns (fun col => inb col db_columns) df
  end.

(** The fields of the frame the destination has no column for. *)
Definition dropped_columns (db_columns : list string) (df : DataFrame) : list string :=
  List.filter (fun col => negb (inb col db_columns)) (columns df).

(** The warnings of one load. *)
Definition staging_warnings (db_columns : list string) (df : DataFrame) (t : string)
    : list event :=
  match db_columns with
  | [] => [WarnNoColumns t]
  | _ :: _ =>
      if Nat.eqb (length (List.filter (fun col => inb col db_columns) (columns df)))
                 (length (columns df))
      then []
      else [WarnSkipped (dropped_columns db_columns df) t]
  end.

(** A record restricted to the columns of the destination. *)
Definition restrict (db_columns : list string) (r : row) : row :=
  List.filter (fun p => inb (fst p) db_columns) r.

(** One INSERT seen from the table it writes. *)
Definition insert_row (E : engine) (t : string) (tb : table) (r : row) : outcome table :=
  match r with
  | [] => Raise SyntaxError
  | _ :: _ =>
      check! need_cols (tcols tb) (map fst r) in
      if accepts E t (trows tb) r
      then Ok {| tcols := tcols tb; trows := trows tb ++ [r] |}
      else Raise (Rejected t r)
  end.

(** The INSERTs of a batch in turn: the table reached, and the first record
    the store refused with its error, if any. *)
Fixpoint insert_all (E : engine) (t : string) (tb : table) (rs : list row)
    : table * option (exn * row) :=
  match rs with
  | [] => (tb, None)
  | r :: rs' =>
      match insert_row E t tb r with
      | Ok tb' => insert_all E t tb' rs'
      | Raise e => (tb, Some (e, r))
      end
  end.

Definition cleared (tb : table) : table := {| tcols := tcols tb; trows := [] |}.

(** The staging loads [main] performs, in its order: the seven it always
    performs and the load of the API frame when that frame is not empty. *)
Definition load_plan (B : batches) : list (DataFrame * string) :=
  [(df_cust B, "Stg_Customers"); (df_book B, "Stg_Bookings"); (df_pay B, "Stg_Payments");
   (df_air B, "Stg_Aircrafts"); (df_flights B, "Stg_Flights"); (df_routes B, "Stg_Routes");
   (df_csv B, "Stg_CustomerSatisfaction")]
    ++ (if negb (df_empty (df_api B)) then [(df_api B, "Stg_API_Flights")] else []).

Fixpoint run_loads (E : engine) (l : list (DataFrame * string)) : M unit :=
  match l with
  | [] => ret tt
  | (df, t) :: l' => load_to_staging E df t ;; run_loads E l'
  end.

(** Nothing is pending on the connection. *)
Definition clean (w : world) : Prop := committed w = session w.

(** The events only the merger and the end of [main] print. *)
Definition merge_event (ev : event) : bool :=
  match ev with
  | MergeStart | StagingHeader | TableInfo _ _ | BlankLine | Merged _ | MergeError _ _
  | MergeComplete | Completed => true
  | _ => false
  end.

(** ** The seven merges, by target *)

Inductive target :=
  | DimCustomer | DimAircraft | DimRoute | DimFlight | DimPayment | DimSatisfaction
  | FactBooking.

(** The targets in the order [merge_to_dim_fact] merges them. *)
Definition all_targets : list target :=
  [DimCustomer; DimAircraft; DimRoute; DimFlight; DimPayment; DimSatisfaction; FactBooking].

Definition target_name (X : target) : string :=
  match X with
  | DimCustomer => "DimCustomer"
  | DimAircraft => "DimAircraft"
  | DimRoute => "DimRoute"
  | DimFlight => "DimFlight"
  | DimPayment => "DimPayment"
  | DimSatisfaction => "DimSatisfaction"
  | FactBooking => "FactBooking"
  end.

(** The staging table a merge takes its rows from. *)
Definition staging_name (X : target) : string :=
  match X with
  | DimCustomer => "Stg_Customers"
  | DimAircraft => "Stg_Aircrafts"
  | DimRoute => "Stg_Routes"
  | DimFlight => "Stg_Flights"
  | DimPayment => "Stg_Payments"
  | DimSatisfaction => "Stg_CustomerSatisfaction"
  | FactBooking => "Stg_Bookings"
  end.

(** The tables the statement of a merge names. *)
Definition reads (X : target) : list string :=
  match X with
  | FactBooking => ["FactBooking"; "Stg_Bookings"; "Stg_Flights"]
  | _ => [target_name X; staging_name X]
  end.

(** The statement of target [X], its column names resolved against the
    staging columns of [d0] (read when the merger starts), run on [d]. *)
Definition merge_with (E : engine) (X : target) (d0 d : db) : outcome table :=
  match X with
  | DimCustomer => merge_DimCustomer E d
  | DimAircraft => merge_DimAircraft E (stg_cols d0 "Stg_Aircrafts") d
  | DimRoute => merge_DimRoute E (stg_cols d0 "Stg_Routes") d
  | DimFlight => merge_DimFlight E (stg_cols d0 "Stg_Flights") d
  | DimPayment => merge_DimPayment E (stg_cols d0 "Stg_Payments") d
  | DimSatisfaction => merge_DimSatisfaction E (stg_cols d0 "Stg_CustomerSatisfaction") d
  | FactBooking => merge_FactBooking E (stg_cols d0 "Stg_Bookings") d
  end.

(** The merge of [X] on its own, on the store [d]. *)
Definition merge_of (E : engine) (X : target) (d : db) : outcome table :=
  merge_with E X d d.

(** What a guarded merge leaves in the store and prints. *)
Definition step (name : string) (stmt : db -> outcome table) (d : db) : db :=
  match stmt d with
  | Ok tb => <[name := tb]> d
  | Raise _ => d
  end.

Definition step_event (name : string) (stmt : db -> outcome table) (d : db) : event :=
  match stmt d with
  | Ok _ => Merged name
  | Raise e => MergeError name e
  end.

(** The target of [X] after its merge on its own: the merged table, or the
    old one when the statement fails. *)
Definition merged_table (E : engine) (X : target) (d : db) : option table :=
  match merge_of E X d with
  | Ok tb => Some tb
  | Raise _ => d !! target_name X
  end.

Definition merge_event_of (E : engine) (d : db) (X : target) : event :=
  step_event (target_name X) (merge_of E X) d.

(** The seven column listings [merge_to_dim_fact] prints under their title. *)
Definition table_infos (d : db) : list event :=
  map (fun t => TableInfo t (stg_cols d t))
      ["Stg_Customers"; "Stg_Aircrafts"; "Stg_Routes"; "Stg_Flights"; "Stg_Payments";
       "Stg_CustomerSatisfaction"; "Stg_Bookings"].

Definition agree_on (names : list string) (d1 d2 : db) : Prop :=
  forall x, In x names -> d1 !! x = d2 !! x.

(** The store after the guarded merges of the targets [L] in turn, and what
    they print. *)
Definition steps (E : engine) (d0 : db) (L : list target) (d : db) : db :=
  fold_left (fun acc X => step (target_name X) (merge_with E X d0) acc) L d.

Fixpoint step_events (E : engine) (d0 : db) (L : list target) (d : db) : list event :=
  match L with
  | [] => []
  | X :: L' =>
      step_event (target_name X) (merge_with E X d0) d
        :: step_events E d0 L' (step (target_name X) (merge_with E X d0) d)
  end.

(** The source row [s] is joined to no row of the target [tgt0]. *)
Definition unmatched (kt ks : string) (tgt0 : list row) (s : row) : bool :=
  negb (existsb (fun t => matched kt ks t s) tgt0).

(** The rows of the booking source: every booking with each flight joined to
    it, or with an all-NULL flight. *)
Definition booking_rows (bid date : string) (bookings flights : list row) : list row :=
  flat_map (fun br => map (booking_select bid "CustomerID" "FlightID" date br)
                          (left_join "FlightID" flights br))
           bookings.

(** ** A merge as a plan

    The parameters of the MERGE statement of a target, once the column
    names are resolved: the columns named on either side, the source key,
    the USING relation, the UPDATE and the INSERT list.  Lemma
    [merge_with_plan] shows that running the plan of a target is running
    its [merge_Dim...] function. *)

Record plan := {
  p_tneed : list string;
  p_ks : string;
  p_src : db -> outcome table;
  p_sneed : list string;
  p_upd : option (row -> row -> row);
  p_ins : row -> row
}.

Definition key_col (X : target) : string :=
  match X with
  | DimCustomer => "CustomerID"
  | DimAircraft => "AircraftID"
  | DimRoute => "RouteID"
  | DimFlight => "FlightID"
  | DimPayment => "PaymentID"
  | DimSatisfaction => "CustomerID"
  | FactBooking => "BookingID"
  end.

Definition plan_of (E : engine) (X : target) (d0 : db) : outcome plan :=
  match X with
  | DimCustomer =>
      Ok {| p_tneed := ["CustomerID"; "Name"]; p_ks := "CustomerID";
            p_src := staging "Stg_Customers"; p_sneed := ["CustomerID"; "Name"];
            p_upd := Some (fun t s => set_col t "Name" (get s "Name"));
            p_ins := fun s => [("CustomerID", get s "CustomerID"); ("Name", get s "Name")] |}
  | DimAircraft =>
      let aircraft_id_col := col_or "PlaneID" "AircraftID" (stg_cols d0 "Stg_Aircrafts") in
      Ok {| p_tneed := ["AircraftID"; "Model"; "Capacity"; "ManufactureYear"];
            p_ks := aircraft_id_col;
            p_src := staging "Stg_Aircrafts";
            p_sneed := [aircraft_id_col; "Model"; "Capacity"; "ManufactureYear"];
            p_upd := None;
            p_ins := fun s => [("AircraftID", get s aircraft_id_col); ("Model", get s "Model");
                               ("Capacity", get s "Capacity");
                               ("ManufactureYear", get s "ManufactureYear")] |}
  | DimRoute =>
      let! route_id_col := col_or_first "RouteID" (stg_cols d0 "Stg_Routes") in
      let origin_col := col_or "Source" "Origin" (stg_cols d0 "Stg_Routes") in
      Ok {| p_tneed := ["RouteID"; "Origin"; "Destination"; "Distance"];
            p_ks := route_id_col;
            p_src := staging "Stg_Routes";
            p_sneed := [route_id_col; origin_col; "Destination"; "Distance"];
            p_upd := None;
            p_ins := fun s => [("RouteID", get s route_id_col); ("Origin", get s origin_col);
                               ("Destination", get s "Destination");
                               ("Distance", get s "Distance")] |}
  | DimFlight =>
      let! flight_id_col := col_or_first "FlightID" (stg_cols d0 "Stg_Flights") in
      Ok {| p_tneed := ["FlightID"; "FlightNumber"; "DepartureTime"; "ArrivalTime"];
            p_ks := flight_id_col;
            p_src := staging "Stg_Flights";
            p_sneed := [flight_id_col; "DepartureTime"; "ArrivalTime"];
            p_upd := None;
            p_ins := fun s => [("FlightID", get s flight_id_col);
                               ("FlightNumber", cast_nvarchar50 E (get s flight_id_col));
                               ("DepartureTime", get s "DepartureTime");
                               ("ArrivalTime", get s "ArrivalTime")] |}
  | DimPayment =>
      let! payment_id_col := col_or_first "PaymentID" (stg_cols d0 "Stg_Payments") in
      let method_col := col_or "Method" "PaymentMethod" (stg_cols d0 "Stg_Payments") in
      let date_col := col_or "Date" "PaymentDate" (stg_cols d0 "Stg_Payments") in
      Ok {| p_tneed := ["PaymentID"; "PaymentMethod"; "Amount"; "PaymentDate"];
            p_ks := payment_id_col;
            p_src := staging "Stg_Payments";
            p_sneed := [payment_id_col; method_col; "Amount"; date_col];
            p_upd := None;
            p_ins := fun s => [("PaymentID", get s payment_id_col);
                               ("PaymentMethod", get s method_col);
                               ("Amount", get s "Amount"); ("PaymentDate", get s date_col)] |}
  | DimSatisfaction =>
      let! satisfaction_id_col :=
        col_or_first "CustomerID" (stg_cols d0 "Stg_CustomerSatisfaction") in
      Ok {| p_tneed := satisfaction_columns; p_ks := "CustomerID";
            p_src := satisfaction_source E; p_sneed := satisfaction_columns;
            p_upd := None;
            p_ins := fun s => [("CustomerID", get s "CustomerID");
                               ("TypeOfTravel", get s "TypeOfTravel");
                               ("Class", get s "Class");
                               ("FlightDistance", get s "FlightDistance");
                               ("Satisfaction", get s "Satisfaction");
                               ("AverageRating", get s "AverageRating")] |}
  | FactBooking =>
      let! booking_id_col := col_or_first "BookingID" (stg_cols d0 "Stg_Bookings") in
      let date_col := col_or "Date" "BookingDate" (stg_cols d0 "Stg_Bookings") in
      Ok {| p_tneed := booking_columns; p_ks := "BookingID";
            p_src := booking_source booking_id_col "CustomerID" "FlightID" date_col;
            p_sneed := booking_columns;
            p_upd := None;
            p_ins := fun s => map (fun c => (c, get s c)) booking_columns |}
  end.

Definition run_plan (E : engine) (X : target) (p : plan) (d : db) : outcome table :=
  sql_merge E (target_name X) (p_tneed p) (key_col X) (p_ks p) (p_src p) (p_sneed p)
    (p_upd p) (p_ins p) d.

(** The staging tables the source of a merge reads. *)
Definition sources (X : target) : list string :=
  match X with
  | FactBooking => ["Stg_Bookings"; "Stg_Flights"]
  | _ => [staging_name X]
  end.

(** ** What a statement names

    Before a MERGE is sent, [merge_to_dim_fact] chooses some of its column
    names by looking at the columns [cols] of the staging table: this is
    the only resolution there is, and these are the names the statement
    then carries. *)

(** The columns of its target a statement names. *)
Definition target_columns (X : target) : list string :=
  match X with
  | DimCustomer => ["CustomerID"; "Name"]
  | DimAircraft => ["AircraftID"; "Model"; "Capacity"; "ManufactureYear"]
  | DimRoute => ["RouteID"; "Origin"; "Destination"; "Distance"]
  | DimFlight => ["FlightID"; "FlightNumber"; "DepartureTime"; "ArrivalTime"]
  | DimPayment => ["PaymentID"; "PaymentMethod"; "Amount"; "PaymentDate"]
  | DimSatisfaction => satisfaction_columns
  | FactBooking => booking_columns
  end.

Record names := {
  n_key : string;                      (* the staging column joined to the target key *)
  n_cols : list (string * string)      (* every staging column named, with its table *)
}.








(** ** Business keys and two runs *)




Definition staged (E : engine) (B : batches) (d : db) : db :=
  session (snd (stage_all E B (connect d))).



Definition same_cols (d1 d2 : db) (t : string) : Prop :=
  tcols <$> (d1 !! t) = tcols <$> (d2 !! t).

(** The table a load leaves in the open transaction, from the columns of
    the destination and the frame alone. *)
Definition loaded (E : engine) (df : DataFrame) (t : string) (cols : list string)
    : table * option (exn * row) :=
  insert_all E t {| tcols := cols; trows := [] |} (iterrows (staged_frame cols df)).

Definition staging_tables : list string :=
  ["Stg_Customers"; "Stg_Bookings"; "Stg_Payments"; "Stg_Aircrafts"; "Stg_Flights";
   "Stg_Routes"; "Stg_CustomerSatisfaction"; "Stg_API_Flights"].

(** ** Sample store and frames

    A store whose tables carry the columns the statements name, and an
    engine that accepts every row; the concrete instances below are
    evaluated on them. *)

(** Arithmetic that rounds nothing: a result is kept as the fraction in
    lowest terms. *)
Definition unrounded : rounding :=
  {| fl := Qred;
     fl_monotone := fun x y H => proj2 (Qred_le x y) H;
     fl_int := fun n _ => Qred_correct (inject_Z n);
     fl_dyadic := fun m k _ _ => Qred_correct (m # 2 ^ k) |}.

Definition permissive : engine :=
  {| accepts := fun _ _ _ => true;
     float := unrounded;
     float_of_text := fun _ => None;
     text_of_float := fun _ => EmptyString |}.

Definition empty_table (cols : list string) : table :=
  {| tcols := cols; trows := [] |}.

Definition stg_satisfaction_columns : list string :=
  ["CustomerID"; "TypeOfTravel"; "Class"; "FlightDistance"; "Satisfaction"]
    ++ survey_columns.

(** The tables of the sample store. *)
Definition schema_tables : list (string * table) :=
    [("Stg_Customers", empty_table ["CustomerID"; "Name"]);
     ("Stg_Bookings", empty_table ["BookingID"; "CustomerID"; "FlightID"; "Date"]);
     ("Stg_Payments", empty_table ["PaymentID"; "Method"; "Amount"; "Date"]);
     ("Stg_Aircrafts", empty_table ["PlaneID"; "Model"; "Capacity"; "ManufactureYear"]);
     ("Stg_Flights",
      empty_table ["FlightID"; "RouteID"; "PlaneID"; "DepartureTime"; "ArrivalTime"]);
     ("Stg_Routes", empty_table ["RouteID"; "Source"; "Destination"; "Distance"]);
     ("Stg_CustomerSatisfaction", empty_table stg_satisfaction_columns);
     ("DimCustomer", empty_table ["CustomerID"; "Name"]);
     ("DimAircraft", empty_table ["AircraftID"; "Model"; "Capacity"; "ManufactureYear"]);
     ("DimRoute", empty_table ["RouteID"; "Origin"; "Destination"; "Distance"]);
     ("DimFlight", empty_table ["FlightID"; "FlightNumber"; "DepartureTime"; "ArrivalTime"]);
     ("DimPayment", empty_table ["PaymentID"; "PaymentMethod"; "Amount"; "PaymentDate"]);
     ("DimSatisfaction", empty_table satisfaction_columns);
     ("FactBooking", empty_table booking_columns)].

Definition schema : db := list_to_map schema_tables.

Definition no_frame : DataFrame := {| columns := []; data := [] |}.

(** Two customers (with a field the staging table lacks), two bookings of
    which the second names an unknown flight, one payment, one aircraft,
    one flight, one route and one survey record. *)
Definition sample : batches :=
  {| df_cust := {| columns := ["CustomerID"; "Name"; "Notes"];
                   data := [[VInt 1; VStr "Ann"; VStr "vip"];
                            [VInt 2; VStr "Bob"; VNull]] |};
     df_book := {| columns := ["BookingID"; "CustomerID"; "FlightID"; "Date"];
                   data := [[VInt 10; VInt 1; VInt 100; VStr "2024-01-01"];
                            [VInt 11; VInt 2; VInt 999; VStr "2024-01-02"]] |};
     df_pay := {| columns := ["PaymentID"; "Method"; "Amount"; "Date"];
                  data := [[VInt 5; VStr "Card"; VInt 20; VStr "2024-01-01"]] |};
     df_air := {| columns := ["PlaneID"; "Model"; "Capacity"; "ManufactureYear"];
                  data := [[VInt 7; VStr "A320"; VInt 180; VInt 2010]] |};
     df_flights := {| columns := ["FlightID"; "RouteID"; "PlaneID"; "DepartureTime";
                                  "ArrivalTime"];
                      data := [[VInt 100; VInt 3; VInt 7; VStr "08:00"; VStr "11:00"]] |};
     df_routes := {| columns := ["RouteID"; "Source"; "Destination"; "Distance"];
                     data := [[VInt 3; VStr "Lhr"; VStr "Jfk"; VInt 5540]] |};
     df_api := no_frame;
     df_csv := {| columns := satisfaction_columns;
                  data := [[VInt 1; VStr "Business"; VStr "Eco"; VInt 500;
                            VStr "Satisfied"; VNum (37 # 14)]] |} |}.

(** The ratings of the derived-aggregate example, and the same with the
    first one missing. *)
Definition ratings : list value :=
  map VInt [1; 2; 3; 4; 5; 1; 2; 3; 4; 5; 1; 2; 3; 4].

Definition ratings_partial : list value :=
  VNull :: map VInt [2; 3; 4; 5; 1; 2; 3; 4; 5; 1; 2; 3; 4].

(** An engine whose booking staging table refuses a NULL [BookingID]. *)
Definition strict : engine :=
  {| accepts := fun t _ r =>
       negb (String.eqb t "Stg_Bookings" && is_null (get r "BookingID"));
     float := unrounded;
     float_of_text := fun _ => None;
     text_of_float := fun _ => EmptyString |}.

(** The sample frames with a second booking that has no [BookingID]. *)
Definition sample_rejected : batches :=
  {| df_cust := df_cust sample;
     df_book := {| columns := ["BookingID"; "CustomerID"; "FlightID"; "Date"];
                   data := [[VInt 10; VInt 1; VInt 100; VStr "2024-01-01"];
                            [VNull; VInt 2; VInt 100; VStr "2024-01-02"];
                            [VInt 12; VInt 2; VInt 100; VStr "2024-01-03"]] |};
     df_pay := df_pay sample;
     df_air := df_air sample;
     df_flights := df_flights sample;
     df_routes := df_routes sample;
     df_api := df_api sample;
     df_csv := df_csv sample |}.

(** The loads of the plan after the first two. *)
Definition load_plan_tail (B : batches) : list (DataFrame * string) :=
  skipn 2 (load_plan B).

(** The sample store with a staging table of aircraft that lacks the
    column [ManufactureYear], after the staging loads of the sample. *)
Definition schema_no_year : db :=
  <["Stg_Aircrafts" := empty_table ["PlaneID"; "Model"; "Capacity"]]> schema.

Definition staged_no_year : world :=
  snd (stage_all permissive sample (connect schema_no_year)).

(** The sample store after the staging loads of the sample. *)
Definition staged_sample : db :=
  session (snd (stage_all permissive sample (connect schema))).

(** The second booking of the sample, as staged: its flight 999 is unknown. *)
Definition booking_11 : row :=
  [("BookingID", VInt 11); ("CustomerID", VInt 2); ("FlightID", VInt 999);
   ("Date", VStr "2024-01-02")].

Definition staged_bookings : table :=
  {| tcols := ["BookingID"; "CustomerID"; "FlightID"; "Date"];
     trows := [[("BookingID", VInt 10); ("CustomerID", VInt 1);
                ("FlightID", VInt 100); ("Date", VStr "2024-01-01")];
               booking_11] |}.





(** The staged survey row with the given fourteen ratings. *)
Definition survey_row (vs : list value) : row :=
  [("CustomerID", VInt 1); ("TypeOfTravel", VStr "Business"); ("Class", VStr "Eco");
   ("FlightDistance", VInt 500); ("Satisfaction", VStr "Satisfied")]
    ++ combine survey_columns vs.





(** The sample store with a staging table of aircraft whose identifier is
    the column [ID]. *)
Definition schema_id_model : db :=
  <["Stg_Aircrafts" := empty_table ["ID"; "Model"]]> schema.

(** The staged sample store with the second booking already in the fact
    table, on route 3 and aircraft 7. *)
Definition fact_11 : row :=
  [("BookingID", VInt 11); ("CustomerID", VInt 2); ("FlightID", VInt 100);
   ("RouteID", VInt 3); ("AircraftID", VInt 7); ("PaymentID", VInt 11);
   ("SatisfactionKey", VInt 2); ("BookingDate", VStr "2024-01-02")].

Definition staged_booked : db :=
  <["FactBooking" := {| tcols := booking_columns; trows := [fact_11] |}]> staged_sample.

(** ** The transforms

    The extract and transform calls of [main], on frames.  What pandas does
    to the text of a cell, which columns take the [.str] accessor and the
    conversions [to_numeric] and [to_datetime] are the fields of a [pandas]
    record, and every theorem holds for every such record.  What the
    functions print is a list of notices. *)

(** A cell of a numeric column. *)
Inductive number :=
  | NaN
  | Int (n : Z)
  | Float (q : Q).

Definition cell (x : number) : value :=
  match x with
  | NaN => VNull
  | Int n => VInt n
  | Float q => VNum q
  end.

(** [x > 0]; false on NaN. *)
Definition gt_zero (x : number) : bool :=
  match x with
  | NaN => false
  | Int n => 0 <? n
  | Float q => negb (Qle_bool q 0)
  end.

(** The number has no fractional part. *)
Definition whole (q : Q) : Prop := Qden q = 1%positive.

Record pandas := {
  py_strip : string -> string;                          (* [str.strip] *)
  py_title : string -> string;                          (* [str.title] *)
  py_upper : string -> string;                          (* [str.upper] *)
  py_lower : string -> string;                          (* [str.lower] *)
  str_accessor : list value -> outcome unit;            (* [s.str] on a column *)
  to_numeric : list value -> outcome (list number);     (* [errors='coerce'] *)
  to_datetime : list value -> outcome (list value);     (* [errors='coerce'] *)
  float64 : rounding;                                   (* of [float64] results *)
  mean : list Q -> Q;                 (* [mean] of the numbers of a row, none NaN *)
  mean_whole : forall qs,             (* whole numbers are summed without error *)
    qs <> [] -> Forall whole qs -> (sum_Q (map Qabs qs) <= inject_Z (2 ^ 53))%Q ->
    (mean qs == fl float64 (sum_Q qs / inject_Z (Z.of_nat (length qs))))%Q;
  to_numeric_length : forall s a, to_numeric s = Ok a -> length a = length s;
  to_datetime_length : forall s a, to_datetime s = Ok a -> length a = length s
}.

(** The numbers of a row of numeric cells, NaN skipped. *)
Fixpoint numbers (vs : list value) : outcome (list Q) :=
  match vs with
  | [] => Ok []
  | VNull :: vs' => numbers vs'
  | VInt n :: vs' => let! qs := numbers vs' in Ok (inject_Z n :: qs)
  | VNum q :: vs' => let! qs := numbers vs' in Ok (q :: qs)
  | VStr s :: vs' => Raise (ConversionError (VStr s))
  end.

(** [df[existing_cols].mean(axis=1)] on one row: the mean of the cells that
    are not NaN, NaN when there is none. *)
Definition row_mean (P : pandas) (vs : list value) : outcome value :=
  let! qs := numbers vs in
  Ok match qs with
     | [] => VNull
     | _ :: _ => VNum (mean P qs)
     end.

(** The [AverageRating] cell [transform_csv] computes for one record of a
    frame with labels [cols]; [None] when no rating column exists and the
    column is not created. *)
Definition transform_csv_AverageRating (P : pandas) (cols : list string) (r : row)
    : option (outcome value) :=
  let existing_cols := List.filter (fun col => inb col cols) rating_cols in
  match existing_cols with
  | [] => None
  | _ :: _ => Some (row_mean P (map (get r) existing_cols))
  end.

(** One [print] of the extract and transform calls. *)
Inductive notice :=
  | Extracting (source : string)
  | ApiError
  | ApiUnexpected
  | Transforming (what : string)
  | ColumnAdded (col : string).

(** A call that prints and returns or raises. *)
Definition T (A : Type) : Type := list notice * outcome A.

Definition retT {A} (a : A) : T A := ([], Ok a).

Definition bindT {A B} (m : T A) (k : A -> T B) : T B :=
  match m with
  | (ns, Ok a) => let (ns', r) := k a in (ns ++ ns', r)
  | (ns, Raise e) => (ns, Raise e)
  end.

Definition say (n : notice) : T unit := ([n], Ok tt).

Definition lift {A} (o : outcome A) : T A := ([], o).

Notation "'do!' x ':=' m 'in' k" := (bindT m (fun x => k))
  (at level 10, x name, m at level 100, k at level 200).
Notation "'say!' n 'in' k" := (bindT (say n) (fun _ => k))
  (at level 10, n at level 100, k at level 200).

(** [df[c]]: the cells of a column of the frame. *)
Definition column (c : string) (df : DataFrame) : list value :=
  map (fun r => get r c) (iterrows df).

(** The cells [vs] of a row with the cell under label [c] replaced. *)
Fixpoint set_cell (cols : list string) (c : string) (v : value) (vs : list value)
    : list value :=
  match cols, vs with
  | k :: cols', x :: vs' => if String.eqb k c then v :: vs' else x :: set_cell cols' c v vs'
  | _, _ => vs
  end.

(** The rows of a frame, each with the element of a series at its
    position, [nan] where the series has none. *)
Fixpoint align {A} (rows : list (list value)) (s : list A) (nan : A)
    : list (list value * A) :=
  match rows with
  | [] => []
  | vs :: rows' =>
      match s with
      | [] => (vs, nan) :: align rows' [] nan
      | x :: s' => (vs, x) :: align rows' s' nan
      end
  end.

(** [df[c] = s]: the column is replaced, or added as the last one; a frame
    without rows takes the index of the series. *)
Definition assign (c : string) (s : list value) (df : DataFrame) : DataFrame :=
  let rows := match data df, s with
              | [], _ :: _ => map (fun _ => map (fun _ => VNull) (columns df)) s
              | rows, _ => rows
              end in
  if inb c (columns df)
  then {| columns := columns df;
          data := map (fun p => set_cell (columns df) c (snd p) (fst p))
                      (align rows s VNull) |}
  else {| columns := columns df ++ [c];
          data := map (fun p => fst p ++ [snd p]) (align rows s VNull) |}.

(** [df[mask]] *)
Definition boolean_index (mask : list bool) (df : DataFrame) : DataFrame :=
  {| columns := columns df;
     data := map fst (List.filter snd (align (data df) mask false)) |}.

(** [df.dropna(subset=subset)] *)
Definition dropna (subset : list string) (df : DataFrame) : DataFrame :=
  {| columns := columns df;
     data := List.filter
               (fun vs => forallb (fun c => negb (is_null (get (combine (columns df) vs) c)))
                                  subset)
               (data df) |}.

(** The rows whose key is none of [seen] nor the key of an earlier row. *)
Fixpoint keep_first (key : list value -> value) (seen : list value)
    (rows : list (list value)) : list (list value) :=
  match rows with
  | [] => []
  | vs :: rows' =>
      if existsb (fun k => key_eqb k (key vs)) seen then keep_first key seen rows'
      else vs :: keep_first key (key vs :: seen) rows'
  end.

(** [df.drop_duplicates(subset=[c], keep='first')] *)
Definition drop_duplicates (c : string) (df : DataFrame) : DataFrame :=
  {| columns := columns df;
     data := keep_first (fun vs => get (combine (columns df) vs) c) [] (data df) |}.

(** [df[cols]] for labels of the frame, in the order of [cols]. *)
Definition take_columns (cols : list string) (df : DataFrame) : DataFrame :=
  {| columns := cols; data := map (fun r => map (get r) cols) (iterrows df) |}.

(** What [requests.get], [raise_for_status] and [json_normalize] end in. *)
Inductive response :=
  | Fetched (df : DataFrame)
  | HTTPError
  | OtherError.

Definition extract_api (r : response) : T DataFrame :=
  say! Extracting "AviationStack API" in
  match r with
  | Fetched df => retT df
  | HTTPError => say! ApiError in retT no_frame
  | OtherError => say! ApiUnexpected in retT no_frame
  end.

(** [' ' -> '_'] *)
Fixpoint replace_spaces (s : string) : string :=
  match s with
  | EmptyString => EmptyString
  | String a s' =>
      String.append (if String.eqb (String a EmptyString) " " then "_"
                     else String a EmptyString)
                    (replace_spaces s')
  end.

Definition column_mapping : list (string * string) :=
  [("id", "CustomerID"); ("Type of Travel", "TypeOfTravel"); ("Class", "Class");
   ("Flight Distance", "FlightDistance"); ("Satisfaction", "Satisfaction");
   ("AverageRating", "AverageRating")].

Definition required_cols : list string :=
  ["CustomerID"; "TypeOfTravel"; "Class"; "FlightDistance"; "Satisfaction"; "AverageRating"].

(** The loop over [required_cols] of [transform_csv]. *)
Fixpoint add_missing (cols : list string) (df_mapped : DataFrame) : T DataFrame :=
  match cols with
  | [] => retT df_mapped
  | col :: cols' =>
      if inb col (columns df_mapped) then add_missing cols' df_mapped
      else
        say! ColumnAdded col in
        add_missing cols' (assign col (map (fun _ => VNull) (data df_mapped)) df_mapped)
  end.

(** [if c in df.columns: df[c] = f(df[c])] *)
Definition update_column (c : string) (f : list value -> outcome (list value))
    (df : DataFrame) : T DataFrame :=
  if inb c (columns df)
  then do! s := lift (f (column c df)) in retT (assign c s df)
  else retT df.

Section Transforms.
Variable P : pandas.

(** [s.str.f()]: the method on every text of the column, NaN elsewhere. *)
Definition str_method (f : string -> string) (s : list value) : outcome (list value) :=
  check! str_accessor P s in
  Ok (map (fun v => match v with VStr t => VStr (f t) | _ => VNull end) s).

(** [s.str.strip().str.title()] *)
Definition strip_title (s : list value) : outcome (list value) :=
  let! s := str_method (py_strip P) s in str_method (py_title P) s.

(** [s.str.strip().str.upper()] *)
Definition strip_upper (s : list value) : outcome (list value) :=
  let! s := str_method (py_strip P) s in str_method (py_upper P) s.

(** [if c in df.columns: df[c] = pd.to_numeric(df[c], errors='coerce');
    df = df[df[c] > 0]] *)
Definition positive_only (c : string) (df : DataFrame) : T DataFrame :=
  if inb c (columns df)
  then do! a := lift (to_numeric P (column c df)) in
       retT (boolean_index (map gt_zero a) (assign c (map cell a) df))
  else retT df.

Definition transform_oltp1_customers (df : DataFrame) : T DataFrame :=
  say! Transforming "Customers" in
  do! df := update_column "Name" strip_title df in
  do! id_col := lift (col_or_first "CustomerID" (columns df)) in
  retT (drop_duplicates id_col df).

Definition transform_oltp1_bookings (df : DataFrame) : T DataFrame :=
  say! Transforming "Bookings" in
  do! df := update_column "BookingDate" (to_datetime P) df in
  let required_cols :=
    List.filter (fun col => inb col (columns df)) ["CustomerID"; "FlightID"] in
  let df := match required_cols with
            | [] => df
            | _ :: _ => dropna required_cols df
            end in
  do! id_col := lift (col_or_first "BookingID" (columns df)) in
  retT (drop_duplicates id_col df).

Definition transform_oltp1_payments (df : DataFrame) : T DataFrame :=
  say! Transforming "Payments" in
  do! df := update_column "PaymentMethod" strip_title df in
  do! df := positive_only "Amount" df in
  update_column "PaymentDate" (to_datetime P) df.

Definition transform_oltp2_aircrafts (df : DataFrame) : T DataFrame :=
  say! Transforming "Aircrafts" in
  do! df := update_column "Model" strip_upper df in
  do! df := positive_only "Capacity" df in
  retT match transform_oltp2_aircrafts_id_col (columns df) with
       | Some id_col => drop_duplicates id_col df
       | None => df
       end.

Definition transform_oltp2_flights (df : DataFrame) : T DataFrame :=
  say! Transforming "Flights" in
  do! df := update_column "FlightNumber" strip_upper df in
  do! df := update_column "DepartureTime" (to_datetime P) df in
  do! df := update_column "ArrivalTime" (to_datetime P) df in
  do! id_col := lift (col_or_first "FlightID" (columns df)) in
  retT (drop_duplicates id_col df).

Definition transform_oltp2_routes (df : DataFrame) : T DataFrame :=
  say! Transforming "Routes" in
  do! df := update_column "Origin" strip_title df in
  do! df := update_column "Destination" strip_title df in
  do! df := positive_only "Distance" df in
  do! id_col := lift (col_or_first "RouteID" (columns df)) in
  retT (drop_duplicates id_col df).

Definition transform_api (df : DataFrame) : T DataFrame :=
  say! Transforming "API" in
  if df_empty df then retT df
  else
    let df := {| columns := map (fun c => replace_spaces (py_lower P (py_strip P c)))
                                (columns df);
                 data := data df |} in
    retT (if inb "flight_iata" (columns df) then drop_duplicates "flight_iata" df else df).

Definition transform_csv (df : DataFrame) : T DataFrame :=
  say! Transforming "CSV" in
  let df := select_columns (fun c => negb (String.prefix "Unnamed" c)) df in
  do! df := (if inb "satisfaction" (columns df)
         then do! s := lift (str_method (py_title P) (column "satisfaction" df)) in
              retT (assign "Satisfaction" s df)
         else retT df) in
  do! df := match List.filter (fun col => inb col (columns df)) rating_cols with
        | [] => retT df
        | existing_cols =>
            do! m := lift (map_outcome (fun r => row_mean P (map (get r) existing_cols))
                                   (iterrows df)) in
            retT (assign "AverageRating" m df)
        end in
  let df_mapped :=
    fold_left (fun acc m => if inb (fst m) (columns df)
                            then assign (snd m) (column (fst m) df) acc
                            else acc)
              column_mapping no_frame in
  do! df_mapped := add_missing required_cols df_mapped in
  retT (take_columns required_cols df_mapped).

(** What the extract calls of [main] read. *)
Record inputs := {
  Customers : DataFrame;
  Bookings : DataFrame;
  Payments : DataFrame;
  Aircrafts : DataFrame;
  Flights : DataFrame;
  Routes : DataFrame;
  api : response;
  csv : DataFrame
}.

Definition extract_oltp1 (I : inputs) : T (DataFrame * DataFrame * DataFrame) :=
  say! Extracting "OLTP1" in
  retT (Customers I, Bookings I, Payments I).

Definition extract_oltp2 (I : inputs) : T (DataFrame * DataFrame * DataFrame) :=
  say! Extracting "OLTP2" in
  retT (Aircrafts I, Flights I, Routes I).

Definition extract_csv (I : inputs) : T DataFrame :=
  say! Extracting "CSV" in
  retT (csv I).

(** [main] up to its first load: the frames it stages. *)
Definition extract_transform (I : inputs) : T batches :=
  do! oltp1 := extract_oltp1 I in
  do! oltp2 := extract_oltp2 I in
  do! df_api := extract_api (api I) in
  do! df_csv := extract_csv I in
  do! df_cust := transform_oltp1_customers (fst (fst oltp1)) in
  do! df_book := transform_oltp1_bookings (snd (fst oltp1)) in
  do! df_pay := transform_oltp1_payments (snd oltp1) in
  do! df_air := transform_oltp2_aircrafts (fst (fst oltp2)) in
  do! df_flights := transform_oltp2_flights (snd (fst oltp2)) in
  do! df_routes := transform_oltp2_routes (snd oltp2) in
  do! df_api := transform_api df_api in
  do! df_csv := transform_csv df_csv in
  retT {| df_cust := df_cust; df_book := df_book; df_pay := df_pay; df_air := df_air;
          df_flights := df_flights; df_routes := df_routes; df_api := df_api;
          df_csv := df_csv |}.

End Transforms.

(** The whole of [main] on a store holding [d]: an exception of a transform
    ends the process before anything is written. *)
Definition pipeline (P : pandas) (E : engine) (I : inputs) (d : db)
    : list notice * (outcome unit * world) :=
  match extract_transform P I with
  | (ns, Ok B) => (ns, run E B d)
  | (ns, Raise e) => (ns, (Raise e, connect d))
  end.

(** ** Frames as the theorems speak of them *)

(** The transform left no two rows with the same identifier, the identifier
    being column [a] or, without it, the first column. *)
Definition deduplicated_on (a : string) (df out : DataFrame) : Prop :=
  exists id_col,
    col_or_first a (columns df) = Ok id_col /\
    columns out = columns df /\
    distinct_keys (column id_col out) = true.

(** Every row of the frame has one cell per column. *)
Definition well_formed (df : DataFrame) : Prop :=
  Forall (fun vs => length vs = length (columns df)) (data df).

(** The cell is a number above zero. *)
Definition positive (v : value) : bool :=
  match v with
  | VInt n => 0 <? n
  | VNum q => negb (Qle_bool q 0)
  | _ => false
  end.

(** The frame [extract_api] returns. *)
Definition fetched (r : response) : DataFrame :=
  match r with
  | Fetched df => df
  | HTTPError | OtherError => no_frame
  end.

(** The statement failed because it joined one target row to two source rows. *)
Definition multiple_match {A} (o : outcome A) : bool :=
  match o with
  | Raise (MultipleMatch _) => true
  | _ => false
  end.

(** The frame [df_mapped] while the mapped columns are copied from a frame
    of [n] rows: still [pd.DataFrame()], or a frame of [n] rows. *)
Definition copying (n : nat) (acc : DataFrame) : Prop :=
  acc = no_frame \/ (well_formed acc /\ length (data acc) = n).

(** ** Sample library and extracted frames

    A library that knows the ASCII letters and the blank, reads a text of
    digits as an integer and keeps dates as they are; and the frames of one
    extraction, with a customer read twice, a booking without a customer, a
    payment of zero and an API call that fails. *)

Definition is_between (lo hi : nat) (a : Ascii.ascii) : bool :=
  (lo <=? Ascii.nat_of_ascii a)%nat && (Ascii.nat_of_ascii a <=? hi)%nat.

Definition upper_char (a : Ascii.ascii) : Ascii.ascii :=
  if is_between 97 122 a then Ascii.ascii_of_nat (Ascii.nat_of_ascii a - 32) else a.

Definition lower_char (a : Ascii.ascii) : Ascii.ascii :=
  if is_between 65 90 a then Ascii.ascii_of_nat (Ascii.nat_of_ascii a + 32) else a.

Fixpoint map_chars (f : Ascii.ascii -> Ascii.ascii) (s : string) : string :=
  match s with
  | EmptyString => EmptyString
  | String a s' => String (f a) (map_chars f s')
  end.

Fixpoint lstrip (s : string) : string :=
  match s with
  | EmptyString => EmptyString
  | String a s' => if is_between 32 32 a then lstrip s' else s
  end.

Fixpoint title_from (start : bool) (s : string) : string :=
  match s with
  | EmptyString => EmptyString
  | String a s' =>
      String (if start then upper_char a else lower_char a)
             (title_from (negb (is_between 65 90 a || is_between 97 122 a)) s')
  end.

Definition number_of (v : value) : number :=
  match v with
  | VNull => NaN
  | VInt n => Int n
  | VNum q => Float q
  | VStr s =>
      match DecimalString.NilZero.int_of_string s with
      | Some i => Int (Z.of_int i)
      | None => NaN
      end
  end.

Definition plain : pandas :=
  {| py_strip := fun s => String.rev (lstrip (String.rev (lstrip s)));
     py_title := title_from true;
     py_upper := map_chars upper_char;
     py_lower := map_chars lower_char;
     str_accessor := fun _ => Ok tt;
     to_numeric := fun s => Ok (map number_of s);
     to_datetime := fun s => Ok s;
     float64 := unrounded;
     mean := fun qs => Qred (sum_Q qs / inject_Z (Z.of_nat (length qs)));
     mean_whole := fun qs _ _ _ => Qeq_refl _;
     to_numeric_length := fun s a H =>
       eq_trans (f_equal (fun o => match o with
                                   | Ok x => length x
                                   | Raise _ => length a
                                   end) (eq_sym H))
                (List.length_map number_of s);
     to_datetime_length := fun s a H =>
       f_equal (fun o => match o with
                         | Ok x => length x
                         | Raise _ => length a
                         end) (eq_sym H) |}.

Definition raw_customers : DataFrame :=
  {| columns := ["CustomerID"; "Name"; "Notes"];
     data := [[VInt 1; VStr " ann lee "; VStr "vip"];
              [VInt 2; VStr "BOB"; VNull];
              [VInt 1; VStr "Ann L."; VNull]] |}.

Definition raw_bookings : DataFrame :=
  {| columns := ["BookingID"; "CustomerID"; "FlightID"; "Date"];
     data := [[VInt 10; VInt 1; VInt 100; VStr "2024-01-01"];
              [VInt 11; VInt 2; VInt 999; VStr "2024-01-02"];
              [VInt 12; VNull; VInt 100; VStr "2024-01-03"]] |}.

Definition raw_payments : DataFrame :=
  {| columns := ["PaymentID"; "Method"; "Amount"; "Date"];
     data := [[VInt 5; VStr "Card"; VStr "20"; VStr "2024-01-01"];
              [VInt 6; VStr "Cash"; VInt 0; VStr "2024-01-02"]] |}.

Definition raw_survey : DataFrame :=
  {| columns := ["Unnamed: 0"; "id"; "Type of Travel"; "Class"; "Flight Distance";
                 "satisfaction"] ++ rating_cols;
     data := [[VInt 0; VInt 1; VStr "Business"; VStr "Eco"; VInt 500; VStr "satisfied"]
                ++ ratings] |}.

Definition extracted : inputs :=
  {| Customers := raw_customers;
     Bookings := raw_bookings;
     Payments := raw_payments;
     Aircrafts := df_air sample;
     Flights := df_flights sample;
     Routes := df_routes sample;
     api := HTTPError;
     csv := raw_survey |}.

(** The frames [main] stages from them. *)
Definition transformed : batches :=
  {| df_cust := {| columns := ["CustomerID"; "Name"; "Notes"];
                   data := [[VInt 1; VStr "Ann Lee"; VStr "vip"];
                            [VInt 2; VStr "Bob"; VNull]] |};
     df_book := {| columns := ["BookingID"; "CustomerID"; "FlightID"; "Date"];
                   data := [[VInt 10; VInt 1; VInt 100; VStr "2024-01-01"];
                            [VInt 11; VInt 2; VInt 999; VStr "2024-01-02"]] |};
     df_pay := {| columns := ["PaymentID"; "Method"; "Amount"; "Date"];
                  data := [[VInt 5; VStr "Card"; VInt 20; VStr "2024-01-01"]] |};
     df_air := df_air sample;
     df_flights := df_flights sample;
     df_routes := df_routes sample;
     df_api := no_frame;
     df_csv := {| columns := satisfaction_columns;
                  data := [[VInt 1; VStr "Business"; VStr "Eco"; VInt 500;
                            VStr "Satisfied"; VNum (20 # 7)]] |} |}.

(** The staged sample store with two customers in the warehouse, the first
    under an older name. *)
Definition known_customers : table :=
  {| tcols := ["CustomerID"; "Name"];
     trows := [[("CustomerID", VInt 1); ("Name", VStr "Anne")];
               [("CustomerID", VInt 9); ("Name", VStr "Zed")]] |}.

Definition staged_known : db := <["DimCustomer" := known_customers]> staged_sample.

(** The first booking of the sample and its flight, as staged. *)
Definition booking_10 : row :=
  [("BookingID", VInt 10); ("CustomerID", VInt 1); ("FlightID", VInt 100);
   ("Date", VStr "2024-01-01")].

Definition flight_100 : row :=
  [("FlightID", VInt 100); ("RouteID", VInt 3); ("PlaneID", VInt 7);
   ("DepartureTime", VStr "08:00"); ("ArrivalTime", VStr "11:00")].

Definition staged_flights : table :=
  {| tcols := ["FlightID"; "RouteID"; "PlaneID"; "DepartureTime"; "ArrivalTime"];
     trows := [flight_100] |}.

(** The sample store with a staged survey row that carries the fourteen
    ratings, and with one whose first rating is a text. *)
Definition staged_survey (vs : list value) : db :=
  <["Stg_CustomerSatisfaction" :=
      {| tcols := stg_satisfaction_columns; trows := [survey_row vs] |}]> schema.

(** ** Facts on scalars and column lists *)

Lemma inb_In c cols : inb c cols = true <-> In c cols.
Proof.
  unfold inb. rewrite existsb_exists. split.
  - intros (x & Hx & Heq). apply String.eqb_eq in Heq. now subst.
  - intros H. exists c. split; [assumption | apply String.eqb_refl].
Qed.

Lemma inb_false c cols : inb c cols = false <-> ~ In c cols.
Proof.
  rewrite <- inb_In. destruct (inb c cols); split; intros; congruence.
Qed.

Lemma key_eqb_refl v : key_eqb v v = true.
Proof.
  destruct v as [|n|s|q]; simpl.
  - reflexivity.
  - apply Z.eqb_refl.
  - apply String.eqb_refl.
  - apply Qeq_bool_iff. reflexivity.
Qed.

Lemma sql_eq_refl v : is_null v = false -> sql_eq v v = true.
Proof.
  intros H. unfold sql_eq. rewrite H, key_eqb_refl. reflexivity.
Qed.


Lemma stg_cols_lookup d t tb : d !! t = Some tb -> stg_cols d t = tcols tb.
Proof. intros H. unfold stg_cols. now rewrite H. Qed.

(** ** Column resolution *)

Lemma first_present_some candidates cols a :
  first_present candidates cols = Some a ->
  exists before after,
    candidates = before ++ a :: after /\ In a cols /\
    forall b, In b before -> ~ In b cols.
Proof.
  induction candidates as [|c cs IH]; simpl; [discriminate|].
  destruct (inb c cols) eqn:Hc.
  - intros [= <-]. exists [], cs. repeat split.
    + now apply inb_In.
    + intros b [].
  - intros H. destruct (IH H) as (before & after & -> & Ha & Hb).
    exists (c :: before), after. repeat split; [assumption|].
    intros b [<- | Hin]; [now apply inb_false | now apply Hb].
Qed.

Lemma first_present_none candidates cols :
  first_present candidates cols = None ->
  forall a, In a candidates -> ~ In a cols.
Proof.
  induction candidates as [|c cs IH]; simpl; [intros _ a []|].
  destruct (inb c cols) eqn:Hc; [discriminate|].
  intros H a [<- | Hin]; [now apply inb_false | now apply IH].
Qed.

Lemma first_present_ext candidates cols cols' :
  (forall c, In c cols <-> In c cols') ->
  first_present candidates cols = first_present candidates cols'.
Proof.
  intros Hext. induction candidates as [|c cs IH]; simpl; [reflexivity|].
  assert (inb c cols = inb c cols') as ->.
  { destruct (inb c cols') eqn:H'.
    - apply inb_In, Hext, inb_In, H'.
    - apply inb_false. intros H. apply Hext in H. now apply inb_false in H'. }
  now rewrite IH.
Qed.

Lemma col_or_ext a b cols cols' :
  (forall c, In c cols <-> In c cols') -> col_or a b cols = col_or a b cols'.
Proof.
  intros Hext. unfold col_or.
  destruct (inb a cols) eqn:H, (inb a cols') eqn:H'; try reflexivity.
  - apply inb_In, Hext, inb_In in H. congruence.
  - apply inb_In, Hext, inb_In in H'. congruence.
Qed.

Lemma need_cols_first have c want :
  inb c have = false -> need_cols have (c :: want) = Raise (InvalidColumn c).
Proof. intros H. cbn [need_cols]. now rewrite H. Qed.

(** The aircraft merge on a staging table that has neither [PlaneID] nor
    [AircraftID]: the statement names [AircraftID] and the store rejects it. *)
Lemma merge_DimAircraft_unresolved E d tgt stg :
  d !! "DimAircraft" = Some tgt -> d !! "Stg_Aircrafts" = Some stg ->
  need_cols (tcols tgt) (target_columns DimAircraft) = Ok tt ->
  ~ In "PlaneID" (tcols stg) -> ~ In "AircraftID" (tcols stg) ->
  merge_of E DimAircraft d = Raise (InvalidColumn "AircraftID").
Proof.
  intros Ht Hs Hn Hp Ha. unfold merge_of. cbn [merge_with]. unfold merge_DimAircraft.
  rewrite (stg_cols_lookup _ _ _ Hs). unfold col_or.
  apply inb_false in Hp, Ha. rewrite Hp.
  unfold sql_merge, staging, need_table. rewrite Ht, Hs. cbn [obind].
  cbn [target_columns] in Hn. rewrite Hn. cbn [obind].
  now rewrite (need_cols_first _ _ _ Ha).
Qed.

(** C3 (as amended): the two resolutions of the aircraft identifier are
    decided by the order of the names tried, not by the order of the
    columns.  The aircraft transform tries AircraftID, PlaneID, ID in that
    order and takes the first that is a column of the frame: ID against
    {ID, Model}, AircraftID against {AircraftID, PlaneID}.  The aircraft
    merge (line 294) tries PlaneID only and otherwise takes AircraftID
    unchecked: PlaneID against {AircraftID, PlaneID}, and against
    {ID, Model} the name AircraftID, which the table lacks, so that the
    store rejects the statement; no resolution of the program tries the
    names PlaneID, AircraftID, ID in that order. *)
Theorem C3_first_alias_wins :
  (forall cols,
     match transform_oltp2_aircrafts_id_col cols with
     | Some a =>
         exists before after,
           ["AircraftID"; "PlaneID"; "ID"] = before ++ a :: after /\ In a cols /\
           forall b, In b before -> ~ In b cols
     | None => forall a, In a ["AircraftID"; "PlaneID"; "ID"] -> ~ In a cols
     end) /\
  (forall cols cols',
     (forall c, In c cols <-> In c cols') ->
     transform_oltp2_aircrafts_id_col cols = transform_oltp2_aircrafts_id_col cols' /\
     col_or "PlaneID" "AircraftID" cols = col_or "PlaneID" "AircraftID" cols') /\
  transform_oltp2_aircrafts_id_col ["ID"; "Model"] = Some "ID" /\
  transform_oltp2_aircrafts_id_col ["AircraftID"; "PlaneID"] = Some "AircraftID" /\
  transform_oltp2_aircrafts_id_col ["PlaneID"; "AircraftID"] = Some "AircraftID" /\
  (forall cols,
     (In "PlaneID" cols -> col_or "PlaneID" "AircraftID" cols = "PlaneID") /\
     (~ In "PlaneID" cols -> col_or "PlaneID" "AircraftID" cols = "AircraftID")) /\
  (forall E d p,
     plan_of E DimAircraft d = Ok p ->
     p_ks p = col_or "PlaneID" "AircraftID" (stg_cols d "Stg_Aircrafts")) /\
  col_or "PlaneID" "AircraftID" ["AircraftID"; "PlaneID"] = "PlaneID" /\
  col_or "PlaneID" "AircraftID" ["PlaneID"; "AircraftID"] = "PlaneID" /\
  col_or "PlaneID" "AircraftID" ["ID"; "Model"] = "AircraftID" /\
  (forall E d tgt stg,
     d !! "DimAircraft" = Some tgt -> d !! "Stg_Aircrafts" = Some stg ->
     need_cols (tcols tgt) (target_columns DimAircraft) = Ok tt ->
     ~ In "PlaneID" (tcols stg) -> ~ In "AircraftID" (tcols stg) ->
     merge_of E DimAircraft d = Raise (InvalidColumn "AircraftID")).
Proof.
  split; [|split].
  - intros cols. unfold transform_oltp2_aircrafts_id_col.
    destruct (first_present _ cols) eqn:H.
    + now apply first_present_some.
    + now apply first_present_none.
  - intros cols cols' Hext. split; [now apply first_present_ext | now apply col_or_ext].
  - do 3 (split; [reflexivity|]). split.
    { intros cols. split; intros H; unfold col_or.
      - apply inb_In in H. now rewrite H.
      - apply inb_false in H. now rewrite H. }
    split.
    { intros E d p Hp. cbn [plan_of] in Hp. now injection Hp as <-. }
    do 3 (split; [reflexivity|]).
    intros E d tgt stg. apply merge_DimAircraft_unresolved.
Qed.

(** C3, the claim as written, fails: the resolution that tries PlaneID
    first is the one of the aircraft merge; against {AircraftID, PlaneID}
    it gives PlaneID, not AircraftID, and against {ID, Model} it gives
    AircraftID, not ID, and the merge fails on that column. *)
Lemma C3_counterexample :
  col_or "PlaneID" "AircraftID" ["AircraftID"; "PlaneID"] <> "AircraftID" /\
  col_or "PlaneID" "AircraftID" ["ID"; "Model"] <> "ID" /\
  stg_cols schema_id_model "Stg_Aircrafts" = ["ID"; "Model"] /\
  merge_of permissive DimAircraft schema_id_model = Raise (InvalidColumn "AircraftID").
Proof.
  split; [vm_compute; discriminate|]. split; [vm_compute; discriminate|].
  split; vm_compute; reflexivity.
Qed.

(** ** The survey average *)

Lemma fl_proper (R : rounding) x y : (x == y)%Q -> (fl R x == fl R y)%Q.
Proof.
  intros H. apply Qle_antisym; apply fl_monotone; rewrite H; apply Qle_refl.
Qed.

Lemma fold_sql_add_null E vs : fold_left (sql_add E) vs VNull = VNull.
Proof. induction vs as [|v vs IH]; simpl; [reflexivity | exact IH]. Qed.

Lemma fold_sql_add_has_null E vs a : In VNull vs -> fold_left (sql_add E) vs a = VNull.
Proof.
  revert a. induction vs as [|v vs IH]; simpl; intros a; [intros []|].
  intros [-> | Hin].
  - destruct a; simpl; apply fold_sql_add_null.
  - now apply IH.
Qed.

Lemma sum_floats_has_null E vs : In VNull vs -> sum_floats E vs = VNull.
Proof.
  destruct vs as [|v vs]; simpl; [intros []|].
  intros [-> | Hin]; [apply fold_sql_add_null | now apply fold_sql_add_has_null].
Qed.

Lemma map_outcome_In {A B} (f : A -> outcome B) l bs a :
  map_outcome f l = Ok bs -> In a l -> exists b, f a = Ok b /\ In b bs.
Proof.
  revert bs. induction l as [|x l IH]; simpl; intros bs H Hin; [destruct Hin|].
  destruct (f x) as [b|e] eqn:Hfx; simpl in H; [|discriminate].
  destruct (map_outcome f l) as [bs'|e] eqn:Hl; simpl in H; [|discriminate].
  injection H as <-. destruct Hin as [-> | Hin].
  - exists b. split; [assumption | now left].
  - destruct (IH bs' eq_refl Hin) as (b' & Hb' & Hin'). exists b'. split; [assumption | now right].
Qed.

Lemma map_outcome_In_inv {A B} (f : A -> outcome B) l : forall bs b,
  map_outcome f l = Ok bs -> In b bs -> exists a, In a l /\ f a = Ok b.
Proof.
  induction l as [|a l IH]; intros bs b H Hin; cbn [map_outcome] in H.
  - injection H as <-. destruct Hin.
  - destruct (f a) as [b0|] eqn:Hfa; cbn [obind] in H; [|discriminate].
    destruct (map_outcome f l) as [bs0|] eqn:Hl; cbn [obind] in H; [|discriminate].
    injection H as <-. destruct Hin as [<- | Hin].
    + exists a. split; [now left | exact Hfa].
    + destruct (IH _ _ eq_refl Hin) as (a' & Ha' & Hf). exists a'. split; [now right | exact Hf].
Qed.

(** A survey field that is NULL makes the merged average NULL (or the
    statement fails on another field): the sum is not taken over the fields
    that are present. *)
Lemma AverageRating_null E r c :
  In c survey_columns -> get r c = VNull ->
  AverageRating E r = Ok VNull \/ exists e, AverageRating E r = Raise e.
Proof.
  intros Hc Hnull. unfold AverageRating.
  destruct (map_outcome (cast_float E) (map (get r) survey_columns)) as [xs|e] eqn:Hxs;
    simpl; [left | right; now exists e].
  assert (In VNull xs) as Hin.
  { destruct (map_outcome_In _ _ _ (get r c) Hxs) as (b & Hb & Hin).
    - apply in_map_iff. now exists c.
    - rewrite Hnull in Hb. simpl in Hb. now injection Hb as <-. }
  now rewrite (sum_floats_has_null _ _ Hin).
Qed.

Lemma fold_Qplus_eq qs a b : (a == b)%Q -> (fold_left Qplus qs a == fold_left Qplus qs b)%Q.
Proof.
  revert a b. induction qs as [|q qs IH]; simpl; intros a b H; [exact H|].
  apply IH. now rewrite H.
Qed.

Lemma fold_Qplus_ints ns : forall A,
  (fold_left Qplus (map inject_Z ns) (inject_Z A) == inject_Z (fold_left Z.add ns A))%Q.
Proof.
  induction ns as [|n ns IH]; intros A; simpl; [reflexivity|].
  rewrite <- IH. apply fold_Qplus_eq. now rewrite inject_Z_plus.
Qed.

Lemma cast_float_numbers E vs :
  Forall (fun v => is_number v = true) vs ->
  exists qs, map_outcome (cast_float E) vs = Ok (map VNum qs) /\ length qs = length vs.
Proof.
  induction 1 as [|v vs Hv _ (qs & IH & Hlen)]; [now exists []|].
  destruct v as [|n|s|q]; try discriminate Hv; simpl; rewrite IH; simpl.
  - exists (fl (float E) (inject_Z n) :: qs). simpl. now rewrite Hlen.
  - exists (q :: qs). simpl. now rewrite Hlen.
Qed.

Lemma fold_sql_add_nums E qs : forall a,
  exists p, fold_left (sql_add E) (map VNum qs) (VNum a) = VNum p.
Proof. induction qs as [|q qs IH]; intros a; simpl; [now exists a | apply IH]. Qed.

(** Fourteen numbers, none NULL, give a number. *)
Lemma AverageRating_number E r :
  Forall (fun c => is_number (get r c) = true) survey_columns ->
  exists q, AverageRating E r = Ok (VNum q).
Proof.
  intros H. unfold AverageRating.
  destruct (cast_float_numbers E (map (get r) survey_columns)) as (qs & -> & Hlen).
  { apply List.Forall_forall. intros v Hv. apply in_map_iff in Hv as (c & <- & Hc).
    revert c Hc. now apply List.Forall_forall. }
  destruct qs as [|q qs]; [discriminate Hlen|]. cbn [obind map sum_floats].
  destruct (fold_sql_add_nums E qs q) as (p & ->). cbn [sql_div]. now eexists.
Qed.

Lemma cast_float_ints E ns :
  map_outcome (cast_float E) (map VInt ns)
  = Ok (map (fun n => VNum (fl (float E) (inject_Z n))) ns).
Proof. induction ns as [|n ns IH]; simpl; [reflexivity | now rewrite IH]. Qed.

(** Whole numbers are added without error while the sums stay below 2^53. *)
Lemma fold_sql_add_ints E ns : forall a A,
  (a == inject_Z A)%Q ->
  Z.abs A + fold_right (fun n s => Z.abs n + s) 0 ns <= 2 ^ 53 ->
  exists p,
    fold_left (sql_add E) (map (fun n => VNum (fl (float E) (inject_Z n))) ns) (VNum a)
    = VNum p /\
    (p == inject_Z (fold_left Z.add ns A))%Q.
Proof.
  induction ns as [|n ns IH]; intros a A Ha Hb; cbn [map fold_left fold_right] in *.
  - now exists a.
  - assert (0 <= fold_right (fun n s => Z.abs n + s) 0 ns) as Hpos.
    { clear. induction ns as [|m ns IH]; simpl; lia. }
    cbn [sql_add]. apply IH; [|lia].
    rewrite (fl_proper _ _ (inject_Z (A + n))).
    + apply fl_int. lia.
    + rewrite inject_Z_plus, Ha. apply Qplus_comp; [reflexivity|]. apply fl_int. lia.
Qed.

Lemma sum_abs_bound b ns :
  Forall (fun n => Z.abs n <= b) ns ->
  fold_right (fun n s => Z.abs n + s) 0 ns <= Z.of_nat (length ns) * b.
Proof.
  induction 1 as [|n ns Hn _ IH]; [simpl; lia|].
  cbn [fold_right length]. lia.
Qed.

(** With fourteen whole ratings the merged average is their sum over 14,
    rounded once. *)
Lemma AverageRating_mean E r ns :
  map (get r) survey_columns = map VInt ns ->
  Forall (fun n => Z.abs n <= 2 ^ 31) ns ->
  exists q, AverageRating E r = Ok (VNum q) /\
            (q == fl (float E) (sum_Q (map inject_Z ns) / 14))%Q.
Proof.
  intros H Hb. unfold AverageRating. rewrite H, cast_float_ints. cbn [obind].
  assert (length ns = 14%nat) as Hlen.
  { apply (f_equal (@length value)) in H. now rewrite !List.length_map in H. }
  destruct ns as [|n ns]; [discriminate Hlen|]. cbn [map sum_floats].
  pose proof (sum_abs_bound _ _ Hb) as Hsum. rewrite Hlen in Hsum.
  cbn [fold_right] in Hsum.
  destruct (fold_sql_add_ints E ns (fl (float E) (inject_Z n)) n) as (p & -> & Hp).
  - apply fl_int. inversion Hb; subst. lia.
  - lia.
  - cbn [sql_div]. eexists. split; [reflexivity|].
    apply fl_proper. rewrite Hp. unfold sum_Q. cbn [map fold_left].
    apply Qdiv_comp; [|reflexivity].
    rewrite <- fold_Qplus_ints. apply fold_Qplus_eq. ring.
Qed.

(** The mean of the transform is taken over the cells that are numbers. *)
Lemma row_mean_numbers P vs qs :
  numbers vs = Ok qs -> qs <> [] -> row_mean P vs = Ok (VNum (mean P qs)).
Proof.
  intros H Hne. unfold row_mean. rewrite H. simpl.
  destruct qs as [|q0 qs]; [congruence | reflexivity].
Qed.

Lemma row_mean_whole P vs qs :
  numbers vs = Ok qs -> qs <> [] ->
  Forall whole qs -> (sum_Q (map Qabs qs) <= inject_Z (2 ^ 53))%Q ->
  exists q, row_mean P vs = Ok (VNum q) /\
            (q == fl (float64 P) (sum_Q qs / inject_Z (Z.of_nat (length qs))))%Q.
Proof.
  intros H Hne Hw Hb. rewrite (row_mean_numbers P vs qs H Hne).
  eexists. split; [reflexivity | now apply mean_whole].
Qed.

(** No rounding takes 20/7 to 37/14: 11/4 lies between them and is kept. *)
Lemma rounded_mean_differs (R : rounding) q :
  (q == fl R (20 # 7))%Q -> ~ (q == 37 # 14)%Q.
Proof.
  intros Hq H. rewrite Hq in H.
  pose proof (fl_monotone R (11 # 4) (20 # 7)) as Hm.
  rewrite (fl_dyadic R 11 2), H in Hm by (vm_compute; discriminate).
  assert (11 # 4 <= 20 # 7)%Q as Hle by (vm_compute; discriminate).
  specialize (Hm Hle). vm_compute in Hm. now apply Hm.
Qed.

Lemma cast_float_no_text E vs :
  Forall (fun v => forall s, v <> VStr s) vs ->
  exists xs, map_outcome (cast_float E) vs = Ok xs.
Proof.
  induction 1 as [|v vs Hv _ (xs & IH)]; [now exists []|].
  simpl. rewrite IH. destruct v as [|n|s|q]; simpl; eauto.
  now destruct (Hv s).
Qed.

(** A NULL among fourteen fields none of which is a text makes the merged
    average NULL. *)
Lemma AverageRating_null_only E r c :
  In c survey_columns -> get r c = VNull ->
  (forall c' s, In c' survey_columns -> get r c' <> VStr s) ->
  AverageRating E r = Ok VNull.
Proof.
  intros Hc Hnull Htext.
  destruct (AverageRating_null E r c Hc Hnull) as [H | (e & H)]; [exact H|].
  exfalso. unfold AverageRating in H.
  destruct (cast_float_no_text E (map (get r) survey_columns)) as (xs & Hxs).
  { apply List.Forall_forall. intros v Hv s. apply in_map_iff in Hv as (c' & <- & Hc').
    now apply Htext. }
  rewrite Hxs in H. discriminate H.
Qed.

Lemma ratings_average E :
  exists q, AverageRating E (survey_row ratings) = Ok (VNum q) /\
            (q == fl (float E) (20 # 7))%Q.
Proof.
  destruct (AverageRating_mean E (survey_row ratings)
              [1; 2; 3; 4; 5; 1; 2; 3; 4; 5; 1; 2; 3; 4]) as (q & Hq & Heq).
  - reflexivity.
  - repeat (apply List.Forall_cons; [vm_compute; discriminate|]). apply List.Forall_nil.
  - exists q. split; [exact Hq|]. rewrite Heq. apply fl_proper. vm_compute. reflexivity.
Qed.

Lemma ratings_partial_average E : AverageRating E (survey_row ratings_partial) = Ok VNull.
Proof.
  apply (AverageRating_null_only E _ "InflightWifiService").
  - now left.
  - reflexivity.
  - intros c' s Hc'. cbn in Hc'.
    repeat (destruct Hc' as [<- | Hc']; [vm_compute; discriminate|]). destruct Hc'.
Qed.

Lemma ratings_mean P :
  exists q, row_mean P ratings = Ok (VNum q) /\ (q == fl (float64 P) (20 # 7))%Q.
Proof.
  destruct (row_mean_whole P ratings
              (map inject_Z [1; 2; 3; 4; 5; 1; 2; 3; 4; 5; 1; 2; 3; 4])) as (q & Hq & Heq).
  - reflexivity.
  - discriminate.
  - repeat (apply List.Forall_cons; [reflexivity|]). apply List.Forall_nil.
  - vm_compute. discriminate.
  - exists q. split; [exact Hq|]. rewrite Heq. apply fl_proper. vm_compute. reflexivity.
Qed.

Lemma ratings_partial_mean P :
  exists q, row_mean P ratings_partial = Ok (VNum q) /\ (q == 3)%Q.
Proof.
  destruct (row_mean_whole P ratings_partial
              (map inject_Z [2; 3; 4; 5; 1; 2; 3; 4; 5; 1; 2; 3; 4])) as (q & Hq & Heq).
  - reflexivity.
  - discriminate.
  - repeat (apply List.Forall_cons; [reflexivity|]). apply List.Forall_nil.
  - vm_compute. discriminate.
  - exists q. split; [exact Hq|]. rewrite Heq.
    rewrite (fl_proper _ _ (inject_Z 3)) by (vm_compute; reflexivity).
    apply fl_int. vm_compute. discriminate.
Qed.

(** C8 (as amended): the average rating of the satisfaction merge is the
    value of (c1 + ... + c14) / 14.0 over the fourteen survey fields in
    FLOAT arithmetic.  When the fourteen are numbers, none NULL, it is a
    number; for whole ratings it is their sum over 14, the unweighted
    mean, rounded once: the FLOAT nearest to 40/14 = 20/7 for
    1,2,3,4,5,1,2,3,4,5,1,2,3,4, which no rounding takes to 37/14.  When
    one of the fourteen is NULL the merged average is NULL (or the
    statement fails on a text): it is not the mean of the others.  It is
    the survey transform that takes the mean over the rating cells that are
    not NaN: the float64 nearest to 20/7 on the same values, and
    39/13 = 3 when the first one is missing. *)
Theorem C8_average_rating (E : engine) (P : pandas) :
  (forall r,
     Forall (fun c => is_number (get r c) = true) survey_columns ->
     exists q, AverageRating E r = Ok (VNum q)) /\
  (forall r ns,
     map (get r) survey_columns = map VInt ns ->
     Forall (fun n => Z.abs n <= 2 ^ 31) ns ->
     exists q, AverageRating E r = Ok (VNum q) /\
               (q == fl (float E) (sum_Q (map inject_Z ns) / 14))%Q) /\
  (forall r c,
     In c survey_columns -> get r c = VNull ->
     (AverageRating E r = Ok VNull \/ exists e, AverageRating E r = Raise e) /\
     ((forall c' s, In c' survey_columns -> get r c' <> VStr s) ->
      AverageRating E r = Ok VNull)) /\
  (exists q, AverageRating E (survey_row ratings) = Ok (VNum q) /\
             (q == fl (float E) (20 # 7))%Q /\ ~ (q == 37 # 14)%Q) /\
  AverageRating E (survey_row ratings_partial) = Ok VNull /\
  (forall vs qs,
     numbers vs = Ok qs ->
     match qs with
     | [] => row_mean P vs = Ok VNull
     | _ :: _ =>
         row_mean P vs = Ok (VNum (mean P qs)) /\
         (Forall whole qs -> (sum_Q (map Qabs qs) <= inject_Z (2 ^ 53))%Q ->
          (mean P qs == fl (float64 P) (sum_Q qs / inject_Z (Z.of_nat (length qs))))%Q)
     end) /\
  (exists q, row_mean P ratings = Ok (VNum q) /\
             (q == fl (float64 P) (20 # 7))%Q /\ ~ (q == 37 # 14)%Q) /\
  numbers ratings_partial = Ok (map inject_Z [2; 3; 4; 5; 1; 2; 3; 4; 5; 1; 2; 3; 4]) /\
  (exists q, row_mean P ratings_partial = Ok (VNum q) /\ (q == 3)%Q) /\
  transform_csv_AverageRating P rating_cols (combine rating_cols ratings)
    = Some (row_mean P ratings).
Proof.
  split; [apply AverageRating_number|].
  split; [apply AverageRating_mean|].
  split.
  { intros r c Hc Hn. split; [now apply (AverageRating_null E r c)|].
    now apply (AverageRating_null_only E r c). }
  split.
  { destruct (ratings_average E) as (q & Hq & Heq). exists q.
    split; [exact Hq|]. split; [exact Heq | now apply (rounded_mean_differs (float E))]. }
  split; [apply ratings_partial_average|].
  split.
  { intros vs qs H. destruct qs as [|q0 qs].
    - unfold row_mean. now rewrite H.
    - split; [apply row_mean_numbers; [exact H | discriminate]|].
      intros Hw Hb. apply mean_whole; [discriminate | exact Hw | exact Hb]. }
  split.
  { destruct (ratings_mean P) as (q & Hq & Heq). exists q.
    split; [exact Hq|]. split; [exact Heq | now apply (rounded_mean_differs (float64 P))]. }
  split; [reflexivity|].
  split; [apply ratings_partial_mean|].
  reflexivity.
Qed.

(** C8, the claim as written, fails twice.  The mean of
    1,2,3,4,5,1,2,3,4,5,1,2,3,4 is 40/14 = 20/7, not 37/14: with unrounded
    arithmetic the merged average is 20/7, and with any rounding it is not
    37/14.  And with the first rating missing the merged average is NULL,
    whatever the engine, while the mean over the thirteen others, which
    the transform computes, is 3. *)
Lemma C8_counterexample :
  AverageRating permissive (survey_row ratings) = Ok (VNum (20 # 7)) /\
  ~ (20 # 7 == 37 # 14)%Q /\
  AverageRating permissive (survey_row ratings_partial) = Ok VNull /\
  row_mean plain ratings_partial = Ok (VNum 3) /\
  (forall E q, AverageRating E (survey_row ratings) = Ok (VNum q) -> ~ (q == 37 # 14)%Q) /\
  (forall E, AverageRating E (survey_row ratings_partial) = Ok VNull).
Proof.
  split; [vm_compute; reflexivity|].
  split; [vm_compute; discriminate|].
  split; [vm_compute; reflexivity|].
  split; [vm_compute; reflexivity|].
  split; [|apply ratings_partial_average].
  intros E q Hq. destruct (ratings_average E) as (q' & Hq' & Heq).
  rewrite Hq in Hq'. injection Hq' as <-.
  now apply (rounded_mean_differs (float E)).
Qed.

(** On the whole pipeline the survey frame carries none of the fourteen
    staging fields (the transform keeps six columns, and the staging table
    has no column AverageRating): the merge sums fourteen NULLs, and the
    average the satisfaction dimension receives is NULL. *)
Lemma sample_run_average_null :
  after_run permissive sample schema !! "DimSatisfaction"
  = Some {| tcols := satisfaction_columns;
            trows := [[("CustomerID", VInt 1); ("TypeOfTravel", VStr "Business");
                       ("Class", VStr "Eco"); ("FlightDistance", VInt 500);
                       ("Satisfaction", VStr "Satisfied"); ("AverageRating", VNull)]] |}.
Proof. vm_compute. reflexivity. Qed.

(** ** The staging writer *)

Lemma sql_insert_table E t r d tb :
  d !! t = Some tb ->
  sql_insert E t r d = (let! tb' := insert_row E t tb r in Ok (<[t := tb']> d)).
Proof.
  intros H. unfold sql_insert, insert_row, need_table. rewrite H.
  destruct r as [|p r]; [reflexivity|]. cbn [obind].
  destruct (need_cols (tcols tb) (map fst (p :: r))); cbn [obind]; [|reflexivity].
  destruct (accepts E t (trows tb) (p :: r)); reflexivity.
Qed.

Lemma insert_rows_spec E t rs : forall w tb,
  session w !! t = Some tb ->
  insert_rows E t rs w =
    match insert_all E t tb rs with
    | (tb', None) =>
        (Ok tt, {| committed := committed w; session := <[t := tb']> (session w);
                   out := out w |})
    | (tb', Some (e, r)) =>
        (Raise e, {| committed := committed w; session := <[t := tb']> (session w);
                     out := out w ++ [ErrInsert e; RowData r] |})
    end.
Proof.
  induction rs as [|r rs IH]; intros w tb Hw.
  - simpl. unfold ret. rewrite (insert_id _ _ _ Hw). now destruct w.
  - cbn [insert_rows insert_all]. unfold execute.
    rewrite (sql_insert_table E t r _ tb Hw).
    destruct (insert_row E t tb r) as [tb'|e]; cbn [obind].
    + rewrite (IH _ tb') by (cbn; apply lookup_insert_eq).
      destruct (insert_all E t tb' rs) as [tb2 [[e r']|]];
        cbn [session committed out]; rewrite insert_insert_eq; reflexivity.
    + unfold bind, print, raise. cbn [session committed out].
      rewrite (insert_id _ _ _ Hw), <- app_assoc. reflexivity.
Qed.

(** The whole of one staging load when the destination exists. *)
Lemma load_to_staging_spec E df t w tb :
  session w !! t = Some tb ->
  load_to_staging E df t w =
    let df' := staged_frame (tcols tb) df in
    match insert_all E t (cleared tb) (iterrows df') with
    | (tb', None) =>
        (Ok tt, {| committed := <[t := tb']> (session w);
                   session := <[t := tb']> (session w);
                   out := out w ++ [Loading t] ++ staging_warnings (tcols tb) df t
                            ++ [Loaded (length (data df')) t] |})
    | (tb', Some (e, r)) =>
        (Raise e, {| committed := <[t := cleared tb]> (session w);
                     session := <[t := tb']> (session w);
                     out := out w ++ [Loading t] ++ staging_warnings (tcols tb) df t
                              ++ [ErrInsert e; RowData r] |})
    end.
Proof.
  intros Hw. unfold load_to_staging, bind, print, get_table_columns, commit, execute.
  cbn [session committed out]. rewrite Hw.
  unfold staged_frame, staging_warnings, dropped_columns, cleared.
  destruct (tcols tb) as [|c cs] eqn:Hcols.
  - cbn [ret session committed out]. unfold sql_delete, need_table. rewrite Hw. cbn [obind session committed out].
    match goal with |- context [insert_rows E t ?rs ?w0] =>
      rewrite (insert_rows_spec E t rs w0 {| tcols := tcols tb; trows := [] |})
        by (cbn; apply lookup_insert_eq) end.
    rewrite Hcols.
    destruct (insert_all E t _ _) as [tb2 [[e r']|]]; cbn [session committed out];
      rewrite insert_insert_eq, <- ?app_assoc; reflexivity.
  - destruct (Nat.eqb _ _); cbn [ret session committed out];
    unfold sql_delete, need_table; rewrite Hw; cbn [obind session committed out];
      match goal with |- context [insert_rows E t ?rs ?w0] =>
        rewrite (insert_rows_spec E t rs w0 {| tcols := tcols tb; trows := [] |})
          by (cbn; apply lookup_insert_eq) end; rewrite Hcols;
      destruct (insert_all E t _ _) as [tb2 [[e r']|]]; cbn [session committed out];
      rewrite insert_insert_eq, <- ?app_assoc; cbn [app]; rewrite ?app_nil_r; reflexivity.
Qed.

(** A load into a table the store does not have fails at its DELETE. *)
Lemma load_to_staging_missing E df t w :
  session w !! t = None ->
  load_to_staging E df t w =
    (Raise (InvalidObject t),
     {| committed := committed w; session := session w;
        out := out w ++ [Loading t; WarnNoColumns t] |}).
Proof.
  intros Hw. unfold load_to_staging, bind, print, get_table_columns, commit, execute.
  cbn [session committed out]. rewrite Hw.
  unfold sql_delete, need_table. cbn [ret session committed out]. rewrite Hw. cbn [obind].
  rewrite <- app_assoc. reflexivity.
Qed.

Lemma select_rows (keep : string -> bool) cols (vs : list value) :
  combine (List.filter keep cols)
          (map snd (List.filter (fun p => keep (fst p)) (combine cols vs)))
  = List.filter (fun p => keep (fst p)) (combine cols vs).
Proof.
  revert vs. induction cols as [|c cs IH]; intros vs; [reflexivity|].
  destruct vs as [|v vs]; [now destruct (List.filter keep (c :: cs))|].
  cbn [combine List.filter fst]. destruct (keep c); cbn [map snd combine]; now rewrite IH.
Qed.

Lemma iterrows_staged cols df :
  cols <> [] ->
  iterrows (staged_frame cols df) = map (restrict cols) (iterrows df).
Proof.
  intros Hne. destruct cols as [|c cs]; [congruence|].
  unfold staged_frame, iterrows, select_columns, restrict. cbn [columns data].
  rewrite !map_map. apply map_ext. intros vs. apply select_rows.
Qed.

Lemma restrict_columns cols r c : In c (map fst (restrict cols r)) -> In c cols /\ In c (map fst r).
Proof.
  unfold restrict. rewrite !in_map_iff. intros ([k v] & <- & Hin).
  apply filter_In in Hin as [Hin Hk]. split; [now apply inb_In|].
  exists (k, v). now split.
Qed.

Lemma restrict_get cols r c : In c cols -> get (restrict cols r) c = get r c.
Proof.
  intros Hc. induction r as [|[k v] r IH]; [reflexivity|].
  unfold restrict in *. cbn [List.filter fst get].
  destruct (inb k cols) eqn:Hk; cbn [get].
  - now rewrite IH.
  - destruct (String.eqb k c) eqn:Hkc; [|exact IH].
    apply String.eqb_eq in Hkc. subst k. apply inb_In in Hc. congruence.
Qed.

Lemma restrict_idem cols r : restrict cols (restrict cols r) = restrict cols r.
Proof.
  unfold restrict. induction r as [|[k v] r IH]; [reflexivity|].
  cbn [List.filter fst]. destruct (inb k cols) eqn:Hk; [|exact IH].
  cbn [List.filter fst]. now rewrite Hk, IH.
Qed.

Lemma filter_all_length {A} (f : A -> bool) l :
  Nat.eqb (length (List.filter f l)) (length l) = true <->
  List.filter (fun x => negb (f x)) l = [].
Proof.
  induction l as [|x l IH]; [now split|].
  cbn [List.filter]. pose proof (filter_length_le f l) as Hle.
  destruct (f x); cbn [negb length].
  - exact IH.
  - split; [|discriminate]. intros H. apply Nat.eqb_eq in H. lia.
Qed.

Lemma staging_warnings_none cols df t :
  cols <> [] -> dropped_columns cols df = [] -> staging_warnings cols df t = [].
Proof.
  intros Hne H. destruct cols as [|c cs]; [congruence|].
  unfold staging_warnings. apply filter_all_length in H. now rewrite H.
Qed.

Lemma staging_warnings_some cols df t :
  cols <> [] -> dropped_columns cols df <> [] ->
  staging_warnings cols df t = [WarnSkipped (dropped_columns cols df) t].
Proof.
  intros Hne H. destruct cols as [|c cs]; [congruence|].
  unfold staging_warnings.
  destruct (Nat.eqb _ _) eqn:Hl; [|reflexivity].
  apply filter_all_length in Hl. contradiction.
Qed.

Lemma insert_all_ok E t rs : forall tb tb',
  insert_all E t tb rs = (tb', None) ->
  tb' = {| tcols := tcols tb; trows := trows tb ++ rs |}.
Proof.
  induction rs as [|r rs IH]; intros tb tb' H; cbn [insert_all] in H.
  - injection H as <-. rewrite app_nil_r. now destruct tb.
  - destruct (insert_row E t tb r) as [tb1|e] eqn:Hr; [|discriminate].
    apply IH in H. subst tb'.
    unfold insert_row in Hr. destruct r as [|p r]; [discriminate|].
    destruct (need_cols _ _); cbn [obind] in Hr; [|discriminate].
    destruct (accepts _ _ _ _); [|discriminate].
    injection Hr as <-. cbn [tcols trows]. now rewrite <- app_assoc.
Qed.

Lemma insert_all_app E t rs1 : forall tb tb1 rs2,
  insert_all E t tb rs1 = (tb1, None) ->
  insert_all E t tb (rs1 ++ rs2) = insert_all E t tb1 rs2.
Proof.
  induction rs1 as [|r rs1 IH]; intros tb tb1 rs2 H; cbn [insert_all app] in *.
  - now injection H as <-.
  - destruct (insert_row E t tb r) as [tb'|e]; [now apply IH | discriminate].
Qed.

(** C5: when the destination table has catalog columns, the records the
    staging writer inserts are the records of the frame restricted to those
    columns: no inserted field is absent from the destination, every field
    the destination has keeps its value; the dropped fields are reported in
    one warning and in no error; when the store takes the restricted
    records the load succeeds and the table holds exactly them; and the
    load of a frame ends as the load of the frame without its extra fields
    does, with the same store. *)
Theorem C5_projection (E : engine) (df : DataFrame) (t : string) (w : world) (tb : table) :
  session w !! t = Some tb -> tcols tb <> [] ->
  let db_columns := tcols tb in
  let recs := map (restrict db_columns) (iterrows df) in
  iterrows (staged_frame db_columns df) = recs /\
  (forall r c, In r recs -> In c (map fst r) -> In c db_columns /\ In c (columns df)) /\
  (forall r c, In c db_columns -> get (restrict db_columns r) c = get r c) /\
  (dropped_columns db_columns df = [] -> staging_warnings db_columns df t = []) /\
  (dropped_columns db_columns df <> [] ->
   staging_warnings db_columns df t = [WarnSkipped (dropped_columns db_columns df) t]) /\
  (forall tb', insert_all E t (cleared tb) recs = (tb', None) ->
     load_to_staging E df t w =
       (Ok tt, {| committed := <[t := {| tcols := db_columns; trows := recs |}]> (session w);
                  session := <[t := {| tcols := db_columns; trows := recs |}]> (session w);
                  out := out w ++ [Loading t] ++ staging_warnings db_columns df t
                           ++ [Loaded (length recs) t] |})) /\
  fst (load_to_staging E df t w) = fst (load_to_staging E (staged_frame db_columns df) t w) /\
  session (snd (load_to_staging E df t w))
    = session (snd (load_to_staging E (staged_frame db_columns df) t w)) /\
  committed (snd (load_to_staging E df t w))
    = committed (snd (load_to_staging E (staged_frame db_columns df) t w)).
Proof.
  intros Hw Hne db_columns recs.
  assert (iterrows (staged_frame db_columns df) = recs) as Hrecs
    by now apply iterrows_staged.
  split; [exact Hrecs|]. split; [|split; [|split; [|split; [|split]]]].
  - intros r c Hr Hc. apply in_map_iff in Hr as (r0 & <- & Hr0).
    apply restrict_columns in Hc as [Hc1 Hc2]. split; [exact Hc1|].
    unfold iterrows in Hr0. apply in_map_iff in Hr0 as (vs & <- & _).
    apply in_map_iff in Hc2 as ([k v] & <- & Hin). cbn [fst].
    now apply in_combine_l in Hin.
  - intros r c. apply restrict_get.
  - now apply staging_warnings_none.
  - now apply staging_warnings_some.
  - intros tb' Hall. rewrite (load_to_staging_spec E df t w tb Hw). cbv zeta.
    fold db_columns. rewrite Hrecs, Hall.
    apply insert_all_ok in Hall. subst tb'. cbn [cleared tcols trows app].
    assert (length (data (staged_frame db_columns df)) = length recs) as ->.
    { rewrite <- Hrecs. unfold iterrows. now rewrite length_map. }
    reflexivity.
  - assert (iterrows (staged_frame db_columns (staged_frame db_columns df)) = recs) as Hrecs2.
    { rewrite iterrows_staged by assumption. rewrite Hrecs. unfold recs.
      rewrite map_map. apply map_ext. intros r. apply restrict_idem. }
    rewrite (load_to_staging_spec E df t w tb Hw).
    rewrite (load_to_staging_spec E (staged_frame db_columns df) t w tb Hw). cbv zeta.
    fold db_columns. rewrite Hrecs, Hrecs2.
    destruct (insert_all E t (cleared tb) recs) as [tb2 [[e r']|]]; repeat split; reflexivity.
Qed.

Lemma C5_projection_witness :
  iterrows (staged_frame ["CustomerID"; "Name"] (df_cust sample))
    = [[("CustomerID", VInt 1); ("Name", VStr "Ann")];
       [("CustomerID", VInt 2); ("Name", VStr "Bob")]] /\
  staging_warnings ["CustomerID"; "Name"] (df_cust sample) "Stg_Customers"
    = [WarnSkipped ["Notes"] "Stg_Customers"].
Proof.
  pose proof (C5_projection permissive (df_cust sample) "Stg_Customers" (connect schema)
                (empty_table ["CustomerID"; "Name"]) eq_refl ltac:(discriminate)) as H.
  destruct H as (H1 & _ & _ & _ & H5 & _).
  split; [exact H1 | apply H5; discriminate].
Defined.

(** ** The staging loads of [main] *)

Lemma run_loads_app E l1 l2 w :
  run_loads E (l1 ++ l2) w = (run_loads E l1 ;; run_loads E l2) w.
Proof.
  revert w. induction l1 as [|[df t] l1 IH]; intros w; [reflexivity|].
  cbn [app run_loads]. unfold bind.
  destruct (load_to_staging E df t w) as [[u|e] w1]; [|reflexivity].
  rewrite IH. reflexivity.
Qed.

Lemma stage_all_plan E B w :
  stage_all E B w =
    (run_loads E (load_plan B) ;;
     (if df_empty (df_api B) then print SkipApi else ret tt)) w.
Proof.
  unfold stage_all, load_plan. destruct (df_empty (df_api B)); cbn [negb app run_loads];
    unfold bind, ret;
    repeat match goal with
           | |- context [load_to_staging E ?df ?t ?w0] =>
               destruct (load_to_staging E df t w0) as [[[]|?] ?]; try reflexivity
           end.
Qed.

(** A load that raises ends the loads of the plan. *)
Lemma run_loads_raise E pre df t post w w1 e w2 :
  run_loads E pre w = (Ok tt, w1) ->
  load_to_staging E df t w1 = (Raise e, w2) ->
  run_loads E (pre ++ (df, t) :: post) w = (Raise e, w2).
Proof.
  intros H1 H2. rewrite run_loads_app. unfold bind at 1. rewrite H1.
  cbn [run_loads]. unfold bind. now rewrite H2.
Qed.

Lemma load_to_staging_frame E df t w x :
  clean w -> x <> t ->
  session (snd (load_to_staging E df t w)) !! x = session w !! x /\
  committed (snd (load_to_staging E df t w)) !! x = session w !! x.
Proof.
  intros Hc Hx. destruct (session w !! t) as [tb|] eqn:Hw.
  - rewrite (load_to_staging_spec E df t w tb Hw). cbv zeta.
    destruct (insert_all E t _ _) as [tb2 [[e r']|]]; cbn [snd session committed];
      rewrite !lookup_insert_ne by congruence; now split.
  - rewrite (load_to_staging_missing E df t w Hw). cbn [snd session committed].
    now rewrite Hc.
Qed.

Lemma load_to_staging_clean E df t w w' :
  load_to_staging E df t w = (Ok tt, w') -> clean w'.
Proof.
  intros H. destruct (session w !! t) as [tb|] eqn:Hw.
  - rewrite (load_to_staging_spec E df t w tb Hw) in H. cbv zeta in H.
    destruct (insert_all E t _ _) as [tb2 [[e r']|]]; [discriminate|].
    injection H as <-. reflexivity.
  - rewrite (load_to_staging_missing E df t w Hw) in H. discriminate.
Qed.

Lemma load_to_staging_out E df t w :
  exists evs, out (snd (load_to_staging E df t w)) = out w ++ evs /\
              forallb (fun ev => negb (merge_event ev)) evs = true.
Proof.
  destruct (session w !! t) as [tb|] eqn:Hw.
  - rewrite (load_to_staging_spec E df t w tb Hw). cbv zeta.
    destruct (insert_all E t _ _) as [tb2 [[e r']|]]; cbn [snd out];
      eexists; (split; [reflexivity|]);
      rewrite !forallb_app; cbn [forallb merge_event negb andb];
      rewrite ?andb_true_r;
      unfold staging_warnings; destruct (tcols tb); try reflexivity;
      destruct (Nat.eqb _ _); reflexivity.
  - rewrite (load_to_staging_missing E df t w Hw). cbn [snd out].
    eexists. split; reflexivity.
Qed.

Lemma run_loads_frame E l : forall w o w',
  clean w -> run_loads E l w = (o, w') ->
  (forall x, ~ In x (map snd l) ->
     session w' !! x = session w !! x /\ committed w' !! x = session w !! x) /\
  (o = Ok tt -> clean w') /\
  (exists evs, out w' = out w ++ evs /\
               forallb (fun ev => negb (merge_event ev)) evs = true).
Proof.
  induction l as [|[df t] l IH]; intros w o w' Hc H.
  - injection H as <- <-. split; [intros x _; now rewrite Hc|]. split; [intros _; exact Hc|].
    exists (@nil event). now rewrite app_nil_r.
  - cbn [run_loads] in H. unfold bind in H.
    destruct (load_to_staging_out E df t w) as (evs1 & Hout1 & Hev1).
    destruct (load_to_staging E df t w) as [[[]|e] w1] eqn:Hl.
    + assert (clean w1) as Hc1 by (eapply load_to_staging_clean; eassumption).
      destruct (IH _ _ _ Hc1 H) as (Hf & Hcl & evs2 & Hout2 & Hev2).
      repeat split; try assumption.
      * destruct (Hf x) as [Hs _]; [cbn in H0; tauto|].
        rewrite Hs. pose proof (load_to_staging_frame E df t w x Hc) as Hx.
        rewrite Hl in Hx. apply Hx. cbn in H0. intros ->. tauto.
      * destruct (Hf x) as [_ Hs]; [cbn in H0; tauto|].
        rewrite Hs. pose proof (load_to_staging_frame E df t w x Hc) as Hx.
        rewrite Hl in Hx. apply Hx. cbn in H0. intros ->. tauto.
      * exists (evs1 ++ evs2). cbn [snd] in Hout1. rewrite Hout2, Hout1, app_assoc.
        split; [reflexivity|]. rewrite forallb_app, Hev1, Hev2. reflexivity.
    + injection H as <- <-. cbn [snd] in Hout1.
      repeat split; try discriminate.
      * pose proof (load_to_staging_frame E df t w x Hc) as Hx.
        rewrite Hl in Hx. apply Hx. cbn in H. intros ->. tauto.
      * pose proof (load_to_staging_frame E df t w x Hc) as Hx.
        rewrite Hl in Hx. apply Hx. cbn in H. intros ->. tauto.
      * exists evs1. now split.
Qed.

(** C6: when the store refuses a record of a staging load (the first one
    it refuses being [r], with error [e]), the load raises [e] after
    printing the error and the content of [r]; what is committed for that
    table is the cleared table, none of the batch; [main] raises the same
    error at that point: no later load and no merge runs, and the tables
    other than the staging tables are as they were. *)
Theorem C6_rejected_record_aborts (E : engine) (B : batches) (d : db)
    (pre post : list (DataFrame * string)) (df : DataFrame) (t : string)
    (w1 : world) (tb tb1 : table) (rs1 rs2 : list row) (r : row) (e : exn) :
  load_plan B = pre ++ (df, t) :: post ->
  run_loads E pre (connect d) = (Ok tt, w1) ->
  session w1 !! t = Some tb ->
  iterrows (staged_frame (tcols tb) df) = rs1 ++ r :: rs2 ->
  insert_all E t (cleared tb) rs1 = (tb1, None) ->
  insert_row E t tb1 r = Raise e ->
  exists w',
    load_to_staging E df t w1 = (Raise e, w') /\
    run E B d = (Raise e, w') /\
    (exists evs, out w' = evs ++ [ErrInsert e; RowData r]) /\
    committed w' !! t = Some (cleared tb) /\
    forallb (fun ev => negb (merge_event ev)) (out w') = true /\
    (forall x, ~ In x (map snd (load_plan B)) -> committed w' !! x = d !! x).
Proof.
  intros Hplan Hpre Hw Hrecs Hall Hr.
  assert (insert_all E t (cleared tb) (rs1 ++ r :: rs2) = (tb1, Some (e, r))) as Hfail.
  { rewrite (insert_all_app E t rs1 _ tb1) by assumption. cbn [insert_all]. now rewrite Hr. }
  pose proof (load_to_staging_spec E df t w1 tb Hw) as Hload. cbv zeta in Hload.
  rewrite Hrecs, Hfail in Hload.
  match type of Hload with _ = (_, ?w0) => set (w' := w0) in * end.
  exists w'. split; [exact Hload|].
  assert (run_loads E (load_plan B) (connect d) = (Raise e, w')) as Hrun.
  { rewrite Hplan. eapply run_loads_raise; eassumption. }
  split.
  { unfold run, main. unfold bind at 1. rewrite stage_all_plan. unfold bind at 1.
    rewrite Hrun. reflexivity. }
  split; [eexists; unfold w'; cbn [out]; rewrite !app_assoc; reflexivity|].
  split; [unfold w'; cbn [committed]; apply lookup_insert_eq|].
  edestruct (run_loads_frame E (load_plan B) (connect d))
    as (Hf & _ & evs & Hout & Hev); [reflexivity | exact Hrun |].
  split.
  - rewrite Hout. cbn [connect out app]. exact Hev.
  - intros x Hx. destruct (Hf x Hx) as [_ Hcx]. exact Hcx.
Qed.

Lemma C6_rejected_record_aborts_witness :
  exists w',
    run strict sample_rejected schema
      = (Raise (Rejected "Stg_Bookings"
                  [("BookingID", VNull); ("CustomerID", VInt 2); ("FlightID", VInt 100);
                   ("Date", VStr "2024-01-02")]), w') /\
    committed w' !! "Stg_Bookings"
      = Some (empty_table ["BookingID"; "CustomerID"; "FlightID"; "Date"]) /\
    committed w' !! "FactBooking" = schema !! "FactBooking".
Proof.
  destruct (C6_rejected_record_aborts strict sample_rejected schema
              [(df_cust sample, "Stg_Customers")] (load_plan_tail sample_rejected)
              (df_book sample_rejected) "Stg_Bookings"
              (snd (run_loads strict [(df_cust sample, "Stg_Customers")] (connect schema)))
              (empty_table ["BookingID"; "CustomerID"; "FlightID"; "Date"])
              {| tcols := ["BookingID"; "CustomerID"; "FlightID"; "Date"];
                 trows := [[("BookingID", VInt 10); ("CustomerID", VInt 1);
                            ("FlightID", VInt 100); ("Date", VStr "2024-01-01")]] |}
              [[("BookingID", VInt 10); ("CustomerID", VInt 1);
                ("FlightID", VInt 100); ("Date", VStr "2024-01-01")]]
              [[("BookingID", VInt 12); ("CustomerID", VInt 2);
                ("FlightID", VInt 100); ("Date", VStr "2024-01-03")]]
              [("BookingID", VNull); ("CustomerID", VInt 2); ("FlightID", VInt 100);
               ("Date", VStr "2024-01-02")]
              (Rejected "Stg_Bookings"
                 [("BookingID", VNull); ("CustomerID", VInt 2); ("FlightID", VInt 100);
                  ("Date", VStr "2024-01-02")]))
    as (w' & _ & Hrun & _ & Hc & _ & Hf);
    try (vm_compute; reflexivity).
  exists w'. split; [exact Hrun|]. split; [exact Hc|].
  apply Hf. vm_compute. intuition discriminate.
Defined.

(** ** The merger as a sequence of guarded statements *)

Lemma try_merge_spec name stmt w :
  try_merge name (execute (merge_into name stmt)) w =
    (Ok tt, {| committed := committed w; session := step name stmt (session w);
               out := out w ++ [step_event name stmt (session w)] |}).
Proof.
  unfold try_merge, execute, merge_into, step, step_event, print.
  destruct (stmt (session w)); reflexivity.
Qed.

Lemma print_table_info_spec t w :
  print_table_info t w =
    (Ok (stg_cols (session w) t),
     {| committed := committed w; session := session w;
        out := out w ++ [TableInfo t (stg_cols (session w) t)] |}).
Proof. reflexivity. Qed.

Lemma bind_eq {A B} (m : M A) (k : A -> M B) w a w' :
  m w = (Ok a, w') -> bind m k w = k a w'.
Proof. intros H. unfold bind. now rewrite H. Qed.

Lemma print_spec ev w :
  print ev w = (Ok tt, {| committed := committed w; session := session w; out := out w ++ [ev] |}).
Proof. reflexivity. Qed.

Lemma merge_to_dim_fact_steps E w :
  merge_to_dim_fact E w =
    (Ok tt,
     {| committed := steps E (session w) all_targets (session w);
        session := steps E (session w) all_targets (session w);
        out := out w ++ [MergeStart; StagingHeader] ++ table_infos (session w)
                 ++ [BlankLine]
                 ++ step_events E (session w) all_targets (session w)
                 ++ [MergeComplete] |}).
Proof.
  unfold merge_to_dim_fact.
  do 2 (erewrite bind_eq by apply print_spec; cbn [session committed out]).
  do 7 (erewrite bind_eq by apply print_table_info_spec; cbn [session committed out]).
  erewrite bind_eq by apply print_spec. cbn [session committed out].
  do 7 (erewrite bind_eq by apply try_merge_spec; cbn [session committed out]).
  unfold bind, commit, print. cbn [session committed out].
  unfold steps, table_infos. cbn [fold_left step_events map all_targets target_name].
  unfold merge_with.
  rewrite <- !app_assoc. cbn [app]. reflexivity.
Qed.

Lemma sql_merge_agree E tname tneed kt ks src sneed upd ins d1 d2 :
  d1 !! tname = d2 !! tname -> src d1 = src d2 ->
  sql_merge E tname tneed kt ks src sneed upd ins d1
  = sql_merge E tname tneed kt ks src sneed upd ins d2.
Proof. intros H1 H2. unfold sql_merge, need_table. now rewrite H1, H2. Qed.

Lemma staging_agree t d1 d2 : d1 !! t = d2 !! t -> staging t d1 = staging t d2.
Proof. intros H. unfold staging, need_table. now rewrite H. Qed.

Lemma merge_with_agree E X d0 d1 d2 :
  agree_on (reads X) d1 d2 -> merge_with E X d0 d1 = merge_with E X d0 d2.
Proof.
  intros H. destruct X; cbn [merge_with];
    unfold merge_DimCustomer, merge_DimAircraft, merge_DimRoute, merge_DimFlight,
      merge_DimPayment, merge_DimSatisfaction, merge_FactBooking;
    try (match goal with |- context [col_or_first ?a ?c] => destruct (col_or_first a c) end;
         cbn [obind]; [|reflexivity]);
    apply sql_merge_agree;
    try (apply H; cbn; tauto);
    try (apply staging_agree, H; cbn; tauto).
  - unfold satisfaction_source, need_table. rewrite (H "Stg_CustomerSatisfaction") by (cbn; tauto).
    reflexivity.
  - unfold booking_source, need_table.
    rewrite (H "Stg_Bookings"), (H "Stg_Flights") by (cbn; tauto). reflexivity.
Qed.

Lemma target_name_reads X : In (target_name X) (reads X).
Proof. destruct X; cbn; tauto. Qed.

Lemma target_name_not_read X Y : X <> Y -> ~ In (target_name X) (reads Y).
Proof. destruct X, Y; cbn; intros H; try congruence; intuition discriminate. Qed.

Lemma target_name_inj X Y : target_name X = target_name Y -> X = Y.
Proof. destruct X, Y; cbn; intros H; try reflexivity; discriminate. Qed.

Lemma step_other name stmt d x : x <> name -> step name stmt d !! x = d !! x.
Proof.
  intros H. unfold step. destruct (stmt d); [|reflexivity].
  apply lookup_insert_ne. congruence.
Qed.

Lemma steps_spec E d0 L : forall d,
  List.NoDup L ->
  (forall X, In X L -> agree_on (reads X) d d0) ->
  (forall X, In X L -> steps E d0 L d !! target_name X = merged_table E X d0) /\
  (forall x, (forall X, In X L -> x <> target_name X) -> steps E d0 L d !! x = d !! x) /\
  step_events E d0 L d = map (merge_event_of E d0) L.
Proof.
  induction L as [|X L IH]; intros d Hnd Hag.
  - split; [intros X []|]. split; reflexivity.
  - inversion Hnd as [|? ? Hnot Hnd']; subst.
    assert (merge_with E X d0 d = merge_of E X d0) as Hm
      by (apply merge_with_agree, Hag; now left).
    set (d' := step (target_name X) (merge_with E X d0) d).
    assert (forall Y, In Y L -> agree_on (reads Y) d' d0) as Hag'.
    { intros Y HY x Hx. unfold d'. rewrite step_other.
      - apply (Hag Y); [now right | assumption].
      - intros ->. apply (target_name_not_read X Y); [|assumption].
        intros ->. contradiction. }
    destruct (IH d' Hnd' Hag') as (IH1 & IH2 & IH3).
    cbn [steps fold_left step_events map]. fold d'.
    change (fold_left _ L d') with (steps E d0 L d'). split; [|split].
    + intros Y [<- | HY]; [|now apply IH1].
      rewrite IH2.
      * unfold d', step, merged_table. rewrite Hm.
        destruct (merge_of E X d0); [apply lookup_insert_eq|].
        apply (Hag X); [now left | apply target_name_reads].
      * intros Y HY Heq. apply target_name_inj in Heq. subst Y. contradiction.
    + intros x Hx. rewrite IH2 by (intros Y HY; apply Hx; now right).
      unfold d'. apply step_other, Hx. now left.
    + rewrite IH3. f_equal. unfold merge_event_of, step_event. now rewrite Hm.
Qed.

Lemma all_targets_NoDup : List.NoDup all_targets.
Proof. repeat constructor; cbn; intuition discriminate. Qed.

Lemma all_targets_In X : In X all_targets.
Proof. destruct X; cbn; tauto. Qed.

(** The merger never raises: every target ends as its own merge leaves it,
    every other table is untouched, and the log tells which merges failed. *)
Lemma merge_to_dim_fact_spec E w :
  exists w',
    merge_to_dim_fact E w = (Ok tt, w') /\
    committed w' = session w' /\
    (forall X, session w' !! target_name X = merged_table E X (session w)) /\
    (forall x, (forall X, x <> target_name X) -> session w' !! x = session w !! x) /\
    out w' = out w ++ [MergeStart; StagingHeader] ++ table_infos (session w)
               ++ [BlankLine]
               ++ map (merge_event_of E (session w)) all_targets ++ [MergeComplete].
Proof.
  eexists. split; [apply merge_to_dim_fact_steps|].
  destruct (steps_spec E (session w) all_targets (session w) all_targets_NoDup)
    as (H1 & H2 & H3); [intros X _ x _; reflexivity|].
  cbn [committed session out]. split; [reflexivity|]. split; [|split].
  - intros X. apply H1, all_targets_In.
  - intros x Hx. apply H2. intros X _. apply Hx.
  - now rewrite H3.
Qed.

Lemma merge_event_logged E w w' X :
  out w' = out w ++ [MergeStart; StagingHeader] ++ table_infos (session w)
             ++ [BlankLine]
             ++ map (merge_event_of E (session w)) all_targets ++ [MergeComplete] ->
  In (merge_event_of E (session w) X) (out w').
Proof.
  intros ->. apply in_or_app. right. apply in_or_app. right.
  apply in_or_app. right. apply in_or_app. right. apply in_or_app. left.
  apply in_map, all_targets_In.
Qed.

(** A failed merge is caught where it fails: its error is printed under the
    name of its table, its target stays as it was, and every other target
    is merged as it is on its own. *)
Lemma merge_failure_isolated E w X e :
  merge_of E X (session w) = Raise e ->
  exists w',
    merge_to_dim_fact E w = (Ok tt, w') /\
    In (MergeError (target_name X) e) (out w') /\
    committed w' !! target_name X = session w !! target_name X /\
    (forall Y, Y <> X ->
       committed w' !! target_name Y = merged_table E Y (session w) /\
       In (merge_event_of E (session w) Y) (out w')) /\
    (forall Y tb, merge_of E Y (session w) = Ok tb ->
       committed w' !! target_name Y = Some tb /\ In (Merged (target_name Y)) (out w')).
Proof.
  intros HX. destruct (merge_to_dim_fact_spec E w) as (w' & Hrun & Hc & Ht & _ & Hout).
  exists w'. split; [exact Hrun|]. rewrite Hc. split; [|split; [|split]].
  - pose proof (merge_event_logged E w w' X Hout) as Hin.
    unfold merge_event_of, step_event in Hin. now rewrite HX in Hin.
  - rewrite Ht. unfold merged_table. now rewrite HX.
  - intros Y _. split; [apply Ht | now apply merge_event_logged].
  - intros Y tb HY. split.
    + rewrite Ht. unfold merged_table. now rewrite HY.
    + pose proof (merge_event_logged E w w' Y Hout) as Hin.
      unfold merge_event_of, step_event in Hin. now rewrite HY in Hin.
Qed.

(** C2: when the merge of one target fails with error [e], the merger
    still returns normally; it has printed the error with the name of that
    table and left that target as it was; every other target (for a failed
    DimAircraft: DimRoute, DimFlight, DimPayment, DimSatisfaction and
    FactBooking) ends as its own merge leaves it, and a merge that succeeds
    on its own has replaced its target and printed its success. *)
Theorem C2_merge_failure_isolated (E : engine) (w : world) (X : target) (e : exn) :
  merge_of E X (session w) = Raise e ->
  exists w',
    merge_to_dim_fact E w = (Ok tt, w') /\
    In (MergeError (target_name X) e) (out w') /\
    committed w' !! target_name X = session w !! target_name X /\
    (forall Y, Y <> X ->
       committed w' !! target_name Y = merged_table E Y (session w) /\
       In (merge_event_of E (session w) Y) (out w')) /\
    (forall Y tb, merge_of E Y (session w) = Ok tb ->
       committed w' !! target_name Y = Some tb /\ In (Merged (target_name Y)) (out w')).
Proof. apply merge_failure_isolated. Qed.

Lemma C2_merge_failure_isolated_witness :
  exists w',
    merge_to_dim_fact permissive staged_no_year = (Ok tt, w') /\
    In (MergeError "DimAircraft" (InvalidColumn "ManufactureYear")) (out w') /\
    committed w' !! "DimRoute"
      = Some {| tcols := ["RouteID"; "Origin"; "Destination"; "Distance"];
                trows := [[("RouteID", VInt 3); ("Origin", VStr "Lhr");
                           ("Destination", VStr "Jfk"); ("Distance", VInt 5540)]] |} /\
    In (Merged "FactBooking") (out w').
Proof.
  destruct (C2_merge_failure_isolated permissive staged_no_year DimAircraft
              (InvalidColumn "ManufactureYear"))
    as (w' & H1 & H2 & _ & _ & H5); [vm_compute; reflexivity|].
  exists w'. split; [exact H1|]. split; [exact H2|]. split.
  - edestruct (H5 DimRoute) as [Hr _]; [vm_compute; reflexivity|]. exact Hr.
  - edestruct (H5 FactBooking) as [_ Hr]; [vm_compute; reflexivity|]. exact Hr.
Defined.

(** ** One MERGE statement *)

Lemma insert_unmatched_ok E tname kt ks ins tgt0 src : forall acc res,
  insert_unmatched E tname kt ks ins tgt0 acc src = Ok res ->
  res = acc ++ map ins (List.filter (unmatched kt ks tgt0) src).
Proof.
  induction src as [|s src IH]; intros acc res H; cbn [insert_unmatched] in H.
  - injection H as <-. cbn. now rewrite app_nil_r.
  - cbn [List.filter]. unfold unmatched at 1.
    destruct (existsb _ tgt0); cbn [negb].
    + now apply IH.
    + destruct (accepts E tname acc (ins s)); [|discriminate].
      apply IH in H. rewrite H, <- app_assoc. reflexivity.
Qed.


Lemma keys_of_app k l1 l2 : keys_of k (l1 ++ l2) = keys_of k l1 ++ keys_of k l2.
Proof. unfold keys_of. apply map_app. Qed.


Lemma update_matched_keys E tname kt ks upd src tgt : forall pre res,
  (forall t s, get (upd t s) kt = get t kt) ->
  update_matched E tname kt ks upd src pre tgt = Ok res ->
  keys_of kt res = keys_of kt (pre ++ tgt).
Proof.
  induction tgt as [|t tgt IH]; intros pre res Hk H; cbn [update_matched] in H.
  - injection H as <-. now rewrite app_nil_r.
  - destruct (List.filter (matched kt ks t) src) as [|s [|s' ms]]; try discriminate.
    + apply IH in H; [|assumption]. rewrite H, <- app_assoc. reflexivity.
    + destruct (accepts E tname (pre ++ tgt) (upd t s)); [|discriminate].
      apply IH in H; [|assumption]. rewrite H, <- app_assoc.
      rewrite !keys_of_app. cbn [keys_of map]. now rewrite Hk.
Qed.

(** What a MERGE that succeeds has read and written. *)
Lemma sql_merge_ok E tname tneed kt ks src sneed upd ins d tb :
  sql_merge E tname tneed kt ks src sneed upd ins d = Ok tb ->
  exists tgt s t1,
    d !! tname = Some tgt /\ src d = Ok s /\
    need_cols (tcols tgt) tneed = Ok tt /\ need_cols (tcols s) sneed = Ok tt /\
    match upd with
    | None => t1 = trows tgt
    | Some u => update_matched E tname kt ks u (trows s) [] (trows tgt) = Ok t1
    end /\
    tb = {| tcols := tcols tgt;
            trows := t1 ++ map ins (List.filter (unmatched kt ks (trows tgt)) (trows s)) |}.
Proof.
  unfold sql_merge, need_table. intros H.
  destruct (d !! tname) as [tgt|] eqn:Ht; cbn [obind] in H; [|discriminate].
  destruct (src d) as [s|] eqn:Hs; cbn [obind] in H; [|discriminate].
  destruct (need_cols (tcols tgt) tneed) as [[]|] eqn:Hn1; cbn [obind] in H; [|discriminate].
  destruct (need_cols (tcols s) sneed) as [[]|] eqn:Hn2; cbn [obind] in H; [|discriminate].
  destruct upd as [u|].
  - destruct (update_matched E tname kt ks u (trows s) [] (trows tgt)) as [t1|] eqn:Hu;
      cbn [obind] in H; [|discriminate].
    destruct (insert_unmatched _ _ _ _ _ _ _ _) as [t2|] eqn:Hi; cbn [obind] in H;
      [|discriminate].
    injection H as <-. apply insert_unmatched_ok in Hi. subst t2.
    exists tgt, s, t1. repeat split; try assumption; reflexivity.
  - cbn [obind] in H.
    destruct (insert_unmatched _ _ _ _ _ _ _ _) as [t2|] eqn:Hi; cbn [obind] in H;
      [|discriminate].
    injection H as <-. apply insert_unmatched_ok in Hi. subst t2.
    exists tgt, s, (trows tgt). repeat split; try assumption; reflexivity.
Qed.

(** ** The fact merge *)

Lemma col_or_same a cols : col_or a a cols = a.
Proof. unfold col_or. now destruct (inb a cols). Qed.

Lemma booking_select_columns bid cid fid date b f :
  map (fun c => (c, get (booking_select bid cid fid date b f) c)) booking_columns
  = booking_select bid cid fid date b f.
Proof. reflexivity. Qed.

Lemma merge_FactBooking_ok E cols d tb :
  merge_FactBooking E cols d = Ok tb ->
  exists bid tgt sb sf,
    col_or_first "BookingID" cols = Ok bid /\
    d !! "FactBooking" = Some tgt /\ d !! "Stg_Bookings" = Some sb /\
    d !! "Stg_Flights" = Some sf /\
    tcols tb = tcols tgt /\
    trows tb = trows tgt ++
               List.filter (unmatched "BookingID" "BookingID" (trows tgt))
                 (booking_rows bid (col_or "Date" "BookingDate" cols) (trows sb) (trows sf)).
Proof.
  unfold merge_FactBooking. intros H.
  destruct (col_or_first "BookingID" cols) as [bid|] eqn:Hbid; cbn [obind] in H;
    [|discriminate].
  rewrite !col_or_same in H.
  apply sql_merge_ok in H as (tgt & s & t1 & Ht & Hs & _ & _ & -> & ->).
  unfold booking_source, need_table in Hs.
  destruct (d !! "Stg_Bookings") as [sb|] eqn:Hsb; cbn [obind] in Hs; [|discriminate].
  destruct (d !! "Stg_Flights") as [sf|] eqn:Hsf; cbn [obind] in Hs; [|discriminate].
  destruct (need_cols (tcols sb) _); cbn [obind] in Hs; [|discriminate].
  destruct (need_cols (tcols sf) _); cbn [obind] in Hs; [|discriminate].
  injection Hs as <-. exists bid, tgt, sb, sf. cbn [tcols trows].
  repeat split; try reflexivity; try assumption. f_equal.
  fold (booking_rows bid (col_or "Date" "BookingDate" cols) (trows sb) (trows sf)).
  match goal with |- map _ ?l = _ => set (src := l) end.
  assert (forall s, In s src -> map (fun c => (c, get s c)) booking_columns = s) as Hid.
  { intros s Hin. apply filter_In in Hin as [Hin _].
    unfold booking_rows in Hin. apply in_flat_map in Hin as (br & _ & Hin).
    apply in_map_iff in Hin as (f & <- & _). apply booking_select_columns. }
  rewrite (map_ext_in _ (fun s => s) src Hid). apply map_id.
Qed.

Lemma filter_none {A} (f : A -> bool) l :
  (forall x, In x l -> f x = false) -> List.filter f l = [].
Proof.
  induction l as [|x l IH]; intros H; [reflexivity|].
  cbn [List.filter]. rewrite (H x) by now left. apply IH. intros y Hy. apply H. now right.
Qed.

(** C7 (as amended): a staged booking whose flight identifier is joined
    to no staged flight is a row of the source of the fact merge all the
    same.  When the merge succeeds, the fact table keeps its rows and
    appends the rows inserted; if no fact row carries the booking's
    identifier yet, the booking is among the rows inserted, with RouteID and
    AircraftID NULL; if a fact row carries it already, no row is inserted
    for the booking and the fact row stays as it is. *)
Theorem C7_unmatched_booking_kept (E : engine) (d : db) (tb sb sf tgt : table)
    (b : row) (bid : string) :
  merge_of E FactBooking d = Ok tb ->
  d !! "Stg_Bookings" = Some sb ->
  d !! "Stg_Flights" = Some sf ->
  d !! "FactBooking" = Some tgt ->
  col_or_first "BookingID" (tcols sb) = Ok bid ->
  In b (trows sb) ->
  (forall f, In f (trows sf) -> sql_eq (get b "FlightID") (get f "FlightID") = false) ->
  exists inserted,
    trows tb = trows tgt ++ inserted /\
    ((forall t, In t (trows tgt) -> sql_eq (get t "BookingID") (get b bid) = false) ->
     In [("BookingID", get b bid);
         ("CustomerID", get b "CustomerID");
         ("FlightID", get b "FlightID");
         ("RouteID", VNull);
         ("AircraftID", VNull);
         ("PaymentID", get b bid);
         ("SatisfactionKey", get b "CustomerID");
         ("BookingDate", get b (col_or "Date" "BookingDate" (tcols sb)))]
        inserted) /\
    (forall t, In t (trows tgt) -> sql_eq (get t "BookingID") (get b bid) = true ->
     forall r, In r inserted -> get r "BookingID" <> get b bid).
Proof.
  intros Hm Hsb Hsf Htgt Hbid Hb Hnoflight.
  unfold merge_of in Hm. cbn [merge_with] in Hm.
  rewrite (stg_cols_lookup _ _ _ Hsb) in Hm.
  apply merge_FactBooking_ok in Hm
    as (bid' & tgt' & sb' & sf' & Hbid' & Htgt' & Hsb' & Hsf' & _ & Hrows).
  rewrite Hbid in Hbid'. injection Hbid' as <-.
  rewrite Htgt in Htgt'. injection Htgt' as <-.
  rewrite Hsb in Hsb'. injection Hsb' as <-.
  rewrite Hsf in Hsf'. injection Hsf' as <-.
  eexists. split; [exact Hrows|]. split.
  - intros Hnew. apply filter_In. split.
    + unfold booking_rows. apply in_flat_map. exists b. split; [exact Hb|].
      unfold left_join. rewrite (filter_none _ _ Hnoflight). now left.
    + unfold unmatched. apply negb_true_iff.
      apply not_true_is_false. intros Hex. apply existsb_exists in Hex as (t & Ht & Hmt).
      unfold matched in Hmt. cbn [get String.eqb Ascii.eqb Bool.eqb] in Hmt.
      rewrite (Hnew t Ht) in Hmt. discriminate.
  - intros t Ht Hold r Hr Heq. apply filter_In in Hr as [_ Hun].
    unfold unmatched in Hun. apply negb_true_iff in Hun.
    assert (existsb (fun t => matched "BookingID" "BookingID" t r) (trows tgt) = true) as Hex.
    { apply existsb_exists. exists t. split; [exact Ht|]. unfold matched. now rewrite Heq. }
    congruence.
Qed.

Lemma C7_unmatched_booking_kept_witness :
  exists tb,
    merge_of permissive FactBooking staged_sample = Ok tb /\
    In [("BookingID", VInt 11); ("CustomerID", VInt 2); ("FlightID", VInt 999);
        ("RouteID", VNull); ("AircraftID", VNull); ("PaymentID", VInt 11);
        ("SatisfactionKey", VInt 2); ("BookingDate", VStr "2024-01-02")]
       (trows tb).
Proof.
  eexists. split; [vm_compute; reflexivity|].
  match goal with
  | |- In _ (trows ?tb) =>
      destruct (C7_unmatched_booking_kept permissive staged_sample tb staged_bookings
                  staged_flights (empty_table booking_columns) booking_11 "BookingID")
        as (inserted & Hrows & Hnew & _); try (vm_compute; reflexivity)
  end.
  - vm_compute. tauto.
  - intros f Hf. vm_compute in Hf. destruct Hf as [<- | []]. reflexivity.
  - rewrite Hrows. apply in_or_app. right. apply Hnew. intros t [].
Defined.

(** C7, the claim as written, fails: booking 11 is staged, its flight 999
    is joined to no staged flight, and the fact table holds the booking
    already, on route 3 and aircraft 7; the merge succeeds, inserts booking
    10 only, and leaves the fact row of booking 11 with its RouteID and
    AircraftID, not NULL. *)
Lemma C7_counterexample :
  staged_booked !! "Stg_Bookings" = Some staged_bookings /\
  staged_booked !! "Stg_Flights" = Some staged_flights /\
  In booking_11 (trows staged_bookings) /\
  forallb (fun f => negb (sql_eq (get booking_11 "FlightID") (get f "FlightID")))
          (trows staged_flights) = true /\
  merge_of permissive FactBooking staged_booked
  = Ok {| tcols := booking_columns;
          trows := [fact_11;
                    [("BookingID", VInt 10); ("CustomerID", VInt 1); ("FlightID", VInt 100);
                     ("RouteID", VInt 3); ("AircraftID", VInt 7); ("PaymentID", VInt 10);
                     ("SatisfactionKey", VInt 1); ("BookingDate", VStr "2024-01-01")]] |} /\
  get fact_11 "RouteID" = VInt 3 /\ get fact_11 "AircraftID" = VInt 7.
Proof.
  do 2 (split; [vm_compute; reflexivity|]).
  split; [vm_compute; tauto|].
  do 3 (split; [vm_compute; reflexivity|]). reflexivity.
Qed.

(** C10: every row the fact merge inserts comes from a staged booking and
    carries that booking's BookingID as its PaymentID and that booking's
    CustomerID as its SatisfactionKey; and the merge is the same whatever
    the payment and satisfaction staging tables hold. *)
Theorem C10_fact_keys_from_booking (E : engine) (d : db) (tb tgt sb : table) :
  merge_of E FactBooking d = Ok tb ->
  d !! "FactBooking" = Some tgt ->
  d !! "Stg_Bookings" = Some sb ->
  (exists bid inserted,
     col_or_first "BookingID" (tcols sb) = Ok bid /\
     trows tb = trows tgt ++ inserted /\
     forall r, In r inserted ->
       exists b, In b (trows sb) /\
                 get r "BookingID" = get b bid /\
                 get r "PaymentID" = get b bid /\
                 get r "CustomerID" = get b "CustomerID" /\
                 get r "SatisfactionKey" = get b "CustomerID") /\
  (forall tp ts,
     merge_of E FactBooking (<["Stg_Payments" := tp]> (<["Stg_CustomerSatisfaction" := ts]> d))
     = Ok tb).
Proof.
  intros Hm Htgt Hsb. split.
  - unfold merge_of in Hm. cbn [merge_with] in Hm.
    rewrite (stg_cols_lookup _ _ _ Hsb) in Hm.
    apply merge_FactBooking_ok in Hm
      as (bid & tgt' & sb' & sf & Hbid & Htgt' & Hsb' & Hsf & _ & Hrows).
    rewrite Htgt in Htgt'. injection Htgt' as <-.
    rewrite Hsb in Hsb'. injection Hsb' as <-.
    eexists bid, _. split; [exact Hbid|]. split; [exact Hrows|].
    intros r Hr. apply filter_In in Hr as [Hr _].
    unfold booking_rows in Hr. apply in_flat_map in Hr as (b & Hb & Hr).
    apply in_map_iff in Hr as (f & <- & _).
    exists b. split; [exact Hb|]. repeat split.
  - intros tp ts. rewrite <- Hm. unfold merge_of.
    set (d' := <["Stg_Payments" := tp]> (<["Stg_CustomerSatisfaction" := ts]> d)).
    assert (agree_on (reads FactBooking) d' d) as Hag.
    { intros x Hx. unfold d'. cbn in Hx.
      rewrite !lookup_insert_ne; [reflexivity| |]; intros <-; intuition discriminate. }
    cbn [merge_with]. unfold stg_cols. rewrite (Hag "Stg_Bookings") by (cbn; tauto).
    apply (merge_with_agree E FactBooking d d' d Hag).
Qed.

Lemma C10_fact_keys_from_booking_witness :
  exists tb,
    merge_of permissive FactBooking staged_sample = Ok tb /\
    merge_of permissive FactBooking
      (<["Stg_Payments" := empty_table []]>
         (<["Stg_CustomerSatisfaction" := empty_table []]> staged_sample)) = Ok tb.
Proof.
  eexists. split; [vm_compute; reflexivity|].
  refine (proj2 (C10_fact_keys_from_booking permissive staged_sample _
                   (empty_table booking_columns) staged_bookings _ _ _) _ _);
    vm_compute; reflexivity.
Defined.

(** ** Plans *)

Lemma merge_with_plan E X d0 d :
  merge_with E X d0 d = (let! p := plan_of E X d0 in run_plan E X p d).
Proof.
  destruct X; cbn [merge_with plan_of]; unfold run_plan;
    unfold merge_DimCustomer, merge_DimAircraft, merge_DimRoute, merge_DimFlight,
      merge_DimPayment, merge_DimSatisfaction, merge_FactBooking;
    try (match goal with |- context [col_or_first ?a ?c] => destruct (col_or_first a c) end);
    cbn [obind]; rewrite ?col_or_same; reflexivity.
Qed.



Lemma get_set_col_ne r c v k : c <> k -> get (set_col r c v) k = get r k.
Proof.
  intros Hne. induction r as [|[k' x] r IH]; cbn [set_col get].
  - destruct (String.eqb c k) eqn:H; [apply String.eqb_eq in H; contradiction | reflexivity].
  - destruct (String.eqb k' c) eqn:Hc; cbn [get].
    + apply String.eqb_eq in Hc. subst k'.
      destruct (String.eqb c k) eqn:H; [apply String.eqb_eq in H; contradiction | reflexivity].
    + now rewrite IH.
Qed.

Lemma plan_ins_key E X d0 p s :
  plan_of E X d0 = Ok p -> get (p_ins p s) (key_col X) = get s (p_ks p).
Proof.
  intros Hp. destruct X; cbn [plan_of] in Hp;
    try (match type of Hp with context [col_or_first ?a ?c] => destruct (col_or_first a c) end;
         cbn [obind] in Hp; [|discriminate]);
    injection Hp as <-; reflexivity.
Qed.


Lemma plan_insert_only E X d0 p :
  X <> DimCustomer -> plan_of E X d0 = Ok p -> p_upd p = None.
Proof.
  intros HX Hp. destruct X; try congruence; cbn [plan_of] in Hp;
    try (match type of Hp with context [col_or_first ?a ?c] => destruct (col_or_first a c) end;
         cbn [obind] in Hp; [|discriminate]);
    injection Hp as <-; reflexivity.
Qed.



(** ** The names of a statement *)
















(** ** Empty batches *)

Lemma target_name_cases x :
  (exists X, x = target_name X) \/ (forall X, x <> target_name X).
Proof.
  destruct (in_dec string_dec x (map target_name all_targets)) as [Hin | Hnot].
  - left. apply in_map_iff in Hin as (X & <- & _). now exists X.
  - right. intros X ->. apply Hnot, in_map, all_targets_In.
Qed.




(** ** Unresolved columns *)





(** ** Business keys over two runs *)

Lemma existsb_false_iff {A} (f : A -> bool) l :
  existsb f l = false <-> forall x, In x l -> f x = false.
Proof.
  induction l as [|a l IH]; cbn [existsb]; [now split|].
  rewrite orb_false_iff, IH. split.
  - intros [Ha Hl] x [<- | Hx]; auto.
  - intros H. split; [apply H; now left | intros x Hx; apply H; now right].
Qed.


Lemma distinct_keys_filter {A} (g : A -> value) (f : A -> bool) l :
  distinct_keys (map g l) = true -> distinct_keys (map g (List.filter f l)) = true.
Proof.
  induction l as [|a l IH]; [reflexivity|].
  cbn [map distinct_keys List.filter]. rewrite andb_true_iff, negb_true_iff.
  intros [Ha Hl]. destruct (f a); [|now apply IH].
  cbn [map distinct_keys]. rewrite andb_true_iff, negb_true_iff. split; [|now apply IH].
  rewrite existsb_false_iff in *. intros x Hx. apply Ha.
  apply in_map_iff in Hx as (y & <- & Hy). apply filter_In in Hy as [Hy _].
  now apply in_map.
Qed.










Lemma staging_in_sources X : In (staging_name X) (sources X).
Proof. destruct X; cbn; tauto. Qed.






Lemma insert_all_cols E t rs : forall tb tb' o,
  insert_all E t tb rs = (tb', o) -> tcols tb' = tcols tb.
Proof.
  induction rs as [|r rs IH]; intros tb tb' o H; cbn [insert_all] in H.
  - now injection H as <- _.
  - destruct (insert_row E t tb r) as [tb1|e] eqn:Hr.
    + apply IH in H. rewrite H. unfold insert_row in Hr. destruct r; [discriminate|].
      destruct (need_cols _ _); cbn [obind] in Hr; [|discriminate].
      destruct (accepts _ _ _ _); [|discriminate]. now injection Hr as <-.
    + now injection H as <- _.
Qed.

Lemma load_outcome E df t w :
  fst (load_to_staging E df t w) =
    match session w !! t with
    | Some tb => match snd (loaded E df t (tcols tb)) with
                 | None => Ok tt
                 | Some (e, _) => Raise e
                 end
    | None => Raise (InvalidObject t)
    end.
Proof.
  destruct (session w !! t) as [tb|] eqn:Hw.
  - rewrite (load_to_staging_spec E df t w tb Hw). cbv zeta. unfold loaded, cleared.
    destruct (insert_all E t _ _) as [tb2 [[e r']|]]; reflexivity.
  - now rewrite (load_to_staging_missing E df t w Hw).
Qed.

Lemma load_session E df t w :
  session (snd (load_to_staging E df t w)) =
    match session w !! t with
    | Some tb => <[t := fst (loaded E df t (tcols tb))]> (session w)
    | None => session w
    end.
Proof.
  destruct (session w !! t) as [tb|] eqn:Hw.
  - rewrite (load_to_staging_spec E df t w tb Hw). cbv zeta. unfold loaded, cleared.
    destruct (insert_all E t _ _) as [tb2 [[e r']|]]; reflexivity.
  - now rewrite (load_to_staging_missing E df t w Hw).
Qed.

Lemma load_committed E df t w :
  committed (snd (load_to_staging E df t w)) =
    match session w !! t with
    | Some tb => match snd (loaded E df t (tcols tb)) with
                 | None => <[t := fst (loaded E df t (tcols tb))]> (session w)
                 | Some _ => <[t := cleared tb]> (session w)
                 end
    | None => committed w
    end.
Proof.
  destruct (session w !! t) as [tb|] eqn:Hw.
  - rewrite (load_to_staging_spec E df t w tb Hw). cbv zeta. unfold loaded, cleared.
    destruct (insert_all E t _ _) as [tb2 [[e r']|]]; reflexivity.
  - now rewrite (load_to_staging_missing E df t w Hw).
Qed.

Lemma loaded_cols E df t cols : tcols (fst (loaded E df t cols)) = cols.
Proof.
  unfold loaded. destruct (insert_all E t _ _) as [tb o] eqn:H.
  now apply insert_all_cols in H.
Qed.

Lemma load_same E df t w v :
  same_cols (session w) (session v) t ->
  fst (load_to_staging E df t w) = fst (load_to_staging E df t v) /\
  session (snd (load_to_staging E df t w)) !! t
  = session (snd (load_to_staging E df t v)) !! t.
Proof.
  unfold same_cols. intros H. rewrite !load_outcome, !load_session.
  destruct (session w !! t) as [tb|] eqn:Hw, (session v !! t) as [tb'|] eqn:Hv;
    cbn in H; try discriminate.
  - injection H as H. rewrite H, !lookup_insert_eq. now split.
  - now rewrite Hw, Hv.
Qed.

Lemma load_cols E df t w x :
  same_cols (session (snd (load_to_staging E df t w))) (session w) x.
Proof.
  unfold same_cols. rewrite load_session.
  destruct (session w !! t) as [tb|] eqn:Hw; [|reflexivity].
  destruct (decide (t = x)) as [<- | Hne].
  - rewrite lookup_insert_eq, Hw. cbn. now rewrite loaded_cols.
  - now rewrite lookup_insert_ne.
Qed.

Lemma load_committed_cols E df t w x :
  clean w -> same_cols (committed (snd (load_to_staging E df t w))) (session w) x.
Proof.
  intros Hc. unfold same_cols. rewrite load_committed.
  destruct (session w !! t) as [tb|] eqn:Hw; [|now rewrite Hc].
  destruct (decide (t = x)) as [<- | Hne].
  - destruct (snd (loaded E df t (tcols tb))); rewrite lookup_insert_eq, Hw; cbn;
      [reflexivity | now rewrite loaded_cols].
  - destruct (snd (loaded E df t (tcols tb))); now rewrite lookup_insert_ne.
Qed.

Lemma run_loads_cols E l : forall w x,
  clean w ->
  same_cols (session (snd (run_loads E l w))) (session w) x /\
  same_cols (committed (snd (run_loads E l w))) (session w) x.
Proof.
  induction l as [|[df t] l IH]; intros w x Hc.
  - cbn. unfold same_cols. now rewrite Hc.
  - cbn [run_loads]. unfold bind.
    pose proof (load_cols E df t w x) as H1.
    pose proof (load_committed_cols E df t w x Hc) as H2.
    destruct (load_to_staging E df t w) as [[[]|e] w1] eqn:Hl; cbn [snd] in *.
    + assert (clean w1) as Hc1 by (eapply load_to_staging_clean; eassumption).
      destruct (IH w1 x Hc1) as [I1 I2]. unfold same_cols in *. split; congruence.
    + now split.
Qed.

Lemma run_loads_same E l : forall w v,
  clean w -> clean v ->
  (forall t, In t (map snd l) -> same_cols (session w) (session v) t) ->
  fst (run_loads E l w) = fst (run_loads E l v) /\
  (fst (run_loads E l w) = Ok tt ->
   forall t, In t (map snd l) ->
     session (snd (run_loads E l w)) !! t = session (snd (run_loads E l v)) !! t).
Proof.
  induction l as [|[df t] l IH]; intros w v Hcw Hcv Hs.
  - cbn. split; [reflexivity | intros _ t []].
  - cbn [run_loads]. unfold bind.
    destruct (load_same E df t w v) as [Ho Ht]; [apply Hs; now left|].
    pose proof (load_to_staging_frame E df t w) as Fw.
    pose proof (load_to_staging_frame E df t v) as Fv.
    destruct (load_to_staging E df t w) as [[[]|e] w1] eqn:Hlw;
      destruct (load_to_staging E df t v) as [[[]|e'] v1] eqn:Hlv;
      cbn [fst snd] in *; try discriminate.
    + assert (clean w1) as Hc1 by (eapply load_to_staging_clean; eassumption).
      assert (clean v1) as Hc2 by (eapply load_to_staging_clean; eassumption).
      assert (forall t', In t' (map snd l) -> same_cols (session w1) (session v1) t') as Hs1.
      { intros t' Ht'. unfold same_cols. destruct (decide (t' = t)) as [-> | Hne].
        - now rewrite Ht.
        - destruct (Fw t' Hcw Hne) as [-> _]. destruct (Fv t' Hcv Hne) as [-> _].
          apply Hs. now right. }
      destruct (IH w1 v1 Hc1 Hc2 Hs1) as [I1 I2]. split; [exact I1|].
      intros Hok t' [<- | Ht'].
      * destruct (in_dec string_dec t (map snd l)) as [Hin | Hnot]; [now apply I2|].
        destruct (run_loads E l w1) as [o3 w3] eqn:R1.
        destruct (run_loads E l v1) as [o4 v3] eqn:R2. cbn [fst snd] in *.
        destruct (run_loads_frame E l w1 o3 w3 Hc1 R1) as (F1 & _).
        destruct (run_loads_frame E l v1 o4 v3 Hc2 R2) as (F2 & _).
        destruct (F1 t Hnot) as [-> _]. destruct (F2 t Hnot) as [-> _]. exact Ht.
      * now apply I2.
    + split; [exact Ho | discriminate].
Qed.

Lemma bind_raise {A B} (m : M A) (k : A -> M B) w e w' :
  m w = (Raise e, w') -> bind m k w = (Raise e, w').
Proof. intros H. unfold bind. now rewrite H. Qed.

Lemma load_plan_names B t : In t (map snd (load_plan B)) -> In t staging_tables.
Proof.
  unfold load_plan. rewrite map_app, in_app_iff. intros [H | H].
  - cbn in H. cbn. tauto.
  - destruct (negb (df_empty (df_api B))); cbn in H; cbn; tauto.
Qed.

Lemma sources_loaded B X t : In t (sources X) -> In t (map snd (load_plan B)).
Proof.
  intros H. unfold load_plan. rewrite map_app, in_app_iff. left.
  destruct X; cbn in H; cbn; intuition (subst; tauto).
Qed.

Lemma target_not_staging X : ~ In (target_name X) staging_tables.
Proof. destruct X; cbn; intuition discriminate. Qed.

Lemma target_not_loaded B X : ~ In (target_name X) (map snd (load_plan B)).
Proof. intros H. apply load_plan_names in H. now apply target_not_staging in H. Qed.

Lemma stage_all_loads E B w :
  fst (stage_all E B w) = fst (run_loads E (load_plan B) w) /\
  session (snd (stage_all E B w)) = session (snd (run_loads E (load_plan B) w)) /\
  committed (snd (stage_all E B w)) = committed (snd (run_loads E (load_plan B) w)).
Proof.
  rewrite stage_all_plan. unfold bind.
  destruct (run_loads E (load_plan B) w) as [[[]|e] w1]; [|now repeat split].
  destruct (df_empty (df_api B)); now repeat split.
Qed.

Lemma merged_table_cols E X d :
  tcols <$> merged_table E X d = tcols <$> (d !! target_name X).
Proof.
  unfold merged_table, merge_of. rewrite merge_with_plan.
  destruct (plan_of E X d) as [p|]; cbn [obind]; [|reflexivity].
  destruct (run_plan E X p d) as [tb|] eqn:Hr; [|reflexivity].
  apply sql_merge_ok in Hr as (tgt & s & t1 & Ht & _ & _ & _ & _ & ->).
  now rewrite Ht.
Qed.

(** The store one run leaves: when the staging loads succeed, every target
    is as its merge on the staged store leaves it; when a load fails, the
    store is what was committed at that point. *)
Lemma after_run_spec E B d :
  match stage_all E B (connect d) with
  | (Ok _, wS) =>
      (forall X, after_run E B d !! target_name X = merged_table E X (session wS)) /\
      (forall x, (forall X, x <> target_name X) -> after_run E B d !! x = session wS !! x)
  | (Raise _, wS) => after_run E B d = committed wS
  end.
Proof.
  unfold after_run, run, main.
  destruct (stage_all E B (connect d)) as [[[]|e] wS] eqn:Hst.
  - rewrite (bind_eq _ _ _ _ _ Hst).
    destruct (merge_to_dim_fact_spec E wS) as (w3 & Hrun & Hc & Ht & Hf & _).
    rewrite (bind_eq _ _ _ _ _ Hrun). unfold bind, close, print. cbn [snd committed].
    rewrite Hc. now split.
  - now rewrite (bind_raise _ _ _ _ _ Hst).
Qed.

Lemma after_run_cols E B d x : same_cols (after_run E B d) d x.
Proof.
  pose proof (after_run_spec E B d) as H.
  destruct (stage_all_loads E B (connect d)) as (_ & Hs & Hc).
  destruct (run_loads_cols E (load_plan B) (connect d) x eq_refl) as [C1 C2].
  rewrite <- Hs in C1. rewrite <- Hc in C2. cbn [connect session] in C1, C2.
  destruct (stage_all E B (connect d)) as [[[]|e] wS]; cbn [snd] in *.
  - destruct H as [Ht Hf]. unfold same_cols in *.
    destruct (target_name_cases x) as [[X ->] | Hx].
    + now rewrite Ht, merged_table_cols.
    + now rewrite Hf.
  - now rewrite H.
Qed.

(** The staged store of a run: the targets are those of the store the run
    started from. *)
Lemma staged_target E B d X : staged E B d !! target_name X = d !! target_name X.
Proof.
  unfold staged. destruct (stage_all_loads E B (connect d)) as (_ & -> & _).
  destruct (run_loads E (load_plan B) (connect d)) as [o w'] eqn:Hr.
  edestruct (run_loads_frame E (load_plan B) (connect d)) as (Hf & _);
    [reflexivity | exact Hr |]. cbn [snd].
  destruct (Hf _ (target_not_loaded B X)) as [-> _]. reflexivity.
Qed.

Lemma committed_target E B d X :
  committed (snd (stage_all E B (connect d))) !! target_name X = d !! target_name X.
Proof.
  destruct (stage_all_loads E B (connect d)) as (_ & _ & ->).
  destruct (run_loads E (load_plan B) (connect d)) as [o w'] eqn:Hr.
  edestruct (run_loads_frame E (load_plan B) (connect d)) as (Hf & _);
    [reflexivity | exact Hr |]. cbn [snd].
  destruct (Hf _ (target_not_loaded B X)) as [_ ->]. reflexivity.
Qed.






(** ** The staging loads: refresh, frame and abort *)

(** X1: a load is a full refresh.  Loading the same frame into the same
    table once more succeeds and leaves the open transaction and the
    committed store exactly as the first load left them: the rows of the
    table are replaced, never added to. *)
Theorem load_twice (E : engine) (df : DataFrame) (t : string) (w w1 : world) :
  load_to_staging E df t w = (Ok tt, w1) ->
  exists w2,
    load_to_staging E df t w1 = (Ok tt, w2) /\
    session w2 = session w1 /\ committed w2 = committed w1.
Proof.
  intros H.
  destruct (session w !! t) as [tb|] eqn:Htb;
    [|rewrite (load_to_staging_missing E df t w Htb) in H; discriminate].
  rewrite (load_to_staging_spec E df t w tb Htb) in H. cbv zeta in H.
  destruct (insert_all E t (cleared tb) (iterrows (staged_frame (tcols tb) df)))
    as [tb' [[e r]|]] eqn:Hins; [discriminate|].
  injection H as <-.
  assert (tcols tb' = tcols tb) as Hc by apply (insert_all_cols _ _ _ _ _ _ Hins).
  eexists. split.
  - rewrite (load_to_staging_spec E df t _ tb') by (cbn [session]; apply lookup_insert_eq).
    cbv zeta. unfold cleared in *. rewrite Hc, Hins. reflexivity.
  - cbn [session committed]. now rewrite insert_insert_eq.
Qed.

Lemma load_twice_witness :
  exists w2,
    load_to_staging permissive (df_cust sample) "Stg_Customers"
      (snd (load_to_staging permissive (df_cust sample) "Stg_Customers" (connect schema)))
    = (Ok tt, w2) /\
    session w2
    = session (snd (load_to_staging permissive (df_cust sample) "Stg_Customers"
                      (connect schema))).
Proof.
  destruct (load_twice permissive (df_cust sample) "Stg_Customers" (connect schema)
              (snd (load_to_staging permissive (df_cust sample) "Stg_Customers"
                      (connect schema))))
    as (w2 & H1 & H2 & _); [vm_compute; reflexivity|].
  exists w2. split; [exact H1 | exact H2].
Defined.

(** X2: on a connection with nothing pending, a load changes the rows of
    no table but its own, in the open transaction and in the committed
    store, and the column list of no table at all. *)
Theorem load_touches_only_its_table (E : engine) (df : DataFrame) (t : string) (w : world)
    (x : string) :
  clean w ->
  (x <> t ->
   session (snd (load_to_staging E df t w)) !! x = session w !! x /\
   committed (snd (load_to_staging E df t w)) !! x = session w !! x) /\
  tcols <$> (session (snd (load_to_staging E df t w)) !! x) = tcols <$> (session w !! x) /\
  tcols <$> (committed (snd (load_to_staging E df t w)) !! x) = tcols <$> (session w !! x).
Proof.
  intros Hcl. split; [|split].
  - intros Hx. now apply load_to_staging_frame.
  - apply load_cols.
  - now apply load_committed_cols.
Qed.

Lemma load_touches_only_its_table_witness :
  session (snd (load_to_staging permissive (df_cust sample) "Stg_Customers"
                  (connect schema))) !! "Stg_Bookings"
  = schema !! "Stg_Bookings".
Proof.
  refine (proj1 (proj1 (load_touches_only_its_table permissive (df_cust sample)
                          "Stg_Customers" (connect schema) "Stg_Bookings" _) _));
    [reflexivity | discriminate].
Defined.

Lemma run_loads_missing E l : forall w t,
  clean w -> In t (map snd l) -> session w !! t = None ->
  exists e w', run_loads E l w = (Raise e, w').
Proof.
  induction l as [|[df t0] l IH]; intros w t Hcl Hin Hnone; [destruct Hin|].
  cbn [run_loads].
  destruct (load_to_staging E df t0 w) as [[[]|e] w1] eqn:Hl.
  - rewrite (bind_eq _ _ _ _ _ Hl).
    destruct (String.eqb_spec t0 t) as [-> | Hne].
    + rewrite (load_to_staging_missing E df t w Hnone) in Hl. discriminate.
    + destruct Hin as [Heq | Hin]; [cbn in Heq; congruence|].
      apply (IH w1 t); [now apply (load_to_staging_clean E df t0 w) | exact Hin |].
      destruct (load_to_staging_frame E df t0 w t Hcl) as [Hs _]; [congruence|].
      rewrite Hl in Hs. cbn [snd] in Hs. now rewrite Hs.
  - rewrite (bind_raise _ _ _ _ _ Hl). now eexists _, _.
Qed.

(** X3: when one of the seven staging tables [main] always loads is
    missing from the store, the run ends in an exception during the staging
    loads and the merger never starts: nothing the merger or the end of
    [main] prints is on the console. *)
Theorem missing_staging_table_aborts (E : engine) (B : batches) (d : db) (X : target) :
  d !! staging_name X = None ->
  exists e w',
    run E B d = (Raise e, w') /\
    forallb (fun ev => negb (merge_event ev)) (out w') = true.
Proof.
  intros Hnone.
  destruct (run_loads_missing E (load_plan B) (connect d) (staging_name X) eq_refl)
    as (e & w' & Hr); [apply (sources_loaded B X), staging_in_sources | exact Hnone |].
  assert (stage_all E B (connect d) = (Raise e, w')) as Hst
    by (rewrite stage_all_plan; now apply bind_raise).
  exists e, w'. unfold run, main.
  rewrite (bind_raise _ _ _ _ _ Hst). split; [reflexivity|].
  edestruct (run_loads_frame E (load_plan B) (connect d)) as (_ & _ & evs & Hout & Hev);
    [reflexivity | exact Hr |].
  rewrite Hout. exact Hev.
Qed.

Lemma missing_staging_table_aborts_witness :
  exists e w',
    run permissive sample (delete "Stg_Routes" schema) = (Raise e, w') /\
    forallb (fun ev => negb (merge_event ev)) (out w') = true.
Proof.
  apply (missing_staging_table_aborts permissive sample (delete "Stg_Routes" schema) DimRoute).
  vm_compute. reflexivity.
Defined.

Lemma load_plan_NoDup B : List.NoDup (map snd (load_plan B)).
Proof.
  unfold load_plan. destruct (negb (df_empty (df_api B))); cbn;
    repeat constructor; cbn; intros H;
    repeat (destruct H as [H | H]; [discriminate|]); exact H.
Qed.

Lemma run_loads_staged E l : forall w w',
  clean w -> List.NoDup (map snd l) ->
  run_loads E l w = (Ok tt, w') ->
  forall df t, In (df, t) l ->
    exists tb0,
      session w !! t = Some tb0 /\
      session w' !! t = Some {| tcols := tcols tb0;
                                trows := iterrows (staged_frame (tcols tb0) df) |}.
Proof.
  induction l as [|[df0 t0] l IH]; intros w w' Hcl Hnd Hrun df t Hin; [destruct Hin|].
  cbn [map snd] in Hnd. inversion Hnd as [|? ? Hnot Hnd']; subst.
  cbn [run_loads] in Hrun.
  destruct (load_to_staging E df0 t0 w) as [[[]|e] w1] eqn:Hl;
    [rewrite (bind_eq _ _ _ _ _ Hl) in Hrun
    |rewrite (bind_raise _ _ _ _ _ Hl) in Hrun; discriminate].
  pose proof (load_to_staging_clean E df0 t0 w w1 Hl) as Hcl1.
  destruct (session w !! t0) as [tb|] eqn:Htb;
    [|rewrite (load_to_staging_missing E df0 t0 w Htb) in Hl; discriminate].
  rewrite (load_to_staging_spec E df0 t0 w tb Htb) in Hl. cbv zeta in Hl.
  destruct (insert_all E t0 (cleared tb) (iterrows (staged_frame (tcols tb) df0)))
    as [tb' [[e r]|]] eqn:Hins; [discriminate|].
  apply insert_all_ok in Hins. cbn [cleared tcols trows app] in Hins. subst tb'.
  injection Hl as <-.
  destruct Hin as [[= -> ->] | Hin].
  - exists tb. split; [exact Htb|].
    edestruct (run_loads_frame E l) as (Hf & _); [exact Hcl1 | exact Hrun |].
    destruct (Hf t Hnot) as [-> _]. cbn [session]. apply lookup_insert_eq.
  - destruct (IH _ _ Hcl1 Hnd' Hrun df t Hin) as (tb1 & H1 & H2).
    exists tb1. split; [|exact H2]. cbn [session] in H1.
    rewrite lookup_insert_ne in H1; [exact H1|].
    intros ->. apply Hnot. apply in_map_iff. now exists (df, t).
Qed.

Lemma stage_all_ok E B w wS :
  stage_all E B w = (Ok tt, wS) ->
  exists w1, run_loads E (load_plan B) w = (Ok tt, w1) /\
             session wS = session w1 /\ committed wS = committed w1 /\
             (df_empty (df_api B) = true -> out wS = out w1 ++ [SkipApi]).
Proof.
  rewrite stage_all_plan. intros H.
  destruct (run_loads E (load_plan B) w) as [[[]|e] w1] eqn:Hr;
    [rewrite (bind_eq _ _ _ _ _ Hr) in H | rewrite (bind_raise _ _ _ _ _ Hr) in H; discriminate].
  exists w1. split; [reflexivity|].
  destruct (df_empty (df_api B)); cbn in H; injection H as <-; cbn; repeat split; discriminate.
Qed.

(** X4: when the staging loads of [main] all succeed, nothing is pending
    on the connection and every staging table [main] loaded holds the
    columns it had and exactly the records of its frame, in the frame's
    order, each restricted to those columns (whole when the catalog lists
    no column for the table). *)
Theorem staging_holds_the_projected_frames (E : engine) (B : batches) (d : db) (wS : world) :
  stage_all E B (connect d) = (Ok tt, wS) ->
  committed wS = session wS /\
  forall df t, In (df, t) (load_plan B) ->
    exists tb0,
      d !! t = Some tb0 /\
      session wS !! t = Some {| tcols := tcols tb0;
                                trows := iterrows (staged_frame (tcols tb0) df) |}.
Proof.
  intros H. apply stage_all_ok in H as (w1 & Hr & Hs & Hc & _). rewrite Hs, Hc.
  split.
  - edestruct (run_loads_frame E (load_plan B) (connect d)) as (_ & Hcl & _);
      [reflexivity | exact Hr |]. now apply Hcl.
  - intros df t Hin.
    apply (run_loads_staged E (load_plan B) (connect d) w1 eq_refl (load_plan_NoDup B) Hr df t Hin).
Qed.

Lemma staging_holds_the_projected_frames_witness :
  exists tb0,
    schema !! "Stg_Customers" = Some tb0 /\
    staged_sample !! "Stg_Customers"
    = Some {| tcols := tcols tb0;
              trows := iterrows (staged_frame (tcols tb0) (df_cust sample)) |}.
Proof.
  refine (proj2 (staging_holds_the_projected_frames permissive sample schema
                   (snd (stage_all permissive sample (connect schema))) _)
            (df_cust sample) "Stg_Customers" _);
    [vm_compute; reflexivity | left; reflexivity].
Defined.

(** X5: what a run stages does not depend on the rows the store held.
    On two stores whose tables have the same columns, the staging loads of
    the same frames end the same way and, when they succeed, leave the same
    contents in every staging table they load. *)
Theorem staging_is_full_refresh (E : engine) (B : batches) (d d' : db) :
  (forall t, same_cols d d' t) ->
  fst (stage_all E B (connect d)) = fst (stage_all E B (connect d')) /\
  (fst (stage_all E B (connect d)) = Ok tt ->
   forall t, In t (map snd (load_plan B)) -> staged E B d' !! t = staged E B d !! t).
Proof.
  intros Hs.
  destruct (stage_all_loads E B (connect d)) as (F1 & S1 & _).
  destruct (stage_all_loads E B (connect d')) as (F2 & S2 & _).
  destruct (run_loads_same E (load_plan B) (connect d) (connect d') eq_refl eq_refl)
    as [Ho Ht]; [intros t _; apply Hs|].
  split; [congruence|].
  intros Hok t Hin. unfold staged. rewrite S1, S2. symmetry.
  apply Ht; [congruence | exact Hin].
Qed.

Lemma staging_is_full_refresh_witness :
  staged permissive sample staged_known !! "Stg_Customers"
  = staged permissive sample staged_sample !! "Stg_Customers".
Proof.
  refine (proj2 (staging_is_full_refresh permissive sample staged_sample staged_known _) _
            "Stg_Customers" _).
  - intros t. unfold same_cols, staged_known.
    destruct (String.eqb_spec t "DimCustomer") as [-> | Hne].
    + rewrite lookup_insert_eq. vm_compute. reflexivity.
    + now rewrite lookup_insert_ne.
  - vm_compute. reflexivity.
  - left. reflexivity.
Defined.

(** ** One run: outcome and schema *)

(** X6: a run fails exactly when its staging loads fail, with their
    exception: the merger, [conn.close()] and the last print never raise.
    A run that fails leaves the seven warehouse tables as they were. *)
Theorem run_fails_only_in_staging (E : engine) (B : batches) (d : db) :
  fst (run E B d) = fst (stage_all E B (connect d)) /\
  (forall e, fst (run E B d) = Raise e ->
     forall X, after_run E B d !! target_name X = d !! target_name X).
Proof.
  pose proof (after_run_spec E B d) as Hspec.
  pose proof (committed_target E B d) as Hct.
  unfold run, main in *.
  destruct (stage_all E B (connect d)) as [[[]|e] wS] eqn:Hst.
  - rewrite (bind_eq _ _ _ _ _ Hst).
    destruct (merge_to_dim_fact_spec E wS) as (w3 & Hrun & _).
    rewrite (bind_eq _ _ _ _ _ Hrun). unfold bind, close, print. cbn [fst].
    split; [reflexivity | discriminate].
  - rewrite (bind_raise _ _ _ _ _ Hst). cbn [fst snd] in *. split; [reflexivity|].
    intros _ _ X. rewrite Hspec. apply Hct.
Qed.

(** X7: a run creates no table, drops none and changes no column list:
    every name has after the run the table columns it had before, whether
    the run completes or fails. *)
Theorem run_preserves_schema (E : engine) (B : batches) (d : db) (x : string) :
  tcols <$> (after_run E B d !! x) = tcols <$> (d !! x).
Proof. apply after_run_cols. Qed.

(** ** The merges: what is kept, updated and inserted *)

(** X8: the merger never raises.  It ends with everything committed,
    leaves every table other than the seven targets exactly as the open
    transaction held it when it started, and changes the column list of no
    table. *)
Theorem merger_changes_targets_only (E : engine) (w : world) :
  exists w',
    merge_to_dim_fact E w = (Ok tt, w') /\
    committed w' = session w' /\
    (forall x, (forall X, x <> target_name X) -> committed w' !! x = session w !! x) /\
    (forall x, tcols <$> (committed w' !! x) = tcols <$> (session w !! x)).
Proof.
  destruct (merge_to_dim_fact_spec E w) as (w' & Hrun & Hc & Ht & Hf & _).
  exists w'. split; [exact Hrun|]. split; [exact Hc|]. rewrite Hc. split; [exact Hf|].
  intros x. destruct (target_name_cases x) as [[X ->] | Hx].
  - rewrite Ht. apply merged_table_cols.
  - now rewrite Hf.
Qed.

(** X9: the seven merges do not depend on one another.  What the merger
    leaves in each target is what the merge of that target alone would
    leave on the store the merger started from, and the merger prints, in
    this order: its start message, the title of the column listing, the
    seven column listings, a blank line, one line for each target in the
    order of the code (merged, or the error of that target's own merge),
    and its completion message. *)
Theorem merges_are_independent (E : engine) (w : world) :
  exists w',
    merge_to_dim_fact E w = (Ok tt, w') /\
    (forall X, committed w' !! target_name X = merged_table E X (session w)) /\
    out w' = out w ++ [MergeStart; StagingHeader] ++ table_infos (session w)
               ++ [BlankLine]
               ++ map (merge_event_of E (session w)) all_targets ++ [MergeComplete].
Proof.
  destruct (merge_to_dim_fact_spec E w) as (w' & Hrun & Hc & Ht & _ & Hout).
  exists w'. split; [exact Hrun|]. split; [|exact Hout]. intros X. rewrite Hc. apply Ht.
Qed.

(** X10: a successful merge of an insert-only target (every target but
    DimCustomer) keeps the rows the target held, unchanged and in order,
    keeps its columns, and appends rows whose business key is equal, in
    the sense of SQL, to the key of no row the target held. *)
Theorem insert_only_merge_appends (E : engine) (X : target) (d : db) (tb tgt : table) :
  X <> DimCustomer ->
  merge_of E X d = Ok tb ->
  d !! target_name X = Some tgt ->
  exists inserted,
    trows tb = trows tgt ++ inserted /\
    tcols tb = tcols tgt /\
    forall r t, In r inserted -> In t (trows tgt) ->
      sql_eq (get t (key_col X)) (get r (key_col X)) = false.
Proof.
  intros HX Hm Ht. unfold merge_of in Hm. rewrite merge_with_plan in Hm.
  destruct (plan_of E X d) as [p|] eqn:Hp; cbn [obind] in Hm; [|discriminate].
  unfold run_plan in Hm. rewrite (plan_insert_only E X d p HX Hp) in Hm.
  apply sql_merge_ok in Hm as (tgt' & s & t1 & Ht' & Hs & _ & _ & -> & ->).
  rewrite Ht in Ht'. injection Ht' as <-.
  eexists. split; [reflexivity|]. split; [reflexivity|].
  intros r t Hr Hin. apply in_map_iff in Hr as (s0 & <- & Hs0).
  apply filter_In in Hs0 as [_ Hun]. rewrite (plan_ins_key E X d p s0 Hp).
  unfold unmatched in Hun. apply negb_true_iff in Hun.
  rewrite existsb_false_iff in Hun. now apply Hun.
Qed.

Lemma insert_only_merge_appends_witness :
  exists inserted,
    trows {| tcols := ["RouteID"; "Origin"; "Destination"; "Distance"];
             trows := [[("RouteID", VInt 3); ("Origin", VStr "Lhr");
                        ("Destination", VStr "Jfk"); ("Distance", VInt 5540)]] |}
    = trows (empty_table ["RouteID"; "Origin"; "Destination"; "Distance"]) ++ inserted.
Proof.
  destruct (insert_only_merge_appends permissive DimRoute staged_sample
              {| tcols := ["RouteID"; "Origin"; "Destination"; "Distance"];
                 trows := [[("RouteID", VInt 3); ("Origin", VStr "Lhr");
                            ("Destination", VStr "Jfk"); ("Distance", VInt 5540)]] |}
              (empty_table ["RouteID"; "Origin"; "Destination"; "Distance"]))
    as (inserted & H & _); [discriminate | vm_compute; reflexivity | vm_compute; reflexivity |].
  now exists inserted.
Defined.

Lemma get_set_col_eq r c v : get (set_col r c v) c = v.
Proof.
  induction r as [|[k x] r IH]; cbn [set_col get].
  - now rewrite String.eqb_refl.
  - destruct (String.eqb k c) eqn:Hk; cbn [get]; rewrite Hk; [reflexivity | exact IH].
Qed.

Lemma update_matched_rows E tname kt ks upd src tgt : forall pre res,
  update_matched E tname kt ks upd src pre tgt = Ok res ->
  exists tgt',
    res = pre ++ tgt' /\
    Forall2 (fun t t' =>
               match List.filter (matched kt ks t) src with
               | [] => t' = t
               | [s] => t' = upd t s
               | _ :: _ :: _ => False
               end) tgt tgt'.
Proof.
  induction tgt as [|t tgt IH]; intros pre res H; cbn [update_matched] in H.
  - injection H as <-. exists []. split; [now rewrite app_nil_r | constructor].
  - destruct (List.filter (matched kt ks t) src) as [|s [|s' l]] eqn:Hf.
    + apply IH in H as (tgt' & -> & HF). exists (t :: tgt'). rewrite <- app_assoc.
      split; [reflexivity|]. constructor; [now rewrite Hf | exact HF].
    + destruct (accepts E tname (pre ++ tgt) (upd t s)); [|discriminate].
      apply IH in H as (tgt' & -> & HF). exists (upd t s :: tgt'). rewrite <- app_assoc.
      split; [reflexivity|]. constructor; [now rewrite Hf | exact HF].
    + discriminate.
Qed.

Lemma Forall2_In_l {A B} (R : A -> B -> Prop) l l' x :
  Forall2 R l l' -> In x l -> exists y, In y l' /\ R x y.
Proof.
  induction 1 as [|a b l l' Hab _ IH]; intros Hin; [destruct Hin|].
  destruct Hin as [<- | Hin].
  - exists b. split; [now left | exact Hab].
  - destruct (IH Hin) as (y & Hy & HR). exists y. split; [now right | exact HR].
Qed.

(** X11: the customer merge is an upsert.  When it succeeds, the customers
    the dimension held are all kept, with their keys and in order, ahead
    of the inserted rows; a row joined to no staged customer is kept as it
    is; and every staged customer with a CustomerID has afterwards a row
    with that CustomerID and the staged Name. *)
Theorem customer_merge_upserts (E : engine) (d : db) (tb tgt stg : table) :
  merge_of E DimCustomer d = Ok tb ->
  d !! "DimCustomer" = Some tgt ->
  d !! "Stg_Customers" = Some stg ->
  (exists kept inserted,
     trows tb = kept ++ inserted /\
     keys_of "CustomerID" kept = keys_of "CustomerID" (trows tgt)) /\
  (forall t, In t (trows tgt) ->
     (forall s, In s (trows stg) ->
        sql_eq (get t "CustomerID") (get s "CustomerID") = false) ->
     In t (trows tb)) /\
  (forall s, In s (trows stg) -> is_null (get s "CustomerID") = false ->
     exists t, In t (trows tb) /\
               sql_eq (get t "CustomerID") (get s "CustomerID") = true /\
               get t "Name" = get s "Name").
Proof.
  intros Hm Ht Hs. unfold merge_of in Hm. cbn [merge_with] in Hm.
  unfold merge_DimCustomer in Hm.
  apply sql_merge_ok in Hm as (tgt' & s' & t1 & Ht' & Hs' & _ & _ & Hu & ->).
  rewrite Ht in Ht'. injection Ht' as <-.
  unfold staging, need_table in Hs'. rewrite Hs in Hs'. injection Hs' as <-.
  cbn [trows].
  pose proof (update_matched_keys _ _ _ _ _ _ _ _ _
                (fun t s => get_set_col_ne t "Name" (get s "Name") "CustomerID"
                              ltac:(discriminate)) Hu) as Hk.
  apply update_matched_rows in Hu as (tgt' & -> & HF). cbn [app] in *.
  split; [|split].
  - eexists _, _. split; [reflexivity | exact Hk].
  - intros t Hin Hno. apply in_or_app. left.
    destruct (Forall2_In_l _ _ _ _ HF Hin) as (t' & Hin' & HR).
    rewrite (filter_none (matched "CustomerID" "CustomerID" t) (trows stg)) in HR
      by (intros s Hs0; now apply Hno).
    now subst t'.
  - intros s Hin Hnn.
    destruct (existsb (fun t => matched "CustomerID" "CustomerID" t s) (trows tgt)) eqn:Hex.
    + apply existsb_exists in Hex as (t & Hint & Hmt).
      destruct (Forall2_In_l _ _ _ _ HF Hint) as (t' & Hin' & HR).
      assert (In s (List.filter (matched "CustomerID" "CustomerID" t) (trows stg))) as Hsf
        by (apply filter_In; now split).
      destruct (List.filter (matched "CustomerID" "CustomerID" t) (trows stg))
        as [|s0 [|s1 l]]; [destruct Hsf | | destruct HR].
      destruct Hsf as [-> | []]. subst t'.
      exists (set_col t "Name" (get s "Name")). split; [apply in_or_app; now left|].
      split; [|apply get_set_col_eq].
      rewrite get_set_col_ne by discriminate. exact Hmt.
    + exists [("CustomerID", get s "CustomerID"); ("Name", get s "Name")].
      split; [|split; [cbn; now apply sql_eq_refl | reflexivity]].
      apply in_or_app. right.
      apply (in_map (fun s => [("CustomerID", get s "CustomerID"); ("Name", get s "Name")])).
      apply filter_In. split; [exact Hin|]. unfold unmatched. now rewrite Hex.
Qed.

Lemma customer_merge_upserts_witness :
  exists tb,
    merge_of permissive DimCustomer staged_known = Ok tb /\
    exists t,
      In t (trows tb) /\
      sql_eq (get t "CustomerID") (VInt 1) = true /\
      get t "Name" = VStr "Ann".
Proof.
  eexists. split; [vm_compute; reflexivity|].
  edestruct (customer_merge_upserts permissive staged_known) as (_ & _ & H);
    [vm_compute; reflexivity | vm_compute; reflexivity | vm_compute; reflexivity |].
  apply (H [("CustomerID", VInt 1); ("Name", VStr "Ann")]); [left|]; reflexivity.
Defined.

(** X12: a staged booking joined to a staged flight is a row of the fact
    merge with that flight's RouteID and, as AircraftID, that flight's
    PlaneID, for every flight it is joined to, when the merge succeeds and
    no fact row carries its booking identifier yet. *)
Theorem matched_booking_takes_flight_keys (E : engine) (d : db) (tb sb sf tgt : table)
    (b f : row) (bid : string) :
  merge_of E FactBooking d = Ok tb ->
  d !! "Stg_Bookings" = Some sb ->
  d !! "Stg_Flights" = Some sf ->
  d !! "FactBooking" = Some tgt ->
  col_or_first "BookingID" (tcols sb) = Ok bid ->
  In b (trows sb) ->
  In f (trows sf) ->
  sql_eq (get b "FlightID") (get f "FlightID") = true ->
  (forall t, In t (trows tgt) -> sql_eq (get t "BookingID") (get b bid) = false) ->
  In [("BookingID", get b bid);
      ("CustomerID", get b "CustomerID");
      ("FlightID", get b "FlightID");
      ("RouteID", get f "RouteID");
      ("AircraftID", get f "PlaneID");
      ("PaymentID", get b bid);
      ("SatisfactionKey", get b "CustomerID");
      ("BookingDate", get b (col_or "Date" "BookingDate" (tcols sb)))]
     (trows tb).
Proof.
  intros Hm Hsb Hsf Htgt Hbid Hb Hf Hjoin Hnew.
  unfold merge_of in Hm. cbn [merge_with] in Hm.
  rewrite (stg_cols_lookup _ _ _ Hsb) in Hm.
  apply merge_FactBooking_ok in Hm
    as (bid' & tgt' & sb' & sf' & Hbid' & Htgt' & Hsb' & Hsf' & _ & Hrows).
  rewrite Hbid in Hbid'. injection Hbid' as <-.
  rewrite Htgt in Htgt'. injection Htgt' as <-.
  rewrite Hsb in Hsb'. injection Hsb' as <-.
  rewrite Hsf in Hsf'. injection Hsf' as <-.
  rewrite Hrows. apply in_or_app. right. apply filter_In. split.
  - unfold booking_rows. apply in_flat_map. exists b. split; [exact Hb|].
    apply (in_map (booking_select bid "CustomerID" "FlightID"
                     (col_or "Date" "BookingDate" (tcols sb)) b)).
    unfold left_join.
    assert (In f (List.filter (fun f => sql_eq (get b "FlightID") (get f "FlightID"))
                    (trows sf))) as Hin by (apply filter_In; now split).
    destruct (List.filter _ (trows sf)); [destruct Hin | exact Hin].
  - unfold unmatched. apply negb_true_iff.
    apply not_true_is_false. intros Hex. apply existsb_exists in Hex as (t & Ht & Hmt).
    unfold matched in Hmt. cbn [get String.eqb Ascii.eqb Bool.eqb] in Hmt.
    rewrite (Hnew t Ht) in Hmt. discriminate.
Qed.

Lemma matched_booking_takes_flight_keys_witness :
  exists tb,
    merge_of permissive FactBooking staged_sample = Ok tb /\
    In [("BookingID", VInt 10); ("CustomerID", VInt 1); ("FlightID", VInt 100);
        ("RouteID", VInt 3); ("AircraftID", VInt 7); ("PaymentID", VInt 10);
        ("SatisfactionKey", VInt 1); ("BookingDate", VStr "2024-01-01")]
       (trows tb).
Proof.
  eexists. split; [vm_compute; reflexivity|].
  refine (matched_booking_takes_flight_keys permissive staged_sample _ staged_bookings
            staged_flights _ booking_10 flight_100 "BookingID" _ _ _ _ _ _ _ _ _);
    try (vm_compute; reflexivity).
  - vm_compute. tauto.
  - vm_compute. tauto.
  - intros t Ht. vm_compute in Ht. destruct Ht.
Defined.

(** The rows a successful satisfaction merge inserts, each from a staged
    survey row. *)
Lemma merge_DimSatisfaction_rows E d tb tgt stg :
  merge_of E DimSatisfaction d = Ok tb ->
  d !! "DimSatisfaction" = Some tgt ->
  d !! "Stg_CustomerSatisfaction" = Some stg ->
  exists inserted,
    trows tb = trows tgt ++ inserted /\
    forall r, In r inserted ->
      exists s, In s (trows stg) /\
                get r "CustomerID" = get s "CustomerID" /\
                AverageRating E s = Ok (get r "AverageRating").
Proof.
  intros Hm Ht Hs. unfold merge_of in Hm. cbn [merge_with] in Hm.
  unfold merge_DimSatisfaction in Hm.
  destruct (col_or_first "CustomerID" _); cbn [obind] in Hm; [|discriminate].
  apply sql_merge_ok in Hm as (tgt' & s' & t1 & Ht' & Hs' & _ & _ & -> & ->).
  rewrite Ht in Ht'. injection Ht' as <-.
  unfold satisfaction_source, need_table in Hs'. rewrite Hs in Hs'. cbn [obind] in Hs'.
  destruct (need_cols (tcols stg) _); cbn [obind] in Hs'; [|discriminate].
  destruct (map_outcome _ (trows stg)) as [rows|] eqn:Hrows; cbn [obind] in Hs';
    [|discriminate].
  injection Hs' as <-. cbn [trows].
  eexists. split; [reflexivity|].
  intros r Hr. apply in_map_iff in Hr as (s0 & <- & Hs0).
  apply filter_In in Hs0 as [Hs0 _].
  destruct (map_outcome_In_inv _ _ _ _ Hrows Hs0) as (s & Hin & Hf).
  destruct (AverageRating E s) as [avg|] eqn:Havg; cbn [obind] in Hf; [|discriminate].
  injection Hf as <-. exists s. cbn. repeat split; assumption.
Qed.

(** X13: every row a successful satisfaction merge inserts comes from a
    staged survey row, with its CustomerID and, as AverageRating, the SQL
    value of the sum of its fourteen ratings cast to FLOAT over 14.0, which
    is NULL as soon as one of the fourteen is NULL. *)
Theorem satisfaction_average_is_sql_sum (E : engine) (d : db) (tb tgt stg : table) :
  merge_of E DimSatisfaction d = Ok tb ->
  d !! "DimSatisfaction" = Some tgt ->
  d !! "Stg_CustomerSatisfaction" = Some stg ->
  exists inserted,
    trows tb = trows tgt ++ inserted /\
    forall r, In r inserted ->
      exists s, In s (trows stg) /\
                get r "CustomerID" = get s "CustomerID" /\
                AverageRating E s = Ok (get r "AverageRating") /\
                ((exists c, In c survey_columns /\ get s c = VNull) ->
                 get r "AverageRating" = VNull).
Proof.
  intros Hm Ht Hs.
  destruct (merge_DimSatisfaction_rows E d tb tgt stg Hm Ht Hs) as (inserted & Hrows & Hin).
  exists inserted. split; [exact Hrows|]. intros r Hr.
  destruct (Hin r Hr) as (s & Hs1 & Hs2 & Hs3). exists s. repeat split; try assumption.
  intros (c & Hc & Hnull).
  destruct (AverageRating_null E s c Hc Hnull) as [H | [e H]]; congruence.
Qed.

Lemma satisfaction_average_is_sql_sum_witness :
  exists tb,
    merge_of permissive DimSatisfaction (staged_survey ratings) = Ok tb /\
    exists inserted,
      trows tb = [] ++ inserted /\
      forall r, In r inserted ->
        exists s, In s [survey_row ratings] /\
                  AverageRating permissive s = Ok (get r "AverageRating").
Proof.
  eexists. split; [vm_compute; reflexivity|].
  edestruct (satisfaction_average_is_sql_sum permissive (staged_survey ratings))
    as (inserted & H1 & H2);
    [vm_compute; reflexivity | vm_compute; reflexivity | vm_compute; reflexivity |].
  exists inserted. split; [exact H1|].
  intros r Hr. destruct (H2 r Hr) as (s & Hs & _ & Ha & _). exists s. split; [exact Hs | exact Ha].
Defined.

Lemma map_outcome_raise {A B} (f : A -> outcome B) l a e :
  In a l -> f a = Raise e -> exists e', map_outcome f l = Raise e'.
Proof.
  induction l as [|x l IH]; intros Hin Hf; [destruct Hin|]. cbn [map_outcome].
  destruct Hin as [-> | Hin].
  - rewrite Hf. now exists e.
  - destruct (f x); cbn [obind]; [|now eexists].
    destruct (IH Hin Hf) as (e' & ->). now exists e'.
Qed.

(** X14: one staged survey row with a rating text the store cannot cast
    to FLOAT fails the whole satisfaction merge: the statement raises, no
    survey row is merged and DimSatisfaction keeps its contents. *)
Theorem text_rating_fails_satisfaction_merge (E : engine) (d : db) (stg : table) (r : row)
    (c txt : string) :
  d !! "Stg_CustomerSatisfaction" = Some stg ->
  In r (trows stg) ->
  In c survey_columns ->
  get r c = VStr txt ->
  float_of_text E txt = None ->
  (exists e, merge_of E DimSatisfaction d = Raise e) /\
  merged_table E DimSatisfaction d = d !! "DimSatisfaction".
Proof.
  intros Hs Hr Hc Hget Hf.
  assert (exists e, merge_of E DimSatisfaction d = Raise e) as (e & He).
  { unfold merge_of. cbn [merge_with]. unfold merge_DimSatisfaction.
    destruct (col_or_first "CustomerID" _); cbn [obind]; [|now eexists].
    unfold sql_merge. destruct (need_table d "DimSatisfaction"); cbn [obind]; [|now eexists].
    unfold satisfaction_source, need_table. rewrite Hs. cbn [obind].
    destruct (need_cols (tcols stg) _); cbn [obind]; [|now eexists].
    assert (exists e, AverageRating E r = Raise e) as (e & He).
    { unfold AverageRating.
      destruct (map_outcome_raise (cast_float E) (map (get r) survey_columns)
                  (VStr txt) (ConversionError (VStr txt))) as (e & ->);
        [rewrite <- Hget; now apply in_map | cbn; now rewrite Hf | now eexists]. }
    match goal with
    | |- context [map_outcome ?f (trows stg)] =>
        destruct (map_outcome_raise f (trows stg) r e Hr) as (e' & ->);
          [now rewrite He | now eexists]
    end. }
  split; [now exists e|]. unfold merged_table. now rewrite He.
Qed.

Lemma text_rating_fails_satisfaction_merge_witness :
  merged_table permissive DimSatisfaction (staged_survey (VStr "n/a" :: tl ratings))
  = staged_survey (VStr "n/a" :: tl ratings) !! "DimSatisfaction".
Proof.
  refine (proj2 (text_rating_fails_satisfaction_merge permissive
                   (staged_survey (VStr "n/a" :: tl ratings))
                   {| tcols := stg_satisfaction_columns;
                      trows := [survey_row (VStr "n/a" :: tl ratings)] |}
                   (survey_row (VStr "n/a" :: tl ratings))
                   "InflightWifiService" "n/a" _ _ _ _ _));
    try (vm_compute; reflexivity).
  - left. reflexivity.
  - left. reflexivity.
Defined.

(** X15: every row the flight merge inserts has as FlightNumber the text
    [CAST(FlightID AS NVARCHAR(50))] of its own FlightID. *)
Theorem flight_number_is_flight_id (E : engine) (d : db) (tb tgt : table) :
  merge_of E DimFlight d = Ok tb ->
  d !! "DimFlight" = Some tgt ->
  exists inserted,
    trows tb = trows tgt ++ inserted /\
    forall r, In r inserted ->
      get r "FlightNumber" = cast_nvarchar50 E (get r "FlightID").
Proof.
  intros Hm Ht. unfold merge_of in Hm. cbn [merge_with] in Hm.
  unfold merge_DimFlight in Hm.
  destruct (col_or_first "FlightID" _); cbn [obind] in Hm; [|discriminate].
  apply sql_merge_ok in Hm as (tgt' & s' & t1 & Ht' & _ & _ & _ & -> & ->).
  rewrite Ht in Ht'. injection Ht' as <-. cbn [trows].
  eexists. split; [reflexivity|].
  intros r Hr. apply in_map_iff in Hr as (s0 & <- & _). reflexivity.
Qed.

Lemma flight_number_is_flight_id_witness :
  exists tb,
    merge_of permissive DimFlight staged_sample = Ok tb /\
    exists inserted,
      trows tb = [] ++ inserted /\
      forall r, In r inserted ->
        get r "FlightNumber" = cast_nvarchar50 permissive (get r "FlightID").
Proof.
  eexists. split; [vm_compute; reflexivity|].
  apply (flight_number_is_flight_id permissive staged_sample _
           (empty_table ["FlightID"; "FlightNumber"; "DepartureTime"; "ArrivalTime"]));
    vm_compute; reflexivity.
Defined.

(** ** The transforms: frames and columns *)

Lemma bindT_ok {A B} (m : T A) (k : A -> T B) b :
  snd (bindT m k) = Ok b -> exists a, snd m = Ok a /\ snd (k a) = Ok b.
Proof.
  destruct m as [ns [a|e]]; cbn [bindT snd]; [|discriminate].
  destruct (k a) as [ns' r] eqn:Hk. cbn [snd]. intros ->. exists a. now rewrite Hk.
Qed.

Lemma set_cell_length cols c v vs : length (set_cell cols c v vs) = length vs.
Proof.
  revert vs. induction cols as [|k cols IH]; intros [|x vs]; cbn [set_cell]; try reflexivity.
  destruct (String.eqb k c); cbn [length]; [reflexivity | now rewrite IH].
Qed.

Lemma get_set_cell_ne cols c v vs c' :
  c' <> c -> get (combine cols (set_cell cols c v vs)) c' = get (combine cols vs) c'.
Proof.
  intros Hne. revert vs.
  induction cols as [|k cols IH]; intros [|x vs]; cbn [set_cell combine get]; try reflexivity.
  destruct (String.eqb_spec k c) as [-> | Hk]; cbn [combine get].
  - destruct (String.eqb_spec c c'); [congruence | reflexivity].
  - destruct (String.eqb k c'); [reflexivity | apply IH].
Qed.

Lemma get_set_cell_eq cols c v vs :
  inb c cols = true -> length vs = length cols ->
  get (combine cols (set_cell cols c v vs)) c = v.
Proof.
  revert vs. induction cols as [|k cols IH]; intros [|x vs] Hin Hlen;
    cbn [inb existsb] in Hin; try discriminate.
  cbn [set_cell]. destruct (String.eqb_spec k c) as [-> | Hk]; cbn [combine get].
  - now rewrite String.eqb_refl.
  - destruct (String.eqb_spec k c); [congruence|].
    apply IH; [|now injection Hlen].
    destruct (String.eqb_spec c k); [congruence | exact Hin].
Qed.

Lemma column_data c df :
  column c df = map (fun vs => get (combine (columns df) vs) c) (data df).
Proof. unfold column, iterrows. now rewrite map_map. Qed.

Lemma column_length c df : length (column c df) = length (data df).
Proof. rewrite column_data. apply length_map. Qed.

Lemma assign_columns c s df :
  inb c (columns df) = true -> columns (assign c s df) = columns df.
Proof. intros H. unfold assign. now rewrite H. Qed.

Lemma map_align_ne cols c c' (s : list value) rows :
  c' <> c ->
  map (fun vs => get (combine cols vs) c')
      (map (fun p => set_cell cols c (snd p) (fst p)) (align rows s VNull))
  = map (fun vs => get (combine cols vs) c') rows.
Proof.
  intros Hne. revert s. induction rows as [|vs rows IH]; intros s; [reflexivity|].
  destruct s as [|x s]; cbn [align map fst snd]; rewrite get_set_cell_ne by exact Hne;
    now rewrite IH.
Qed.

Lemma column_assign_ne c s df c' :
  inb c (columns df) = true -> length s = length (data df) -> c' <> c ->
  column c' (assign c s df) = column c' df.
Proof.
  intros Hin Hlen Hne. rewrite !column_data. unfold assign. rewrite Hin. cbn [columns data].
  assert (match data df, s with
          | [], _ :: _ => map (fun _ => map (fun _ => VNull) (columns df)) s
          | rows, _ => rows
          end = data df) as ->
    by (destruct (data df), s; try reflexivity; discriminate).
  now apply map_align_ne.
Qed.

Lemma keep_first_incl key rows : forall seen r,
  In r (keep_first key seen rows) -> In r rows.
Proof.
  induction rows as [|vs rows IH]; intros seen r H; [destruct H|]. cbn [keep_first] in H.
  destruct (existsb _ seen); [right; now apply (IH seen)|].
  destruct H as [<- | H]; [now left | right; now apply (IH _ _ H)].
Qed.

Lemma keep_first_distinct key rows : forall seen,
  distinct_keys (map key (keep_first key seen rows)) = true /\
  forall k r, In k seen -> In r (keep_first key seen rows) -> key_eqb k (key r) = false.
Proof.
  induction rows as [|vs rows IH]; intros seen; [split; [reflexivity | intros ? ? _ []]|].
  cbn [keep_first]. destruct (existsb (fun k => key_eqb k (key vs)) seen) eqn:Hex.
  - apply IH.
  - destruct (IH (key vs :: seen)) as [Hd Hs]. rewrite existsb_false_iff in Hex.
    split.
    + cbn [map distinct_keys]. rewrite Hd, andb_true_r. apply negb_true_iff.
      apply existsb_false_iff. intros k Hk. apply in_map_iff in Hk as (r & <- & Hr).
      apply Hs; [now left | exact Hr].
    + intros k r Hk [<- | Hr]; [now apply Hex|]. apply Hs; [now right | exact Hr].
Qed.

Lemma keep_first_complete key rows : forall seen r,
  In r rows ->
  (exists k, In k seen /\ key_eqb k (key r) = true) \/
  (exists r', In r' (keep_first key seen rows) /\ key_eqb (key r') (key r) = true).
Proof.
  induction rows as [|vs rows IH]; intros seen r Hin; [destruct Hin|].
  cbn [keep_first]. destruct (existsb (fun k => key_eqb k (key vs)) seen) eqn:Hex.
  - destruct Hin as [<- | Hin]; [|now apply IH].
    left. apply existsb_exists in Hex as (k & Hk & He). now exists k.
  - destruct Hin as [<- | Hin].
    + right. exists vs. split; [now left | apply key_eqb_refl].
    + destruct (IH (key vs :: seen) r Hin) as [(k & [<- | Hk] & He) | (r' & Hr' & He)].
      * right. exists vs. split; [now left | exact He].
      * left. now exists k.
      * right. exists r'. split; [now right | exact He].
Qed.

Lemma drop_duplicates_distinct c df :
  distinct_keys (column c (drop_duplicates c df)) = true.
Proof. rewrite column_data. apply (keep_first_distinct _ (data df) []). Qed.

Lemma drop_duplicates_incl c df vs :
  In vs (data (drop_duplicates c df)) -> In vs (data df).
Proof. apply keep_first_incl. Qed.

Lemma drop_duplicates_complete c df k :
  In k (column c df) ->
  exists k', In k' (column c (drop_duplicates c df)) /\ key_eqb k' k = true.
Proof.
  rewrite !column_data. intros Hk. apply in_map_iff in Hk as (vs & <- & Hvs).
  destruct (keep_first_complete (fun vs => get (combine (columns df) vs) c) (data df) [] vs Hvs)
    as [(k & [] & _) | (r' & Hr' & He)].
  exists (get (combine (columns df) r') c). split; [|exact He].
  cbn [drop_duplicates columns data]. apply in_map_iff. now exists r'.
Qed.

Lemma column_incl c df df' :
  columns df' = columns df -> incl (data df') (data df) ->
  incl (column c df') (column c df).
Proof.
  intros Hc Hi k. rewrite !column_data, Hc. intros Hk.
  apply in_map_iff in Hk as (vs & <- & Hvs). apply in_map_iff. exists vs.
  split; [reflexivity | now apply Hi].
Qed.

Lemma update_column_ok c f df df' :
  snd (update_column c f df) = Ok df' ->
  columns df' = columns df /\
  (inb c (columns df) = false -> df' = df) /\
  (inb c (columns df) = true -> exists s, f (column c df) = Ok s /\ df' = assign c s df).
Proof.
  unfold update_column. destruct (inb c (columns df)) eqn:Hin.
  - intros H. apply bindT_ok in H as (s & Hs & H). cbn in Hs, H. injection H as <-.
    split; [now apply assign_columns|]. split; [discriminate|]. intros _. now exists s.
  - cbn. intros [= <-]. split; [reflexivity|]. split; [reflexivity | discriminate].
Qed.

Lemma str_method_length P f s a : str_method P f s = Ok a -> length a = length s.
Proof.
  unfold str_method. destruct (str_accessor P s); cbn [obind]; [|discriminate].
  intros [= <-]. apply length_map.
Qed.

Lemma strip_title_length P s a : strip_title P s = Ok a -> length a = length s.
Proof.
  unfold strip_title. destruct (str_method P (py_strip P) s) as [b|] eqn:Hb; cbn [obind];
    [|discriminate].
  intros H. apply str_method_length in H, Hb. congruence.
Qed.

Lemma strip_upper_length P s a : strip_upper P s = Ok a -> length a = length s.
Proof.
  unfold strip_upper. destruct (str_method P (py_strip P) s) as [b|] eqn:Hb; cbn [obind];
    [|discriminate].
  intros H. apply str_method_length in H, Hb. congruence.
Qed.

Lemma positive_only_ok P c df df' :
  snd (positive_only P c df) = Ok df' ->
  columns df' = columns df /\
  (inb c (columns df) = false -> df' = df) /\
  (inb c (columns df) = true ->
   exists a, to_numeric P (column c df) = Ok a /\
             df' = boolean_index (map gt_zero a) (assign c (map cell a) df)).
Proof.
  unfold positive_only. destruct (inb c (columns df)) eqn:Hin.
  - intros H. apply bindT_ok in H as (a & Ha & H). cbn in Ha, H. injection H as <-.
    split; [cbn [boolean_index columns]; now apply assign_columns|].
    split; [discriminate|]. intros _. now exists a.
  - cbn. intros [= <-]. split; [reflexivity|]. split; [reflexivity | discriminate].
Qed.

Lemma forallb_incl {A} (f : A -> bool) l l' :
  incl l' l -> forallb f l = true -> forallb f l' = true.
Proof.
  intros Hi H. apply forallb_forall. intros x Hx.
  rewrite forallb_forall in H. now apply H, Hi.
Qed.

Lemma wf_set_cells cols c (s : list value) rows :
  Forall (fun vs => length vs = length cols) rows ->
  Forall (fun vs => length vs = length cols)
         (map (fun p => set_cell cols c (snd p) (fst p)) (align rows s VNull)).
Proof.
  intros H. revert s. induction H as [|vs rows Hvs _ IH]; intros s; [constructor|].
  destruct s as [|x s]; cbn [align map fst snd]; constructor;
    try (now rewrite set_cell_length); apply IH.
Qed.

Lemma wf_null_rows {A} (cols : list string) (s : list A) :
  Forall (fun vs : list value => length vs = length cols)
         (map (fun _ => map (fun _ => VNull) cols) s).
Proof. apply List.Forall_forall. intros vs H. apply in_map_iff in H as (_ & <- & _). apply length_map. Qed.

Lemma wf_assign c s df :
  well_formed df -> inb c (columns df) = true -> well_formed (assign c s df).
Proof.
  intros Hwf Hin. unfold well_formed in *. unfold assign. rewrite Hin. cbn [columns data].
  apply wf_set_cells. destruct (data df), s; try exact Hwf. apply wf_null_rows.
Qed.

Lemma wf_update_column c f df df' :
  well_formed df -> snd (update_column c f df) = Ok df' -> well_formed df'.
Proof.
  intros Hwf H. apply update_column_ok in H as (_ & Hno & Hyes).
  destruct (inb c (columns df)) eqn:Hin.
  - destruct (Hyes eq_refl) as (s & _ & ->). now apply wf_assign.
  - now rewrite (Hno eq_refl).
Qed.

Lemma align_length {A} rows (s : list A) nan : length (align rows s nan) = length rows.
Proof.
  revert s. induction rows as [|vs rows IH]; intros s; [reflexivity|].
  destruct s; cbn [align length]; now rewrite IH.
Qed.

Lemma assign_rows_same (s : list value) df :
  length s = length (data df) ->
  match data df, s with
  | [], _ :: _ => map (fun _ => map (fun _ => VNull) (columns df)) s
  | rows, _ => rows
  end = data df.
Proof. destruct (data df), s; try reflexivity; discriminate. Qed.

Lemma assign_In_columns c s df x :
  In x (columns (assign c s df)) <-> In x (columns df) \/ x = c.
Proof.
  unfold assign. destruct (inb c (columns df)) eqn:Hin; cbn [columns].
  - split; [now left|]. intros [H | ->]; [exact H | now apply inb_In].
  - rewrite in_app_iff. cbn. intuition.
Qed.

Lemma assign_length c s df :
  length s = length (data df) -> length (data (assign c s df)) = length (data df).
Proof.
  intros Hlen. unfold assign. rewrite (assign_rows_same s df Hlen).
  destruct (inb c (columns df)); cbn [data]; now rewrite List.length_map, align_length.
Qed.

Lemma wf_append (cols : list string) c (s : list value) rows :
  Forall (fun vs => length vs = length cols) rows ->
  Forall (fun vs => length vs = length (cols ++ [c]))
         (map (fun p => fst p ++ [snd p]) (align rows s VNull)).
Proof.
  intros H. revert s. induction H as [|vs rows Hvs _ IH]; intros s; [constructor|].
  destruct s as [|x s]; cbn [align map fst snd]; constructor;
    try (rewrite !List.length_app; cbn; now rewrite Hvs); apply IH.
Qed.

Lemma wf_assign_any c s df : well_formed df -> well_formed (assign c s df).
Proof.
  intros Hwf. destruct (inb c (columns df)) eqn:Hin; [now apply wf_assign|].
  unfold well_formed in *. unfold assign. rewrite Hin. cbn [columns data].
  apply wf_append. destruct (data df), s; try exact Hwf. apply wf_null_rows.
Qed.

Lemma get_app_ne (r : row) c v c' : c' <> c -> get (r ++ [(c, v)]) c' = get r c'.
Proof.
  intros Hne. induction r as [|[k x] r IH]; cbn [app get].
  - destruct (String.eqb_spec c c'); [congruence | reflexivity].
  - destruct (String.eqb k c'); [reflexivity | exact IH].
Qed.

Lemma get_app_new (r : row) c v : ~ In c (map fst r) -> get (r ++ [(c, v)]) c = v.
Proof.
  induction r as [|[k x] r IH]; cbn [app get map fst In]; intros Hn.
  - now rewrite String.eqb_refl.
  - destruct (String.eqb_spec k c) as [-> | _]; [tauto | apply IH; tauto].
Qed.

Lemma combine_snoc {A B} (l : list A) (l' : list B) a b :
  length l' = length l -> combine (l ++ [a]) (l' ++ [b]) = combine l l' ++ [(a, b)].
Proof.
  revert l'. induction l as [|x l IH]; intros [|y l'] H; try discriminate; [reflexivity|].
  cbn. f_equal. apply IH. now injection H.
Qed.

Lemma combine_fst {A B} (l : list A) (l' : list B) :
  length l' = length l -> map fst (combine l l') = l.
Proof.
  revert l'. induction l as [|x l IH]; intros [|y l'] H; try discriminate; [reflexivity|].
  cbn. f_equal. apply IH. now injection H.
Qed.

Lemma column_assign_other c s df c' :
  well_formed df -> length s = length (data df) -> c' <> c ->
  column c' (assign c s df) = column c' df.
Proof.
  intros Hwf Hlen Hne. destruct (inb c (columns df)) eqn:Hin;
    [now apply column_assign_ne|].
  rewrite !column_data. unfold assign. rewrite Hin, (assign_rows_same s df Hlen).
  cbn [columns data]. unfold well_formed in Hwf. clear Hlen. revert s.
  induction Hwf as [|vs rows Hvs _ IH]; intros s; [reflexivity|].
  destruct s as [|x s]; cbn [align map fst snd];
    rewrite combine_snoc, get_app_ne by assumption; now rewrite IH.
Qed.

Lemma column_assign_same c s df :
  well_formed df -> length s = length (data df) -> column c (assign c s df) = s.
Proof.
  intros Hwf Hlen. rewrite column_data. unfold assign.
  rewrite (assign_rows_same s df Hlen). unfold well_formed in Hwf.
  destruct (inb c (columns df)) eqn:Hin; cbn [columns data]; revert s Hlen.
  - induction Hwf as [|vs rows Hvs _ IH]; intros [|x s] Hlen; try discriminate;
      [reflexivity|].
    cbn [align map fst snd]. rewrite get_set_cell_eq by assumption.
    f_equal. apply IH. now injection Hlen.
  - induction Hwf as [|vs rows Hvs _ IH]; intros [|x s] Hlen; try discriminate;
      [reflexivity|].
    cbn [align map fst snd]. rewrite combine_snoc by assumption.
    rewrite get_app_new
      by (rewrite combine_fst by assumption; now apply inb_false).
    f_equal. apply IH. now injection Hlen.
Qed.

Lemma align_empty_rows (s : list value) :
  map (fun p : list value * value => fst p ++ [snd p])
      (align (map (fun _ => @nil value) s) s VNull)
  = map (fun v => [v]) s.
Proof. induction s as [|x s IH]; [reflexivity|]. cbn [map align fst snd app]. now rewrite IH. Qed.

(** The first assignment to [pd.DataFrame()]. *)
Lemma assign_no_frame c s :
  assign c s no_frame = {| columns := [c]; data := map (fun v => [v]) s |}.
Proof.
  unfold assign, no_frame. cbn [columns data inb existsb app]. f_equal.
  destruct s as [|x s]; [reflexivity|]. apply (align_empty_rows (x :: s)).
Qed.

(** ** The transforms of the OLTP frames and of the API frame *)

Lemma dedup_customers P df out :
  snd (transform_oltp1_customers P df) = Ok out -> deduplicated_on "CustomerID" df out.
Proof.
  intros H. unfold transform_oltp1_customers in H.
  apply bindT_ok in H as ([] & _ & H).
  apply bindT_ok in H as (df1 & H1 & H). apply update_column_ok in H1 as (C1 & _).
  apply bindT_ok in H as (id_col & Hid & H). cbn in Hid, H. injection H as <-.
  exists id_col. rewrite <- C1. split; [exact Hid|]. split; [reflexivity|].
  apply drop_duplicates_distinct.
Qed.

Lemma dedup_bookings P df out :
  snd (transform_oltp1_bookings P df) = Ok out -> deduplicated_on "BookingID" df out.
Proof.
  intros H. unfold transform_oltp1_bookings in H.
  apply bindT_ok in H as ([] & _ & H).
  apply bindT_ok in H as (df1 & H1 & H). apply update_column_ok in H1 as (C1 & _).
  cbv zeta in H.
  apply bindT_ok in H as (id_col & Hid & H). cbn [lift snd retT] in Hid, H.
  injection H as <-.
  assert (forall df2, columns df2 = columns df1 ->
            columns match List.filter (fun col => inb col (columns df1))
                                      ["CustomerID"; "FlightID"] with
                    | [] => df1
                    | _ :: _ => df2
                    end = columns df1) as Hc by (intros df2 H2; now destruct (List.filter _ _)).
  exists id_col. rewrite <- C1.
  rewrite (Hc (dropna _ df1) eq_refl) in Hid. split; [exact Hid|].
  split; [apply (Hc (dropna _ df1) eq_refl) | apply drop_duplicates_distinct].
Qed.

Lemma dedup_flights P df out :
  snd (transform_oltp2_flights P df) = Ok out -> deduplicated_on "FlightID" df out.
Proof.
  intros H. unfold transform_oltp2_flights in H.
  apply bindT_ok in H as ([] & _ & H).
  apply bindT_ok in H as (df1 & H1 & H). apply update_column_ok in H1 as (C1 & _).
  apply bindT_ok in H as (df2 & H2 & H). apply update_column_ok in H2 as (C2 & _).
  apply bindT_ok in H as (df3 & H3 & H). apply update_column_ok in H3 as (C3 & _).
  apply bindT_ok in H as (id_col & Hid & H). cbn in Hid, H. injection H as <-.
  exists id_col. rewrite <- C1, <- C2, <- C3. split; [exact Hid|]. split; [reflexivity|].
  apply drop_duplicates_distinct.
Qed.

Lemma dedup_routes P df out :
  snd (transform_oltp2_routes P df) = Ok out -> deduplicated_on "RouteID" df out.
Proof.
  intros H. unfold transform_oltp2_routes in H.
  apply bindT_ok in H as ([] & _ & H).
  apply bindT_ok in H as (df1 & H1 & H). apply update_column_ok in H1 as (C1 & _).
  apply bindT_ok in H as (df2 & H2 & H). apply update_column_ok in H2 as (C2 & _).
  apply bindT_ok in H as (df3 & H3 & H). apply positive_only_ok in H3 as (C3 & _).
  apply bindT_ok in H as (id_col & Hid & H). cbn in Hid, H. injection H as <-.
  exists id_col. rewrite <- C1, <- C2, <- C3. split; [exact Hid|]. split; [reflexivity|].
  apply drop_duplicates_distinct.
Qed.

(** X16: the customer, booking, flight and route transforms, when they
    return, return a frame with the columns of their input in which no two
    rows have the same identifier (NaN counted as one value), the
    identifier being CustomerID, BookingID, FlightID, RouteID or, in a
    frame without that column, the first column. *)
Theorem transforms_leave_distinct_ids (P : pandas) (df out : DataFrame) :
  (snd (transform_oltp1_customers P df) = Ok out -> deduplicated_on "CustomerID" df out) /\
  (snd (transform_oltp1_bookings P df) = Ok out -> deduplicated_on "BookingID" df out) /\
  (snd (transform_oltp2_flights P df) = Ok out -> deduplicated_on "FlightID" df out) /\
  (snd (transform_oltp2_routes P df) = Ok out -> deduplicated_on "RouteID" df out).
Proof.
  split; [apply dedup_customers|]. split; [apply dedup_bookings|].
  split; [apply dedup_flights | apply dedup_routes].
Qed.

Lemma transforms_leave_distinct_ids_witness :
  deduplicated_on "CustomerID" raw_customers (df_cust transformed).
Proof.
  apply (proj1 (transforms_leave_distinct_ids plain raw_customers (df_cust transformed))).
  vm_compute. reflexivity.
Defined.

Lemma positive_cell x : positive (cell x) = gt_zero x.
Proof. now destruct x. Qed.

Lemma positive_rows cols c rows : forall a,
  inb c cols = true ->
  Forall (fun vs => length vs = length cols) rows ->
  Forall (fun vs => length vs = length cols /\ positive (get (combine cols vs) c) = true)
         (map fst (List.filter snd
            (align (map (fun p => set_cell cols c (snd p) (fst p))
                        (align rows (map cell a) VNull))
                   (map gt_zero a) false))).
Proof.
  intros a Hin H. revert a. induction H as [|vs rows Hvs _ IH]; intros a; [constructor|].
  destruct a as [|x a]; cbn [map align fst snd List.filter].
  - apply (IH []).
  - destruct (gt_zero x) eqn:Hx; cbn [map fst]; [|apply IH].
    constructor; [|apply IH]. rewrite set_cell_length. split; [exact Hvs|].
    rewrite get_set_cell_eq by assumption. now rewrite positive_cell.
Qed.

Lemma positive_only_column P c df df' :
  well_formed df -> inb c (columns df) = true ->
  snd (positive_only P c df) = Ok df' ->
  forallb positive (column c df') = true /\ well_formed df'.
Proof.
  intros Hwf Hin H. apply positive_only_ok in H as (Hc & _ & Hyes).
  destruct (Hyes Hin) as (a & _ & ->). clear Hyes.
  assert (Forall (fun vs => length vs = length (columns df) /\
                            positive (get (combine (columns df) vs) c) = true)
                 (data (boolean_index (map gt_zero a) (assign c (map cell a) df)))) as HF.
  { unfold boolean_index, assign. rewrite Hin. cbn [columns data].
    apply positive_rows; [exact Hin|]. unfold well_formed in Hwf.
    destruct (data df), (map cell a); try exact Hwf. apply wf_null_rows. }
  rewrite List.Forall_forall in HF. split.
  - rewrite column_data, Hc. apply forallb_forall. intros v Hv.
    apply in_map_iff in Hv as (vs & <- & Hvs). now apply HF.
  - unfold well_formed. rewrite Hc. apply List.Forall_forall. intros vs Hvs. now apply HF.
Qed.

(** X17: on a frame with one cell per column, every row the payment,
    aircraft and route transforms return has a number above zero as
    Amount, Capacity and Distance: a row whose value is zero, negative or
    NaN after [to_numeric] is dropped. *)
Theorem kept_quantities_are_positive (P : pandas) (df out : DataFrame) :
  well_formed df ->
  (inb "Amount" (columns df) = true ->
   snd (transform_oltp1_payments P df) = Ok out ->
   forallb positive (column "Amount" out) = true) /\
  (inb "Capacity" (columns df) = true ->
   snd (transform_oltp2_aircrafts P df) = Ok out ->
   forallb positive (column "Capacity" out) = true) /\
  (inb "Distance" (columns df) = true ->
   snd (transform_oltp2_routes P df) = Ok out ->
   forallb positive (column "Distance" out) = true).
Proof.
  intros Hwf. repeat split.
  - intros Hin H. unfold transform_oltp1_payments in H.
    apply bindT_ok in H as ([] & _ & H).
    apply bindT_ok in H as (df1 & H1 & H).
    pose proof (wf_update_column _ _ _ _ Hwf H1) as Hwf1.
    apply update_column_ok in H1 as (C1 & _).
    apply bindT_ok in H as (df2 & H2 & H). rewrite <- C1 in Hin.
    destruct (positive_only_column P _ _ _ Hwf1 Hin H2) as [Hpos _].
    apply update_column_ok in H as (_ & Hno & Hyes).
    destruct (inb "PaymentDate" (columns df2)) eqn:Hd; [|now rewrite (Hno eq_refl)].
    destruct (Hyes eq_refl) as (s & Hs & ->).
    rewrite column_assign_ne; [exact Hpos | exact Hd | | discriminate].
    apply to_datetime_length in Hs. now rewrite Hs, column_length.
  - intros Hin H. unfold transform_oltp2_aircrafts in H.
    apply bindT_ok in H as ([] & _ & H).
    apply bindT_ok in H as (df1 & H1 & H).
    pose proof (wf_update_column _ _ _ _ Hwf H1) as Hwf1.
    apply update_column_ok in H1 as (C1 & _).
    apply bindT_ok in H as (df2 & H2 & H). rewrite <- C1 in Hin.
    destruct (positive_only_column P _ _ _ Hwf1 Hin H2) as [Hpos _].
    cbn [retT snd] in H. injection H as <-.
    destruct (transform_oltp2_aircrafts_id_col (columns df2)); [|exact Hpos].
    eapply forallb_incl; [|exact Hpos].
    apply column_incl; [reflexivity | intros vs; apply drop_duplicates_incl].
  - intros Hin H. unfold transform_oltp2_routes in H.
    apply bindT_ok in H as ([] & _ & H).
    apply bindT_ok in H as (df1 & H1 & H).
    pose proof (wf_update_column _ _ _ _ Hwf H1) as Hwf1.
    apply update_column_ok in H1 as (C1 & _).
    apply bindT_ok in H as (df2 & H2 & H).
    pose proof (wf_update_column _ _ _ _ Hwf1 H2) as Hwf2.
    apply update_column_ok in H2 as (C2 & _).
    apply bindT_ok in H as (df3 & H3 & H). rewrite <- C1, <- C2 in Hin.
    destruct (positive_only_column P _ _ _ Hwf2 Hin H3) as [Hpos _].
    apply bindT_ok in H as (id_col & _ & H). cbn in H. injection H as <-.
    eapply forallb_incl; [|exact Hpos].
    apply column_incl; [reflexivity | intros vs; apply drop_duplicates_incl].
Qed.

Lemma kept_quantities_are_positive_witness :
  forallb positive (column "Amount" (df_pay transformed)) = true.
Proof.
  apply (proj1 (kept_quantities_are_positive plain raw_payments (df_pay transformed)
                  ltac:(repeat constructor)));
    [reflexivity | vm_compute; reflexivity].
Defined.

(** X18: the customer and flight transforms drop repeated identifiers
    only: every CustomerID of the extracted customers, and every FlightID
    of the extracted flights, is still the identifier of a row of the
    frame returned. *)
Theorem first_occurrence_of_every_id_kept (P : pandas) (df out : DataFrame) :
  (inb "CustomerID" (columns df) = true ->
   snd (transform_oltp1_customers P df) = Ok out ->
   forall k, In k (column "CustomerID" df) ->
     exists k', In k' (column "CustomerID" out) /\ key_eqb k' k = true) /\
  (inb "FlightID" (columns df) = true ->
   snd (transform_oltp2_flights P df) = Ok out ->
   forall k, In k (column "FlightID" df) ->
     exists k', In k' (column "FlightID" out) /\ key_eqb k' k = true).
Proof.
  assert (forall c f id df df',
            (forall s a, f s = Ok a -> length a = length s) -> id <> c ->
            snd (update_column c f df) = Ok df' -> column id df' = column id df) as Hupd.
  { intros c f id d d' Hlen Hne H. apply update_column_ok in H as (_ & Hno & Hyes).
    destruct (inb c (columns d)) eqn:Hc; [|now rewrite (Hno eq_refl)].
    destruct (Hyes eq_refl) as (s & Hs & ->).
    apply column_assign_ne; [exact Hc | | exact Hne].
    apply Hlen in Hs. now rewrite Hs, column_length. }
  split.
  - intros Hin H k Hk. unfold transform_oltp1_customers in H.
    apply bindT_ok in H as ([] & _ & H).
    apply bindT_ok in H as (df1 & H1 & H).
    assert (column "CustomerID" df1 = column "CustomerID" df) as K1
      by exact (Hupd "Name" _ "CustomerID" _ _ (strip_title_length P) ltac:(discriminate) H1).
    apply update_column_ok in H1 as (C1 & _).
    apply bindT_ok in H as (id_col & Hid & H). cbn [lift retT snd] in Hid, H.
    unfold col_or_first in Hid. rewrite C1, Hin in Hid. injection Hid as <-.
    injection H as <-. apply drop_duplicates_complete. now rewrite K1.
  - intros Hin H k Hk. unfold transform_oltp2_flights in H.
    apply bindT_ok in H as ([] & _ & H).
    apply bindT_ok in H as (df1 & H1 & H).
    assert (column "FlightID" df1 = column "FlightID" df) as K1
      by exact (Hupd "FlightNumber" _ "FlightID" _ _ (strip_upper_length P) ltac:(discriminate) H1).
    apply update_column_ok in H1 as (C1 & _).
    apply bindT_ok in H as (df2 & H2 & H).
    assert (column "FlightID" df2 = column "FlightID" df1) as K2
      by exact (Hupd "DepartureTime" _ "FlightID" _ _ (to_datetime_length P) ltac:(discriminate) H2).
    apply update_column_ok in H2 as (C2 & _).
    apply bindT_ok in H as (df3 & H3 & H).
    assert (column "FlightID" df3 = column "FlightID" df2) as K3
      by exact (Hupd "ArrivalTime" _ "FlightID" _ _ (to_datetime_length P) ltac:(discriminate) H3).
    apply update_column_ok in H3 as (C3 & _).
    apply bindT_ok in H as (id_col & Hid & H). cbn [lift retT snd] in Hid, H.
    unfold col_or_first in Hid. rewrite C3, C2, C1, Hin in Hid. injection Hid as <-.
    injection H as <-. apply drop_duplicates_complete. now rewrite K3, K2, K1.
Qed.

Lemma first_occurrence_of_every_id_kept_witness :
  exists k', In k' (column "CustomerID" (df_cust transformed)) /\ key_eqb k' (VInt 1) = true.
Proof.
  apply (proj1 (first_occurrence_of_every_id_kept plain raw_customers (df_cust transformed)));
    [reflexivity | vm_compute; reflexivity | left; reflexivity].
Defined.

(** X19: no row the booking transform returns has a NaN CustomerID or a
    NaN FlightID, for whichever of the two columns the frame has. *)
Theorem bookings_without_customer_or_flight_dropped (P : pandas) (df out : DataFrame)
    (c : string) :
  In c ["CustomerID"; "FlightID"] ->
  inb c (columns df) = true ->
  snd (transform_oltp1_bookings P df) = Ok out ->
  forallb (fun v => negb (is_null v)) (column c out) = true.
Proof.
  intros Hc Hin H. unfold transform_oltp1_bookings in H.
  apply bindT_ok in H as ([] & _ & H).
  apply bindT_ok in H as (df1 & H1 & H). apply update_column_ok in H1 as (C1 & _).
  cbv zeta in H. rewrite <- C1 in Hin.
  apply bindT_ok in H as (id_col & _ & H). cbn [lift retT snd] in H. injection H as <-.
  assert (In c (List.filter (fun col => inb col (columns df1)) ["CustomerID"; "FlightID"]))
    as Hreq by (apply filter_In; now split).
  assert (forall req, In c req -> forall vs,
            In vs (data match req with [] => df1 | _ :: _ => dropna req df1 end) ->
            negb (is_null (get (combine (columns match req with
                                                 | [] => df1
                                                 | _ :: _ => dropna req df1
                                                 end) vs) c)) = true) as Hgen.
  { intros [|c0 req] Hr vs Hvs; [destruct Hr|]. cbn [dropna data columns] in *.
    apply filter_In in Hvs as [_ Hvs]. rewrite forallb_forall in Hvs. now apply Hvs. }
  apply forallb_forall. intros v Hv. rewrite column_data in Hv.
  apply in_map_iff in Hv as (vs & <- & Hvs). apply drop_duplicates_incl in Hvs.
  exact (Hgen _ Hreq vs Hvs).
Qed.

Lemma bookings_without_customer_or_flight_dropped_witness :
  forallb (fun v => negb (is_null v)) (column "CustomerID" (df_book transformed)) = true.
Proof.
  apply (bookings_without_customer_or_flight_dropped plain raw_bookings (df_book transformed));
    [left; reflexivity | reflexivity | vm_compute; reflexivity].
Defined.

(** X20: on a frame without columns the customer, booking, flight and
    route transforms raise IndexError (from [df.columns[0]]), while the
    payment and aircraft transforms return the frame as it is. *)
Theorem frame_without_columns (P : pandas) (df : DataFrame) :
  columns df = [] ->
  snd (transform_oltp1_customers P df) = Raise IndexError /\
  snd (transform_oltp1_bookings P df) = Raise IndexError /\
  snd (transform_oltp2_flights P df) = Raise IndexError /\
  snd (transform_oltp2_routes P df) = Raise IndexError /\
  snd (transform_oltp1_payments P df) = Ok df /\
  snd (transform_oltp2_aircrafts P df) = Ok df.
Proof.
  destruct df as [cols rows]. cbn [columns]. intros ->. repeat split.
Qed.

Lemma frame_without_columns_witness :
  snd (transform_oltp1_customers plain no_frame) = Raise IndexError.
Proof. exact (proj1 (frame_without_columns plain no_frame eq_refl)). Defined.

Lemma str_method_cells P f s a :
  str_method P f s = Ok a ->
  a = map (fun v => match v with VStr t => VStr (f t) | _ => VNull end) s.
Proof.
  unfold str_method. destruct (str_accessor P s); cbn [obind]; [|discriminate].
  now intros [= <-].
Qed.

(** X21: on a frame with one cell per column and a Name column, every
    Name the customer transform returns is [str.title] of [str.strip] of
    an extracted Name, or NaN (where the extracted cell was not a text). *)
Theorem customer_names_normalised (P : pandas) (df out : DataFrame) :
  well_formed df ->
  inb "Name" (columns df) = true ->
  snd (transform_oltp1_customers P df) = Ok out ->
  forall v, In v (column "Name" out) ->
    v = VNull \/
    exists n, In (VStr n) (column "Name" df) /\ v = VStr (py_title P (py_strip P n)).
Proof.
  intros Hwf Hin H v Hv. unfold transform_oltp1_customers in H.
  apply bindT_ok in H as ([] & _ & H).
  apply bindT_ok in H as (df1 & H1 & H).
  apply update_column_ok in H1 as (_ & _ & Hyes). destruct (Hyes Hin) as (s & Hs & ->).
  apply bindT_ok in H as (id_col & _ & H). cbn [retT snd] in H. injection H as <-.
  assert (In v (column "Name" (assign "Name" s df))) as Hv1.
  { revert Hv. apply column_incl; [reflexivity | intros vs; apply drop_duplicates_incl]. }
  unfold strip_title in Hs.
  destruct (str_method P (py_strip P) (column "Name" df)) as [a|] eqn:Ha; cbn [obind] in Hs;
    [|discriminate].
  pose proof (strip_title_length P (column "Name" df) s) as Hlen.
  unfold strip_title in Hlen. rewrite Ha in Hlen. cbn [obind] in Hlen.
  specialize (Hlen Hs). rewrite column_length in Hlen.
  rewrite (column_assign_same "Name" s df Hwf Hlen) in Hv1.
  apply str_method_cells in Ha, Hs. subst a s. rewrite map_map in Hv1.
  apply in_map_iff in Hv1 as (v0 & <- & Hv0).
  destruct v0 as [|n|t|q]; try (now left). right. exists t. split; [exact Hv0 | reflexivity].
Qed.

Lemma customer_names_normalised_witness :
  VStr "Ann Lee" = VNull \/
  exists n, In (VStr n) (column "Name" raw_customers) /\
            VStr "Ann Lee" = VStr (py_title plain (py_strip plain n)).
Proof.
  apply (customer_names_normalised plain raw_customers (df_cust transformed));
    [repeat constructor | reflexivity | vm_compute; reflexivity | left; reflexivity].
Defined.

(** X22: the API transform never raises.  It returns an empty frame as it
    is; otherwise it returns as many columns and no row that the frame did
    not have, and when the renamed columns include flight_iata no two rows
    of the result have the same flight_iata. *)
Theorem transform_api_returns (P : pandas) (df : DataFrame) :
  exists out,
    snd (transform_api P df) = Ok out /\
    length (columns out) = length (columns df) /\
    incl (data out) (data df) /\
    (df_empty df = true -> out = df) /\
    (df_empty df = false -> In "flight_iata" (columns out) ->
     distinct_keys (column "flight_iata" out) = true).
Proof.
  unfold transform_api. cbn [bindT say snd].
  destruct (df_empty df) eqn:He.
  - exists df. cbn. split; [reflexivity|]. split; [reflexivity|]. split; [apply incl_refl|].
    split; [reflexivity | discriminate].
  - set (df' := {| columns := map (fun c => replace_spaces (py_lower P (py_strip P c)))
                                  (columns df);
                   data := data df |}).
    cbn [retT]. cbn [snd]. eexists. split; [reflexivity|].
    destruct (inb "flight_iata" (columns df')) eqn:Hin.
    + split; [cbn [drop_duplicates columns df']; apply List.length_map|].
      split; [intros vs Hvs; apply drop_duplicates_incl in Hvs; exact Hvs|].
      split; [discriminate|]. intros _ _. apply drop_duplicates_distinct.
    + split; [apply List.length_map|]. split; [apply incl_refl|]. split; [discriminate|].
      intros _ Hc. apply inb_In in Hc. congruence.
Qed.

(** ** The survey transform *)

Lemma get_filter (keep : string -> bool) (r : row) c :
  keep c = true -> get (List.filter (fun p => keep (fst p)) r) c = get r c.
Proof.
  intros Hk. induction r as [|[k x] r IH]; [reflexivity|]. cbn [List.filter fst get].
  destruct (String.eqb_spec k c) as [-> | Hne].
  - rewrite Hk. cbn [get]. now rewrite String.eqb_refl.
  - destruct (keep k); cbn [get]; [|exact IH].
    destruct (String.eqb_spec k c); [congruence | exact IH].
Qed.

Lemma column_select_columns keep df c :
  keep c = true -> column c (select_columns keep df) = column c df.
Proof.
  intros Hk. rewrite !column_data. cbn [select_columns columns data]. rewrite map_map.
  apply map_ext. intros vs. now rewrite select_rows, get_filter.
Qed.

Lemma select_row_length (keep : string -> bool) cols : forall vs : list value,
  length vs = length cols ->
  length (map snd (List.filter (fun p => keep (fst p)) (combine cols vs)))
  = length (List.filter keep cols).
Proof.
  induction cols as [|k cols IH]; intros [|x vs] H; try discriminate; [reflexivity|].
  cbn [combine List.filter fst]. destruct (keep k); cbn [map length]; rewrite IH;
    try reflexivity; now injection H.
Qed.

Lemma wf_select_columns keep df : well_formed df -> well_formed (select_columns keep df).
Proof.
  unfold well_formed. cbn [select_columns columns data]. intros H.
  apply List.Forall_forall. intros vs Hvs. apply in_map_iff in Hvs as (vs0 & <- & Hvs0).
  rewrite List.Forall_forall in H. now apply select_row_length, H.
Qed.

Lemma map_outcome_length {A B} (f : A -> outcome B) l : forall bs,
  map_outcome f l = Ok bs -> length bs = length l.
Proof.
  induction l as [|a l IH]; intros bs H; cbn [map_outcome] in H.
  - now injection H as <-.
  - destruct (f a); cbn [obind] in H; [|discriminate].
    destruct (map_outcome f l); cbn [obind] in H; [|discriminate].
    injection H as <-. cbn [length]. now rewrite (IH _ eq_refl).
Qed.

Lemma iterrows_length df : length (iterrows df) = length (data df).
Proof. apply List.length_map. Qed.

(** What one assignment of a series as long as the frame leaves. *)
Lemma assign_step c s d :
  well_formed d -> length s = length (data d) ->
  well_formed (assign c s d) /\
  length (data (assign c s d)) = length (data d) /\
  forall x, x <> c ->
    column x (assign c s d) = column x d /\
    (In x (columns (assign c s d)) <-> In x (columns d)).
Proof.
  intros Hwf Hlen. split; [now apply wf_assign_any|]. split; [now apply assign_length|].
  intros x Hx. split; [now apply column_assign_other|].
  rewrite assign_In_columns. tauto.
Qed.

Lemma copying_assign n c s acc :
  copying n acc -> length s = n ->
  copying n (assign c s acc) /\
  column c (assign c s acc) = s /\
  forall x, In x (columns acc) -> x <> c -> column x (assign c s acc) = column x acc.
Proof.
  intros [-> | [Hwf Hrows]] Hlen.
  - rewrite assign_no_frame. split; [|split].
    + right. split.
      * apply List.Forall_forall. intros vs H. cbn [data] in H.
        apply in_map_iff in H as (v & <- & _). reflexivity.
      * cbn [data]. now rewrite List.length_map.
    + rewrite column_data. cbn [columns data]. rewrite map_map.
      rewrite <- (map_id s) at 2. apply map_ext. intros v. cbn. now rewrite String.eqb_refl.
    + intros x [].
  - rewrite <- Hrows in Hlen. split; [|split].
    + right. split; [now apply wf_assign_any | now rewrite assign_length].
    + now apply column_assign_same.
    + intros x _ Hx. now apply column_assign_other.
Qed.

Lemma mapped_fold (df : DataFrame) : forall ms acc,
  copying (length (data df)) acc ->
  List.NoDup (map snd ms) ->
  let F := fold_left (fun acc m => if inb (fst m) (columns df)
                                   then assign (snd m) (column (fst m) df) acc
                                   else acc) ms acc in
  copying (length (data df)) F /\
  (forall c, In c (columns acc) -> ~ In c (map snd ms) ->
     In c (columns F) /\ column c F = column c acc) /\
  (forall m, In m ms -> inb (fst m) (columns df) = true ->
     In (snd m) (columns F) /\ column (snd m) F = column (fst m) df) /\
  (forall c, In c (columns F) ->
     In c (columns acc) \/
     exists m, In m ms /\ snd m = c /\ inb (fst m) (columns df) = true).
Proof.
  induction ms as [|m ms IH]; intros acc Hacc Hnd; cbn [fold_left].
  - split; [exact Hacc|]. split; [now intros|]. split; [intros ? []|]. intros c Hc. now left.
  - inversion Hnd as [|? ? Hm Hnd']; subst.
    set (acc1 := if inb (fst m) (columns df)
                 then assign (snd m) (column (fst m) df) acc else acc).
    assert (copying (length (data df)) acc1 /\
            (forall x, In x (columns acc) -> x <> snd m ->
               In x (columns acc1) /\ column x acc1 = column x acc) /\
            (inb (fst m) (columns df) = true ->
               In (snd m) (columns acc1) /\ column (snd m) acc1 = column (fst m) df) /\
            (forall c, In c (columns acc1) ->
               In c (columns acc) \/ (snd m = c /\ inb (fst m) (columns df) = true)))
      as (I1 & Keep & New & From).
    { subst acc1. destruct (inb (fst m) (columns df)) eqn:Hin.
      - destruct (copying_assign _ (snd m) (column (fst m) df) acc Hacc (column_length _ _))
          as (C1 & C2 & C3).
        split; [exact C1|]. split; [|split].
        + intros x Hx Hne. split; [apply assign_In_columns; now left | now apply C3].
        + intros _. split; [apply assign_In_columns; now right | exact C2].
        + intros c Hc. apply assign_In_columns in Hc as [Hc | ->]; [now left | now right].
      - split; [exact Hacc|]. split; [now intros|]. split; [discriminate|]. intros c Hc.
        now left. }
    destruct (IH acc1 I1 Hnd') as (J1 & J2 & J3 & J4). cbv zeta in *.
    split; [exact J1|]. split; [|split].
    + intros c Hc Hn. cbn [map In] in Hn.
      destruct (Keep c Hc) as [K1 K2]; [intros ->; tauto|].
      destruct (J2 c K1) as [L1 L2]; [tauto|]. split; [exact L1 | congruence].
    + intros m0 [<- | Hm0] Hin.
      * destruct (New Hin) as [N1 N2]. destruct (J2 _ N1 Hm) as [L1 L2].
        split; [exact L1 | congruence].
      * now apply J3.
    + intros c Hc. destruct (J4 c Hc) as [Hc1 | (m0 & Hm0 & Hs & Hin)].
      * destruct (From c Hc1) as [Hc0 | [Hs Hin]]; [now left|].
        right. exists m. split; [now left | now split].
      * right. exists m0. split; [now right | now split].
Qed.

Lemma null_column (rows : list (list value)) :
  forallb is_null (map (fun _ => VNull) rows) = true.
Proof. induction rows; [reflexivity | exact IHrows]. Qed.

Lemma add_missing_ok : forall cols acc,
  well_formed acc ->
  exists ns acc',
    add_missing cols acc = (ns, Ok acc') /\
    well_formed acc' /\
    (forall c, In c (columns acc) -> In c (columns acc') /\ column c acc' = column c acc) /\
    (forall c, In c cols -> In c (columns acc')) /\
    (forall c, In c cols -> ~ In c (columns acc) -> forallb is_null (column c acc') = true).
Proof.
  induction cols as [|col cols IH]; intros acc Hwf; cbn [add_missing].
  - exists [], acc. split; [reflexivity|]. split; [exact Hwf|]. split; [now intros|].
    split; intros c [].
  - destruct (inb col (columns acc)) eqn:Hin.
    + destruct (IH acc Hwf) as (ns & acc' & Hrun & Hwf' & Keep & All & Null).
      exists ns, acc'. split; [exact Hrun|]. split; [exact Hwf'|]. split; [exact Keep|].
      apply inb_In in Hin. split.
      * intros c [<- | Hc]; [now apply Keep | now apply All].
      * intros c [<- | Hc] Hn; [tauto | now apply Null].
    + set (s := map (fun _ => VNull) (data acc)).
      assert (length s = length (data acc)) as Hlen by apply List.length_map.
      destruct (assign_step col s acc Hwf Hlen) as (Hwf1 & _ & Other).
      destruct (IH (assign col s acc) Hwf1) as (ns & acc' & Hrun & Hwf' & Keep & All & Null).
      exists (ColumnAdded col :: ns), acc'. unfold bindT, say. rewrite Hrun.
      split; [reflexivity|]. split; [exact Hwf'|]. apply inb_false in Hin.
      assert (In col (columns (assign col s acc))) as Hcol
        by (apply assign_In_columns; now right).
      split; [|split].
      * intros c Hc. assert (c <> col) as Hne by (intros ->; tauto).
        destruct (Other c Hne) as [O1 O2]. destruct (Keep c) as [K1 K2]; [now apply O2|].
        split; [exact K1 | congruence].
      * intros c [<- | Hc]; [now apply Keep | now apply All].
      * intros c [<- | Hc] Hn.
        -- destruct (Keep col Hcol) as [_ ->]. rewrite column_assign_same by assumption.
           apply null_column.
        -- destruct (String.eqb_spec c col) as [-> | Hne].
           ++ destruct (Keep col Hcol) as [_ ->]. rewrite column_assign_same by assumption.
              apply null_column.
           ++ apply Null; [exact Hc|]. intros Hc'. apply (Other c Hne) in Hc'. tauto.
Qed.

Lemma get_combine_map (f : string -> value) cols c :
  In c cols -> get (combine cols (map f cols)) c = f c.
Proof.
  induction cols as [|k cols IH]; intros Hin; [destruct Hin|]. cbn [map combine get].
  destruct (String.eqb_spec k c) as [-> | Hne]; [reflexivity|].
  destruct Hin as [-> | Hin]; [congruence | now apply IH].
Qed.

Lemma column_take_columns cols df c :
  In c cols -> column c (take_columns cols df) = column c df.
Proof.
  intros Hin. unfold column at 1. unfold iterrows. cbn [take_columns columns data].
  rewrite !map_map. unfold column. apply map_ext. intros r. now apply get_combine_map.
Qed.

Lemma wf_take_columns cols df : well_formed (take_columns cols df).
Proof.
  apply List.Forall_forall. intros vs H. cbn [take_columns data columns] in *.
  apply in_map_iff in H as (r & <- & _). apply List.length_map.
Qed.

Lemma same_frame (d : DataFrame) (c : string) :
  forall x, x <> c -> column x d = column x d /\ (In x (columns d) <-> In x (columns d)).
Proof. intros x _. split; [reflexivity | tauto]. Qed.

Lemma satisfaction_step P df0 df1 :
  well_formed df0 ->
  snd (if inb "satisfaction" (columns df0)
       then do! s := lift (str_method P (py_title P) (column "satisfaction" df0)) in
            retT (assign "Satisfaction" s df0)
       else retT df0) = Ok df1 ->
  well_formed df1 /\
  forall x, x <> "Satisfaction" ->
    column x df1 = column x df0 /\ (In x (columns df1) <-> In x (columns df0)).
Proof.
  intros Hwf0 H1. destruct (inb "satisfaction" (columns df0)).
  - apply bindT_ok in H1 as (s & Hs & H1). cbn [lift retT snd] in Hs, H1.
    injection H1 as <-. apply str_method_length in Hs.
    destruct (assign_step "Satisfaction" s df0 Hwf0) as (A1 & _ & A2);
      [rewrite Hs; apply column_length|].
    split; [exact A1 | exact A2].
  - cbn [retT snd] in H1. injection H1 as <-. split; [exact Hwf0 | apply same_frame].
Qed.

Lemma rating_step P df1 df2 :
  well_formed df1 ->
  snd match List.filter (fun col => inb col (columns df1)) rating_cols with
      | [] => retT df1
      | existing_cols =>
          do! m := lift (map_outcome (fun r => row_mean P (map (get r) existing_cols))
                                     (iterrows df1)) in
          retT (assign "AverageRating" m df1)
      end = Ok df2 ->
  well_formed df2 /\
  forall x, x <> "AverageRating" ->
    column x df2 = column x df1 /\ (In x (columns df2) <-> In x (columns df1)).
Proof.
  intros Hwf1 H2. destruct (List.filter (fun col => inb col (columns df1)) rating_cols).
  - cbn [retT snd] in H2. injection H2 as <-. split; [exact Hwf1 | apply same_frame].
  - apply bindT_ok in H2 as (m & Hm & H2). cbn [lift retT snd] in Hm, H2.
    injection H2 as <-. apply map_outcome_length in Hm.
    destruct (assign_step "AverageRating" m df1 Hwf1) as (A1 & _ & A2);
      [rewrite Hm; apply iterrows_length|].
    split; [exact A1 | exact A2].
Qed.

Lemma column_mapping_NoDup : List.NoDup (map snd column_mapping).
Proof.
  cbn. repeat constructor; cbn; intros H;
    repeat (destruct H as [H | H]; [discriminate|]); exact H.
Qed.

Lemma copied_fields csv_col db_col :
  In (csv_col, db_col) (firstn 4 column_mapping) ->
  In db_col required_cols /\
  String.prefix "Unnamed" csv_col = false /\
  csv_col <> "Satisfaction" /\ csv_col <> "AverageRating" /\
  In (csv_col, db_col) column_mapping /\
  forall m, In m column_mapping -> snd m = db_col -> fst m = csv_col.
Proof.
  intros Hin. cbn in Hin.
  destruct Hin as [H | [H | [H | [H | []]]]]; injection H as <- <-;
    (split; [cbn; tauto|]); (split; [reflexivity|]); (split; [discriminate|]);
    (split; [discriminate|]); (split; [cbn; tauto|]);
    intros [a b] Hm Hs; cbn [fst snd] in Hs |- *; subst b; cbn in Hm;
    repeat (destruct Hm as [Hm | Hm]; [injection Hm as <-; try reflexivity; discriminate|]);
    destruct Hm.
Qed.

(** X23: on a frame with one cell per column, the survey transform, when
    it returns, returns a frame with exactly the six columns CustomerID,
    TypeOfTravel, Class, FlightDistance, Satisfaction, AverageRating, in
    that order, and one cell per column.  Its columns CustomerID,
    TypeOfTravel, Class and FlightDistance are the columns id, Type of
    Travel, Class and Flight Distance of the file, cell by cell, and hold
    NaN only where the file has no such column. *)
Theorem transform_csv_output (P : pandas) (df out : DataFrame) :
  well_formed df ->
  snd (transform_csv P df) = Ok out ->
  columns out = satisfaction_columns /\
  well_formed out /\
  forall csv_col db_col, In (csv_col, db_col) (firstn 4 column_mapping) ->
    (In csv_col (columns df) -> column db_col out = column csv_col df) /\
    (~ In csv_col (columns df) -> forallb is_null (column db_col out) = true).
Proof.
  intros Hwf H. unfold transform_csv in H.
  apply bindT_ok in H as ([] & _ & H). cbv zeta in H.
  apply bindT_ok in H as (df1 & H1 & H).
  apply bindT_ok in H as (df2 & H2 & H).
  apply bindT_ok in H as (df_mapped & Hadd & H). cbn [retT snd] in H. injection H as <-.
  pose proof (wf_select_columns (fun c => negb (String.prefix "Unnamed" c)) df Hwf) as Hwf0.
  apply (satisfaction_step P _ _ Hwf0) in H1 as (Hwf1 & Same1).
  apply (rating_step P _ _ Hwf1) in H2 as (Hwf2 & Same2).
  destruct (mapped_fold df2 column_mapping no_frame (or_introl eq_refl) column_mapping_NoDup)
    as (Hcopy & _ & Copied & From).
  cbv zeta in Hcopy, Copied, From.
  match type of Hadd with
  | snd (add_missing _ ?F) = _ => set (mapped := F) in *
  end.
  assert (well_formed mapped) as Hwfm
    by (destruct Hcopy as [-> | [Hm _]]; [constructor | exact Hm]).
  destruct (add_missing_ok required_cols mapped Hwfm)
    as (ns & acc' & Hrun & Hwf' & Keep & All & Null).
  rewrite Hrun in Hadd. cbn [snd] in Hadd. injection Hadd as ->.
  clearbody mapped.
  split; [reflexivity|]. split; [apply wf_take_columns|].
  intros csv_col db_col Hin.
  destruct (copied_fields _ _ Hin) as (Hreq & Hkeep & Hn1 & Hn2 & Hmap & Huniq).
  rewrite column_take_columns by exact Hreq.
  destruct (Same2 csv_col Hn2) as [S2 T2]. destruct (Same1 csv_col Hn1) as [S1 T1].
  assert (column csv_col df2 = column csv_col df) as Hcol.
  { rewrite S2, S1. apply column_select_columns. now rewrite Hkeep. }
  assert (In csv_col (columns df2) <-> In csv_col (columns df)) as Hiff.
  { rewrite T2, T1. cbn [select_columns columns]. rewrite filter_In, Hkeep. cbn. tauto. }
  split.
  - intros Hc. apply Hiff, inb_In in Hc.
    destruct (Copied (csv_col, db_col) Hmap Hc) as [C1 C2]. cbn [fst snd] in C1, C2.
    destruct (Keep db_col C1) as [_ ->]. congruence.
  - intros Hc. apply Null; [exact Hreq|]. intros Hm.
    destruct (From db_col Hm) as [[] | (m & Hm1 & Hm2 & Hm3)].
    rewrite (Huniq m Hm1 Hm2) in Hm3. apply inb_In, Hiff in Hm3. tauto.
Qed.

Lemma transform_csv_output_witness :
  column "CustomerID" (df_csv transformed) = column "id" raw_survey.
Proof.
  refine (proj1 (proj2 (proj2 (transform_csv_output plain raw_survey (df_csv transformed)
                                 _ _)) "id" "CustomerID" _) _).
  - repeat constructor.
  - vm_compute. reflexivity.
  - left. reflexivity.
  - vm_compute. tauto.
Defined.

Lemma rating_cols_kept c :
  In c rating_cols ->
  String.prefix "Unnamed" c = false /\ c <> "Satisfaction" /\ c <> "AverageRating".
Proof.
  intros Hc.
  assert (forallb (fun c => negb (String.prefix "Unnamed" c)
                            && negb (String.eqb c "Satisfaction")
                            && negb (String.eqb c "AverageRating")) rating_cols = true)
    as H by reflexivity.
  rewrite forallb_forall in H. apply H in Hc.
  apply andb_true_iff in Hc as [Hc H3]. apply andb_true_iff in Hc as [H1 H2].
  apply negb_true_iff in H1, H2, H3. split; [exact H1|].
  split; intros ->; discriminate.
Qed.

Lemma rows_of_columns cs d1 d :
  length (data d1) = length (data d) ->
  (forall c, In c cs -> column c d1 = column c d) ->
  map (fun r => map (get r) cs) (iterrows d1) = map (fun r => map (get r) cs) (iterrows d).
Proof.
  intros Hlen. rewrite <- !iterrows_length in Hlen. unfold column.
  generalize dependent (iterrows d). generalize (iterrows d1). clear d1 d.
  intros l1. induction l1 as [|r1 l1 IH]; intros [|r l] Hlen Hc; try discriminate;
    [reflexivity|].
  cbn [map]. f_equal.
  - apply map_ext_in. intros c Hin. specialize (Hc c Hin). now injection Hc.
  - apply IH; [now injection Hlen|]. intros c Hin. specialize (Hc c Hin). now injection Hc.
Qed.

Lemma map_outcome_map {A B C} (f : B -> outcome C) (g : A -> B) l :
  map_outcome f (map g l) = map_outcome (fun x => f (g x)) l.
Proof. induction l as [|a l IH]; [reflexivity|]. cbn [map map_outcome]. now rewrite IH. Qed.

Lemma map_outcome_Forall2 {A B} (f : A -> outcome B) l : forall bs,
  map_outcome f l = Ok bs -> Forall2 (fun a b => f a = Ok b) l bs.
Proof.
  induction l as [|a l IH]; intros bs H; cbn [map_outcome] in H.
  - injection H as <-. constructor.
  - destruct (f a) as [b|] eqn:Hfa; cbn [obind] in H; [|discriminate].
    destruct (map_outcome f l) as [bs0|]; cbn [obind] in H; [|discriminate].
    injection H as <-. constructor; [exact Hfa | now apply IH].
Qed.

Lemma Forall2_mono {A B} (R Q : A -> B -> Prop) l l' :
  Forall2 R l l' -> (forall a b, R a b -> Q a b) -> Forall2 Q l l'.
Proof. intros H HRQ. induction H; constructor; auto. Qed.

Lemma satisfaction_titled P df0 df1 :
  well_formed df0 ->
  inb "satisfaction" (columns df0) = true ->
  snd (if inb "satisfaction" (columns df0)
       then do! s := lift (str_method P (py_title P) (column "satisfaction" df0)) in
            retT (assign "Satisfaction" s df0)
       else retT df0) = Ok df1 ->
  In "Satisfaction" (columns df1) /\
  str_method P (py_title P) (column "satisfaction" df0) = Ok (column "Satisfaction" df1).
Proof.
  intros Hwf0 Hin H1. rewrite Hin in H1.
  apply bindT_ok in H1 as (s & Hs & H1). cbn [lift retT snd] in Hs, H1.
  injection H1 as <-. split; [apply assign_In_columns; now right|].
  rewrite column_assign_same; [exact Hs | exact Hwf0 |].
  apply str_method_length in Hs. now rewrite Hs, column_length.
Qed.

Lemma rating_averaged P df1 df2 existing_cols :
  well_formed df1 ->
  List.filter (fun col => inb col (columns df1)) rating_cols = existing_cols ->
  existing_cols <> [] ->
  snd match List.filter (fun col => inb col (columns df1)) rating_cols with
      | [] => retT df1
      | existing_cols =>
          do! m := lift (map_outcome (fun r => row_mean P (map (get r) existing_cols))
                                     (iterrows df1)) in
          retT (assign "AverageRating" m df1)
      end = Ok df2 ->
  In "AverageRating" (columns df2) /\
  map_outcome (fun r => row_mean P (map (get r) existing_cols)) (iterrows df1)
  = Ok (column "AverageRating" df2).
Proof.
  intros Hwf1 Hex Hne H2. rewrite Hex in H2.
  destruct existing_cols as [|c0 cs]; [congruence|].
  apply bindT_ok in H2 as (m & Hm & H2). cbn [lift retT snd] in Hm, H2.
  injection H2 as <-. split; [apply assign_In_columns; now right|].
  rewrite column_assign_same; [exact Hm | exact Hwf1 |].
  apply map_outcome_length in Hm. now rewrite Hm, iterrows_length.
Qed.

Lemma satisfaction_rows P df0 df1 :
  well_formed df0 ->
  snd (if inb "satisfaction" (columns df0)
       then do! s := lift (str_method P (py_title P) (column "satisfaction" df0)) in
            retT (assign "Satisfaction" s df0)
       else retT df0) = Ok df1 ->
  length (data df1) = length (data df0).
Proof.
  intros Hwf0 H1. destruct (inb "satisfaction" (columns df0)).
  - apply bindT_ok in H1 as (s & Hs & H1). cbn [lift retT snd] in Hs, H1.
    injection H1 as <-. apply assign_length. apply str_method_length in Hs.
    now rewrite Hs, column_length.
  - cbn [retT snd] in H1. now injection H1 as <-.
Qed.

(** X24: the two derived columns of the survey transform, on a frame with
    one cell per column.  When the file has a column satisfaction, the
    Satisfaction column returned is [str.title] of it; when the file has
    at least one of the fourteen rating columns, the AverageRating cell of
    every row returned is the mean, NaN skipped, of the rating columns the
    file has, on the same row of the file. *)
Theorem transform_csv_derived_columns (P : pandas) (df out : DataFrame) :
  well_formed df ->
  snd (transform_csv P df) = Ok out ->
  (inb "satisfaction" (columns df) = true ->
   str_method P (py_title P) (column "satisfaction" df) = Ok (column "Satisfaction" out)) /\
  (List.filter (fun col => inb col (columns df)) rating_cols <> [] ->
   Forall2 (fun r v => transform_csv_AverageRating P (columns df) r = Some (Ok v))
           (iterrows df) (column "AverageRating" out)).
Proof.
  intros Hwf H. unfold transform_csv in H.
  apply bindT_ok in H as ([] & _ & H). cbv zeta in H.
  apply bindT_ok in H as (df1 & H1 & H).
  apply bindT_ok in H as (df2 & H2 & H).
  apply bindT_ok in H as (df_mapped & Hadd & H). cbn [retT snd] in H. injection H as <-.
  set (keep := fun c => negb (String.prefix "Unnamed" c)) in *.
  pose proof (wf_select_columns keep df Hwf) as Hwf0.
  pose proof (satisfaction_rows P _ _ Hwf0 H1) as Hrows1.
  pose proof (satisfaction_step P _ _ Hwf0 H1) as (Hwf1 & Same1).
  pose proof (rating_step P _ _ Hwf1 H2) as (Hwf2 & Same2).
  destruct (mapped_fold df2 column_mapping no_frame (or_introl eq_refl) column_mapping_NoDup)
    as (Hcopy & _ & Copied & _).
  cbv zeta in Hcopy, Copied.
  match type of Hadd with
  | snd (add_missing _ ?F) = _ => set (mapped := F) in *
  end.
  assert (well_formed mapped) as Hwfm
    by (destruct Hcopy as [-> | [Hm _]]; [constructor | exact Hm]).
  destruct (add_missing_ok required_cols mapped Hwfm)
    as (ns & acc' & Hrun & Hwf' & Keep & _ & _).
  rewrite Hrun in Hadd. cbn [snd] in Hadd. injection Hadd as ->.
  clearbody mapped.
  assert (forall c, In (c, c) column_mapping -> In c required_cols -> In c (columns df2) ->
            column c (take_columns required_cols df_mapped) = column c df2) as Hout.
  { intros c Hmap Hreq Hc. rewrite column_take_columns by exact Hreq.
    apply inb_In in Hc.
    destruct (Copied (c, c) Hmap Hc) as [C1 C2]. cbn [fst snd] in C1, C2.
    destruct (Keep c C1) as [_ ->]. exact C2. }
  split.
  - intros Hin.
    assert (inb "satisfaction" (columns (select_columns keep df)) = true) as Hin0.
    { apply inb_In. cbn [select_columns columns]. apply filter_In.
      split; [now apply inb_In | reflexivity]. }
    destruct (satisfaction_titled P _ _ Hwf0 Hin0 H1) as [Hc1 Hs].
    rewrite column_select_columns in Hs by reflexivity. rewrite Hs. f_equal.
    destruct (Same2 "Satisfaction") as [S2 T2]; [discriminate|].
    rewrite Hout; [symmetry; exact S2 | cbn; tauto | cbn; tauto | now apply T2].
  - intros Hne.
    set (existing := List.filter (fun col => inb col (columns df)) rating_cols) in *.
    assert (List.filter (fun col => inb col (columns df1)) rating_cols = existing) as Hex.
    { subst existing. apply filter_ext_in. intros c Hc.
      destruct (rating_cols_kept c Hc) as (K1 & K2 & _).
      destruct (Same1 c K2) as [_ T1].
      apply eq_true_iff_eq. rewrite !inb_In, T1. cbn [select_columns columns].
      rewrite filter_In. subst keep. cbn. rewrite K1. tauto. }
    destruct (rating_averaged P df1 df2 existing Hwf1 Hex Hne H2) as [Hc2 Hm].
    rewrite <- Hout in Hm; [|cbn; tauto | cbn; tauto | exact Hc2].
    assert (map (fun r => map (get r) existing) (iterrows df1)
            = map (fun r => map (get r) existing) (iterrows df)) as Hrows.
    { apply rows_of_columns.
      - rewrite Hrows1. cbn [select_columns data]. apply List.length_map.
      - intros c Hc. subst existing. apply filter_In in Hc as [Hc _].
        destruct (rating_cols_kept c Hc) as (K1 & K2 & _).
        destruct (Same1 c K2) as [-> _]. apply column_select_columns.
        subst keep. cbn. now rewrite K1. }
    rewrite <- (map_outcome_map (row_mean P) (fun r => map (get r) existing)) in Hm.
    rewrite Hrows, map_outcome_map in Hm.
    apply map_outcome_Forall2 in Hm. apply (Forall2_mono _ _ _ _ Hm).
    intros r v Hrv. unfold transform_csv_AverageRating. fold existing.
    destruct existing; [congruence | now rewrite Hrv].
Qed.

Lemma transform_csv_derived_columns_witness :
  Forall2 (fun r v => transform_csv_AverageRating plain (columns raw_survey) r = Some (Ok v))
          (iterrows raw_survey) (column "AverageRating" (df_csv transformed)).
Proof.
  apply (proj2 (transform_csv_derived_columns plain raw_survey (df_csv transformed)
                  ltac:(repeat constructor) ltac:(vm_compute; reflexivity))).
  vm_compute. discriminate.
Defined.

(** ** From the extracted frames to the warehouse *)

Lemma extract_api_fetched r : snd (extract_api r) = Ok (fetched r).
Proof. now destruct r. Qed.

Lemma extract_transform_ok P I ns B :
  extract_transform P I = (ns, Ok B) ->
  snd (transform_oltp1_customers P (Customers I)) = Ok (df_cust B) /\
  snd (transform_oltp1_bookings P (Bookings I)) = Ok (df_book B) /\
  snd (transform_oltp1_payments P (Payments I)) = Ok (df_pay B) /\
  snd (transform_oltp2_aircrafts P (Aircrafts I)) = Ok (df_air B) /\
  snd (transform_oltp2_flights P (Flights I)) = Ok (df_flights B) /\
  snd (transform_oltp2_routes P (Routes I)) = Ok (df_routes B) /\
  snd (transform_api P (fetched (api I))) = Ok (df_api B) /\
  snd (transform_csv P (csv I)) = Ok (df_csv B).
Proof.
  intros H. apply (f_equal snd) in H. cbn [snd] in H. unfold extract_transform in H.
  apply bindT_ok in H as (o1 & H1 & H). cbn in H1. injection H1 as <-.
  apply bindT_ok in H as (o2 & H2 & H). cbn in H2. injection H2 as <-.
  apply bindT_ok in H as (a & Ha & H). rewrite extract_api_fetched in Ha. injection Ha as <-.
  apply bindT_ok in H as (c & Hc & H). cbn in Hc. injection Hc as <-.
  cbn [fst snd] in H.
  apply bindT_ok in H as (x1 & K1 & H). apply bindT_ok in H as (x2 & K2 & H).
  apply bindT_ok in H as (x3 & K3 & H). apply bindT_ok in H as (x4 & K4 & H).
  apply bindT_ok in H as (x5 & K5 & H). apply bindT_ok in H as (x6 & K6 & H).
  apply bindT_ok in H as (x7 & K7 & H). apply bindT_ok in H as (x8 & K8 & H).
  cbn [retT snd] in H. injection H as <-. cbn [df_cust df_book df_pay df_air df_flights
    df_routes df_api df_csv]. repeat split; assumption.
Qed.

Lemma get_notin (r : row) c : ~ In c (map fst r) -> get r c = VNull.
Proof.
  induction r as [|[k x] r IH]; intros Hn; [reflexivity|]. cbn [get].
  destruct (String.eqb_spec k c) as [-> | _]; [cbn in Hn; tauto | apply IH; cbn in Hn; tauto].
Qed.

Lemma combine_labels {A B} (l : list A) (l' : list B) a :
  In a (map fst (combine l l')) -> In a l.
Proof.
  intros H. apply in_map_iff in H as ([x y] & <- & H). now apply in_combine_l in H.
Qed.

Lemma staged_row_labels cols df s c :
  In s (iterrows (staged_frame cols df)) -> ~ In c (columns df) -> get s c = VNull.
Proof.
  intros Hs Hc. apply get_notin. intros Hin. apply Hc.
  unfold iterrows in Hs. apply in_map_iff in Hs as (vs & <- & _).
  apply combine_labels in Hin. destruct cols; cbn [staged_frame] in Hin; [exact Hin|].
  cbn [select_columns columns] in Hin. now apply filter_In in Hin.
Qed.

Lemma AverageRating_all_null E s :
  (forall c, In c survey_columns -> get s c = VNull) -> AverageRating E s = Ok VNull.
Proof.
  intros H. unfold AverageRating.
  rewrite (map_ext_in (get s) (fun _ => VNull) survey_columns H). reflexivity.
Qed.

Lemma transform_csv_columns P df out :
  snd (transform_csv P df) = Ok out -> columns out = satisfaction_columns.
Proof.
  intros H. unfold transform_csv in H.
  apply bindT_ok in H as ([] & _ & H). cbv zeta in H.
  apply bindT_ok in H as (df1 & _ & H). apply bindT_ok in H as (df2 & _ & H).
  apply bindT_ok in H as (df_mapped & _ & H). cbn [retT snd] in H. now injection H as <-.
Qed.

Lemma survey_not_required c : In c survey_columns -> ~ In c satisfaction_columns.
Proof.
  intros Hc Hs. apply inb_In in Hs.
  assert (forallb (fun c => negb (inb c satisfaction_columns)) survey_columns = true) as H
    by reflexivity.
  rewrite forallb_forall in H. apply H in Hc. now rewrite Hs in Hc.
Qed.

Lemma run_ok E B d w :
  run E B d = (Ok tt, w) ->
  exists wS, stage_all E B (connect d) = (Ok tt, wS) /\
    (forall X, committed w !! target_name X = merged_table E X (session wS)) /\
    (forall x, (forall X, x <> target_name X) -> committed w !! x = session wS !! x) /\
    exists evs, out w = out wS ++ evs.
Proof.
  unfold run, main. intros H.
  destruct (stage_all E B (connect d)) as [[[]|e] wS] eqn:Hst;
    [rewrite (bind_eq _ _ _ _ _ Hst) in H | rewrite (bind_raise _ _ _ _ _ Hst) in H; discriminate].
  exists wS. split; [reflexivity|].
  destruct (merge_to_dim_fact_spec E wS) as (w3 & Hrun & Hc & Ht & Hf & Hout).
  rewrite (bind_eq _ _ _ _ _ Hrun) in H. unfold bind, close, print in H.
  injection H as <-. cbn [committed out]. rewrite Hc.
  split; [exact Ht|]. split; [exact Hf|]. rewrite Hout, <- !app_assoc. now eexists.
Qed.

(** X25: whatever the survey file holds, no average computed from it
    reaches the warehouse.  After a run of the whole pipeline that
    completes, DimSatisfaction holds its former rows followed by inserted
    rows whose AverageRating is NULL: the transform keeps none of the
    fourteen ratings the merge sums, and a column an INSERT does not name
    reads as NULL. *)
Theorem survey_average_never_reaches_the_warehouse (P : pandas) (E : engine) (I : inputs)
    (d : db) (ns : list notice) (w : world) (tb0 tb1 : table) :
  pipeline P E I d = (ns, (Ok tt, w)) ->
  d !! "DimSatisfaction" = Some tb0 ->
  committed w !! "DimSatisfaction" = Some tb1 ->
  exists inserted,
    trows tb1 = trows tb0 ++ inserted /\
    forall r, In r inserted -> get r "AverageRating" = VNull.
Proof.
  intros Hp Hd Hw. unfold pipeline in Hp.
  destruct (extract_transform P I) as [ns' [B|e]] eqn:HB; [|discriminate].
  injection Hp as -> Hrun.
  apply extract_transform_ok in HB as (_ & _ & _ & _ & _ & _ & _ & Hcsv).
  apply transform_csv_columns in Hcsv.
  apply run_ok in Hrun as (wS & Hst & Ht & _ & _).
  specialize (Ht DimSatisfaction). cbn [target_name] in Ht. rewrite Hw in Ht.
  pose proof (staged_target E B d DimSatisfaction) as Htgt.
  unfold staged in Htgt. rewrite Hst in Htgt. cbn [snd target_name] in Htgt.
  rewrite Hd in Htgt.
  unfold merged_table in Ht.
  destruct (merge_of E DimSatisfaction (session wS)) as [tb|] eqn:Hm.
  - injection Ht as <-.
    apply stage_all_ok in Hst as (w1 & Hr & Hs & _ & _).
    destruct (run_loads_staged E (load_plan B) (connect d) w1 eq_refl (load_plan_NoDup B) Hr
                (df_csv B) "Stg_CustomerSatisfaction") as (stg0 & _ & Hstg);
      [unfold load_plan; apply in_or_app; left; cbn; tauto|].
    rewrite <- Hs in Hstg.
    destruct (merge_DimSatisfaction_rows E _ _ _ _ Hm Htgt Hstg) as (inserted & Hrows & Hin).
    exists inserted. split; [exact Hrows|]. intros r Hr0.
    destruct (Hin r Hr0) as (s & Hs1 & _ & Havg). cbn [trows] in Hs1.
    rewrite AverageRating_all_null in Havg; [congruence|].
    intros c Hc. apply (staged_row_labels _ _ _ _ Hs1). rewrite Hcsv.
    now apply survey_not_required.
  - cbn [target_name] in Ht. rewrite Htgt in Ht. injection Ht as <-.
    exists []. split; [now rewrite app_nil_r | intros r []].
Qed.

Lemma survey_average_never_reaches_the_warehouse_witness :
  exists tb1,
    committed (snd (snd (pipeline plain permissive extracted schema))) !! "DimSatisfaction"
    = Some tb1 /\
    exists inserted,
      trows tb1 = [] ++ inserted /\
      forall r, In r inserted -> get r "AverageRating" = VNull.
Proof.
  eexists. split; [vm_compute; reflexivity|].
  apply (survey_average_never_reaches_the_warehouse plain permissive extracted schema
           (fst (pipeline plain permissive extracted schema))
           (snd (snd (pipeline plain permissive extracted schema)))
           (empty_table satisfaction_columns));
    vm_compute; reflexivity.
Defined.

Lemma transform_api_empty P df :
  df_empty df = true -> transform_api P df = ([Transforming "API"], Ok df).
Proof. intros H. unfold transform_api. now rewrite H. Qed.

(** X26: when the API call fails, or returns an empty frame, the run
    never loads Stg_API_Flights: the table keeps what it held, however the
    run ends, and a run that completes prints the skip notice. *)
Theorem failed_api_call_skips_the_load (P : pandas) (E : engine) (I : inputs) (d : db)
    (ns : list notice) (o : outcome unit) (w : world) :
  df_empty (fetched (api I)) = true ->
  pipeline P E I d = (ns, (o, w)) ->
  committed w !! "Stg_API_Flights" = d !! "Stg_API_Flights" /\
  (o = Ok tt -> In SkipApi (out w)).
Proof.
  intros Hempty Hp. unfold pipeline in Hp.
  destruct (extract_transform P I) as [ns' [B|e]] eqn:HB;
    [|injection Hp as _ <- <-; split; [reflexivity | discriminate]].
  injection Hp as _ Hrun.
  apply extract_transform_ok in HB as (_ & _ & _ & _ & _ & _ & Hapi & _).
  rewrite (transform_api_empty P _ Hempty) in Hapi. cbn [snd] in Hapi.
  injection Hapi as Hapi.
  assert (~ In "Stg_API_Flights" (map snd (load_plan B))) as Hnot.
  { unfold load_plan. rewrite <- Hapi, Hempty. cbn. intros H.
    repeat (destruct H as [H | H]; [discriminate|]). exact H. }
  assert (forall X, "Stg_API_Flights" <> target_name X) as Hnt
    by (intros []; discriminate).
  pose proof (after_run_spec E B d) as Hspec.
  destruct (stage_all_loads E B (connect d)) as (_ & Hs & Hc).
  destruct (run_loads E (load_plan B) (connect d)) as [o1 w1] eqn:Hr.
  edestruct (run_loads_frame E (load_plan B) (connect d)) as (Hf & _);
    [reflexivity | exact Hr |].
  destruct (Hf _ Hnot) as [F1 F2]. cbn [snd connect session] in *.
  unfold after_run in Hspec. rewrite Hrun in Hspec. cbn [snd] in Hspec.
  split.
  - destruct (stage_all E B (connect d)) as [[[]|e] wS]; cbn [snd] in *.
    + destruct Hspec as [_ Hx]. rewrite (Hx _ Hnt). now rewrite Hs.
    + rewrite Hspec. now rewrite Hc.
  - intros ->. apply run_ok in Hrun as (wS & Hst & _ & _ & evs & Hout).
    apply stage_all_ok in Hst as (w2 & _ & _ & _ & Hskip).
    rewrite Hout, Hskip by (now rewrite <- Hapi). apply in_or_app. left.
    apply in_or_app. right. now left.
Qed.

Lemma failed_api_call_skips_the_load_witness :
  In SkipApi (out (snd (snd (pipeline plain permissive extracted schema)))).
Proof.
  refine (proj2 (failed_api_call_skips_the_load plain permissive extracted schema
                   (fst (pipeline plain permissive extracted schema))
                   (Ok tt)
                   (snd (snd (pipeline plain permissive extracted schema))) _ _) eq_refl);
    vm_compute; reflexivity.
Defined.

Lemma key_eqb_join a b c : key_eqb a b = true -> key_eqb a c = true -> key_eqb b c = true.
Proof.
  destruct a as [|m|s|p], b as [|n|t|q], c as [|k|u|r]; cbn [key_eqb];
    try discriminate; try reflexivity;
    rewrite ?Z.eqb_eq, ?String.eqb_eq, ?Qeq_bool_iff; intros H1 H2.
  all: try (subst; reflexivity).
  all: try (subst; assumption).
  - subst. now symmetry.
  - now rewrite <- H1, <- H2.
  - apply inject_Z_injective. now rewrite <- H1, <- H2.
  - now rewrite <- H1, <- H2.
  - now rewrite <- H1, <- H2.
  - now rewrite <- H1, <- H2.
Qed.

Lemma update_matched_multiple E tname kt ks upd src tgt : forall pre t,
  update_matched E tname kt ks upd src pre tgt = Raise (MultipleMatch t) ->
  exists t0 s1 s2 l, In t0 tgt /\ List.filter (matched kt ks t0) src = s1 :: s2 :: l.
Proof.
  induction tgt as [|t0 tgt IH]; intros pre t H; cbn [update_matched] in H; [discriminate|].
  destruct (List.filter (matched kt ks t0) src) as [|s1 [|s2 l]] eqn:Hf.
  - apply IH in H as (t1 & a & b & l & Hin & Hl). exists t1, a, b, l. split; [now right | exact Hl].
  - destruct (accepts E tname (pre ++ tgt) (upd t0 s1)); [|discriminate].
    apply IH in H as (t1 & a & b & l & Hin & Hl). exists t1, a, b, l. split; [now right | exact Hl].
  - exists t0, s1, s2, l. split; [now left | exact Hf].
Qed.

Lemma insert_unmatched_raise E tname kt ks ins tgt0 src : forall acc e,
  insert_unmatched E tname kt ks ins tgt0 acc src = Raise e -> exists r, e = Rejected tname r.
Proof.
  induction src as [|s src IH]; intros acc e H; cbn [insert_unmatched] in H; [discriminate|].
  destruct (existsb _ tgt0); [now apply IH in H|].
  destruct (accepts E tname acc (ins s)); [now apply IH in H|].
  injection H as <-. now eexists.
Qed.

Lemma need_cols_raise have want e :
  need_cols have want = Raise e -> exists c, e = InvalidColumn c.
Proof.
  induction want as [|c want IH]; cbn [need_cols]; [discriminate|].
  destruct (inb c have); [exact IH|]. intros [= <-]. now eexists.
Qed.

Lemma distinct_source_matches_once E d t stg :
  d !! "Stg_Customers" = Some stg ->
  distinct_keys (keys_of "CustomerID" (trows stg)) = true ->
  merge_of E DimCustomer d <> Raise (MultipleMatch t).
Proof.
  intros Hs Hd H. unfold merge_of in H. cbn [merge_with] in H.
  unfold merge_DimCustomer, sql_merge in H.
  destruct (need_table d "DimCustomer") as [tgt|] eqn:Ht; cbn [obind] in H;
    [|unfold need_table in Ht; destruct (d !! "DimCustomer"); congruence].
  unfold staging, need_table in H. rewrite Hs in H. cbn [obind] in H.
  destruct (need_cols (tcols tgt) _) eqn:N1; cbn [obind] in H;
    [|apply need_cols_raise in N1 as (c & ->); discriminate].
  destruct (need_cols (tcols stg) _) eqn:N2; cbn [obind] in H;
    [|apply need_cols_raise in N2 as (c & ->); discriminate].
  destruct (update_matched E _ _ _ _ (trows stg) [] (trows tgt)) as [t1|e] eqn:Hu;
    cbn [obind] in H.
  - destruct (insert_unmatched E _ _ _ _ (trows tgt) t1 (trows stg)) eqn:Hi;
      cbn [obind] in H; [discriminate|].
    apply insert_unmatched_raise in Hi as (r & ->). discriminate.
  - injection H as ->.
    apply update_matched_multiple in Hu as (t0 & s1 & s2 & l & _ & Hf).
    pose proof (distinct_keys_filter (fun r => get r "CustomerID")
                  (matched "CustomerID" "CustomerID" t0) (trows stg) Hd) as Hdf.
    rewrite Hf in Hdf. cbn [map distinct_keys existsb] in Hdf.
    assert (In s1 (s1 :: s2 :: l)) as I1 by now left.
    assert (In s2 (s1 :: s2 :: l)) as I2 by (right; now left).
    rewrite <- Hf in I1, I2. apply filter_In in I1 as [_ M1]. apply filter_In in I2 as [_ M2].
    unfold matched, sql_eq in M1, M2.
    apply andb_true_iff in M1 as [_ M1]. apply andb_true_iff in M2 as [_ M2].
    rewrite (key_eqb_join _ _ _ M1 M2) in Hdf. discriminate.
Qed.

(** X27: after the customer transform the customer merge cannot fail for
    joining one dimension row to two staged customers.  When the extracted
    frame and the staging table both have the column CustomerID and the
    staging loads succeed, the merge of DimCustomer on the staged store
    does not raise the multiple-match error. *)
Theorem deduplicated_customers_match_once (P : pandas) (E : engine) (raw : DataFrame)
    (B : batches) (d : db) (wS : world) (tb0 : table) :
  inb "CustomerID" (columns raw) = true ->
  snd (transform_oltp1_customers P raw) = Ok (df_cust B) ->
  d !! "Stg_Customers" = Some tb0 ->
  In "CustomerID" (tcols tb0) ->
  stage_all E B (connect d) = (Ok tt, wS) ->
  multiple_match (merge_of E DimCustomer (session wS)) = false.
Proof.
  intros Hin Htr Hd Hcol Hst.
  apply stage_all_ok in Hst as (w1 & Hr & Hs & _ & _). rewrite Hs.
  destruct (run_loads_staged E (load_plan B) (connect d) w1 eq_refl (load_plan_NoDup B) Hr
              (df_cust B) "Stg_Customers") as (tb & Htb & Hstg);
    [unfold load_plan; apply in_or_app; left; cbn; tauto|].
  cbn [connect session] in Htb. rewrite Hd in Htb. injection Htb as <-.
  destruct (merge_of E DimCustomer (session w1)) as [tb|e] eqn:Hm; [reflexivity|].
  destruct e; try reflexivity. exfalso.
  apply (distinct_source_matches_once E _ _ _ Hstg) in Hm; [exact Hm|]. cbn [trows].
  assert (tcols tb0 <> []) as Hne by (intros Hnil; rewrite Hnil in Hcol; destruct Hcol).
  rewrite (iterrows_staged _ _ Hne). unfold keys_of. rewrite map_map.
  rewrite (map_ext _ (fun r => get r "CustomerID"))
    by (intros r; now apply restrict_get).
  fold (column "CustomerID" (df_cust B)).
  destruct (dedup_customers P raw (df_cust B) Htr) as (id & Hid & _ & Hdist).
  unfold col_or_first in Hid. rewrite Hin in Hid. now injection Hid as <-.
Qed.

Lemma deduplicated_customers_match_once_witness :
  multiple_match
    (merge_of permissive DimCustomer
       (session (snd (stage_all permissive transformed (connect schema))))) = false.
Proof.
  refine (deduplicated_customers_match_once plain permissive raw_customers transformed schema
            (snd (stage_all permissive transformed (connect schema)))
            (empty_table ["CustomerID"; "Name"]) _ _ _ _ _);
    try (vm_compute; reflexivity).
  left. reflexivity.
Defined.
